(** * WebSense backend: a shallow embedding of the website-analysis service

    The development follows [src/website-analysis/website-analysis.service.ts],
    [src/website-analysis/website-analysis.controller.ts] and
    [src/config/configuration.ts].

    - JavaScript strings are modelled by [string] (sequences of 8-bit
      characters); [toLowerCase] lowers the ASCII letters.
    - JavaScript numbers are modelled by [Z] where the code only handles
      integers and by [Q] where it divides; IEEE rounding is not modelled.
    - A parsed JSON document is a [JSValue]; the tool outputs that the code
      reads at a fixed schema (the screenshots of a Lighthouse report, the
      technologies of the fingerprinting engine) are records. The densities
      of a CrUX record are read at their schema, as numbers or [null]. The
      scores of a Lighthouse report are converted to numbers as JavaScript
      converts them; what the engine reads off a string, an array or an
      object, and its product of two doubles, are parameters there.
    - Calls that leave the handler (child processes, the file system, the
      clock, the environment, HTTP requests) are events of a program tree
      that a world answers; [try] / [catch] and [throw] are operations on
      such trees. Logging is left out. *)

From Stdlib Require Import ZArith QArith Qround Qabs String Ascii List Bool Lia
  DecimalString DecimalPos Sorted.
From stdpp Require Import base gmap strings.
Import ListNotations.

Set Warnings "-register-all".

Local Open Scope string_scope.
Local Open Scope Z_scope.
Local Open Scope list_scope.

(** ** JavaScript string primitives *)

(** [s.startsWith(p)] *)
Definition startsWith (s p : string) : bool := String.prefix p s.

(** [s.includes(k)] *)
Fixpoint includes (s k : string) : bool :=
  String.prefix k s ||
  match s with
  | EmptyString => false
  | String _ rest => includes rest k
  end.

Definition lower_ascii (c : ascii) : ascii :=
  let n := nat_of_ascii c in
  if (Nat.leb 65 n && Nat.leb n 90)%bool then ascii_of_nat (n + 32) else c.

(** [s.toLowerCase()] *)
Fixpoint toLowerCase (s : string) : string :=
  match s with
  | EmptyString => EmptyString
  | String c rest => String (lower_ascii c) (toLowerCase rest)
  end.

(** The double-quote and the backslash characters. *)
Definition dq : string := String (ascii_of_nat 34) EmptyString.
Definition backslash : string := String (ascii_of_nat 92) EmptyString.

(** Concatenation of the pieces of a template literal. *)
Definition template (pieces : list string) : string := String.concat EmptyString pieces.

(** [s.replace(/"/g, '\\"')]: every double quote gets a backslash in front. *)
Fixpoint escape_quotes (s : string) : string :=
  match s with
  | EmptyString => EmptyString
  | String c rest =>
      if Ascii.eqb c (ascii_of_nat 34)
      then String.append backslash (String c (escape_quotes rest))
      else String c (escape_quotes rest)
  end.

(** White space ([\s] in a regular expression), restricted to 8-bit
    characters. *)
Definition is_space (c : ascii) : bool :=
  let n := nat_of_ascii c in
  (Nat.eqb n 9 || Nat.eqb n 10 || Nat.eqb n 11 || Nat.eqb n 12 || Nat.eqb n 13
   || Nat.eqb n 32 || Nat.eqb n 160)%bool.

(** Consume leading white space ([\s*]). *)
Fixpoint skip_spaces (s : string) : string :=
  match s with
  | String c rest => if is_space c then skip_spaces rest else s
  | EmptyString => s
  end.

(** [keywords.some(keyword => name.includes(keyword) || category.includes(keyword))] *)
Definition some_keyword (keywords : list string) (name category : string) : bool :=
  List.existsb (fun keyword => includes name keyword || includes category keyword) keywords.

(** ** Technology bucketing ([categorizeTechnologies], [categorizeTechnology]) *)

(** A technology as the fingerprinting engine reports it. *)
Record RawTech := {
  raw_name : string;
  raw_version : option string;
  raw_confidence : option Z;
  raw_category : option string;
  raw_description : option string
}.

(** The [techInfo] object built for every detected technology. *)
Record TechInfo := {
  name : string;
  version : string;
  confidence : Z;
  category : string;
  description : string
}.

(** [v || d] on an optional string: an absent or empty string is falsy. *)
Definition str_or (v : option string) (d : string) : string :=
  match v with
  | Some s => if String.eqb s EmptyString then d else s
  | None => d
  end.

(** [v || d] on an optional number: an absent number or zero is falsy. *)
Definition num_or (v : option Z) (d : Z) : Z :=
  match v with
  | Some n => if Z.eqb n 0 then d else n
  | None => d
  end.

Definition techInfo_of (tech : RawTech) : TechInfo :=
  {| name := raw_name tech;
     version := str_or (raw_version tech) "Unknown";
     confidence := num_or (raw_confidence tech) 0;
     category := str_or (raw_category tech) "Unknown";
     description := str_or (raw_description tech) EmptyString |}.

Record TechStack := {
  frontend : list TechInfo;
  backend : list TechInfo;
  databases : list TechInfo;
  programmingLanguages : list TechInfo;
  frameworks : list TechInfo;
  libraries : list TechInfo
}.

Record DevOps := {
  webServers : list TechInfo;
  cdn : list TechInfo;
  hosting : list TechInfo;
  cloudServices : list TechInfo
}.

Record Competitor := {
  paymentProcessors : list TechInfo;
  advertisingNetworks : list TechInfo;
  abTesting : list TechInfo
}.

Record Categories := {
  techStack : TechStack;
  cms : list TechInfo;
  ecommerce : list TechInfo;
  analytics : list TechInfo;
  devops : DevOps;
  security : list TechInfo;
  competitor : Competitor
}.

Definition empty_categories : Categories :=
  {| techStack := {| frontend := []; backend := []; databases := [];
                     programmingLanguages := []; frameworks := []; libraries := [] |};
     cms := []; ecommerce := []; analytics := [];
     devops := {| webServers := []; cdn := []; hosting := []; cloudServices := [] |};
     security := [];
     competitor := {| paymentProcessors := []; advertisingNetworks := []; abTesting := [] |} |}.

Definition frontendKeywords : list string :=
  ["react"; "vue"; "angular"; "jquery"; "bootstrap"; "tailwind"; "sass"; "less";
   "webpack"; "vite"; "parcel"; "gulp"; "grunt"; "typescript"; "javascript";
   "html5"; "css3"; "pwa"; "service worker"; "web components"].

Definition backendKeywords : list string :=
  ["node.js"; "express"; "django"; "flask"; "laravel"; "spring"; "asp.net";
   "php"; "python"; "java"; "c#"; "ruby"; "rails"; "fastapi"; "koa";
   "hapi"; "sails"; "meteor"; "strapi"; "ghost"].

Definition databaseKeywords : list string :=
  ["mysql"; "postgresql"; "mongodb"; "redis"; "sqlite"; "mariadb";
   "oracle"; "sql server"; "dynamodb"; "firebase"; "supabase"].

Definition languageKeywords : list string :=
  ["javascript"; "typescript"; "python"; "php"; "java"; "c#"; "ruby";
   "go"; "rust"; "swift"; "kotlin"; "scala"; "elixir"; "clojure"].

Definition frameworkKeywords : list string :=
  ["react"; "vue"; "angular"; "svelte"; "next.js"; "nuxt"; "gatsby";
   "django"; "flask"; "express"; "laravel"; "spring"; "asp.net";
   "rails"; "fastapi"; "koa"; "hapi"; "sails"].

Definition libraryKeywords : list string :=
  ["jquery"; "lodash"; "moment"; "axios"; "fetch"; "socket.io";
   "three.js"; "d3"; "chart.js"; "fabric"; "konva"].

Definition cmsKeywords : list string :=
  ["wordpress"; "drupal"; "joomla"; "magento"; "shopify"; "squarespace";
   "wix"; "webflow"; "ghost"; "strapi"; "contentful"; "sanity"].

Definition ecommerceKeywords : list string :=
  ["shopify"; "woocommerce"; "magento"; "prestashop"; "opencart";
   "bigcommerce"; "squarespace"; "wix"; "webflow"; "stripe";
   "paypal"; "razorpay"; "razorpay"; "square"].

Definition analyticsKeywords : list string :=
  ["google analytics"; "gtag"; "ga"; "hotjar"; "segment"; "mixpanel";
   "amplitude"; "heap"; "kissmetrics"; "crazy egg"; "optimizely";
   "google tag manager"; "facebook pixel"; "twitter pixel"].

Definition serverKeywords : list string :=
  ["apache"; "nginx"; "iis"; "lighttpd"; "caddy"; "traefik"].

Definition cdnKeywords : list string :=
  ["cloudflare"; "akamai"; "fastly"; "aws cloudfront"; "azure cdn";
   "google cloud cdn"; "bunny cdn"; "keycdn"; "stackpath"].

Definition hostingKeywords : list string :=
  ["aws"; "amazon web services"; "azure"; "google cloud"; "heroku";
   "digitalocean"; "linode"; "vultr"; "netlify"; "vercel"; "firebase";
   "surge"; "github pages"; "gitlab pages"].

Definition cloudKeywords : list string :=
  ["aws"; "azure"; "google cloud"; "firebase"; "supabase"; "heroku";
   "vercel"; "netlify"; "digitalocean"; "linode"; "vultr"].

Definition securityKeywords : list string :=
  ["recaptcha"; "ssl"; "tls"; "csp"; "hsts"; "xss protection";
   "csrf"; "security headers"; "cloudflare security"; "sucuri";
   "incapsula"; "akamai security"].

Definition paymentKeywords : list string :=
  ["stripe"; "paypal"; "razorpay"; "square"; "adyen"; "braintree";
   "worldpay"; "sage"; "quickbooks"; "xero"; "freshbooks"].

Definition adKeywords : list string :=
  ["google ads"; "facebook ads"; "twitter ads"; "linkedin ads";
   "amazon ads"; "bing ads"; "taboola"; "outbrain"; "adroll";
   "google adwords"; "google adsense"; "doubleclick"].

Definition abTestingKeywords : list string :=
  ["optimizely"; "vwo"; "google optimize"; "ab tasty"; "convert";
   "kissmetrics"; "mixpanel"; "amplitude"; "hotjar"; "crazy egg"].

Definition isFrontendTech := some_keyword frontendKeywords.
Definition isBackendTech := some_keyword backendKeywords.
Definition isDatabase := some_keyword databaseKeywords.
Definition isProgrammingLanguage := some_keyword languageKeywords.
Definition isFramework := some_keyword frameworkKeywords.
Definition isLibrary := some_keyword libraryKeywords.
Definition isCMS := some_keyword cmsKeywords.
Definition isEcommerce := some_keyword ecommerceKeywords.
Definition isAnalytics := some_keyword analyticsKeywords.
Definition isWebServer := some_keyword serverKeywords.
Definition isCDN := some_keyword cdnKeywords.
Definition isHosting := some_keyword hostingKeywords.
Definition isCloudService := some_keyword cloudKeywords.
Definition isSecurity := some_keyword securityKeywords.
Definition isPaymentProcessor := some_keyword paymentKeywords.
Definition isAdvertisingNetwork := some_keyword adKeywords.
Definition isABTesting := some_keyword abTestingKeywords.

(** The seventeen arrays a technology can be pushed to. *)
Inductive Bucket :=
| Frontend | Backend | Databases | ProgrammingLanguages | Frameworks | Libraries
| Cms | Ecommerce | Analytics
| WebServers | Cdn | Hosting | CloudServices
| Security
| PaymentProcessors | AdvertisingNetworks | AbTesting.

(** [categories.<bucket>] *)
Definition bucket_of (c : Categories) (b : Bucket) : list TechInfo :=
  match b with
  | Frontend => frontend (techStack c)
  | Backend => backend (techStack c)
  | Databases => databases (techStack c)
  | ProgrammingLanguages => programmingLanguages (techStack c)
  | Frameworks => frameworks (techStack c)
  | Libraries => libraries (techStack c)
  | Cms => cms c
  | Ecommerce => ecommerce c
  | Analytics => analytics c
  | WebServers => webServers (devops c)
  | Cdn => cdn (devops c)
  | Hosting => hosting (devops c)
  | CloudServices => cloudServices (devops c)
  | Security => security c
  | PaymentProcessors => paymentProcessors (competitor c)
  | AdvertisingNetworks => advertisingNetworks (competitor c)
  | AbTesting => abTesting (competitor c)
  end.

Definition with_techStack (c : Categories) (f : TechStack -> TechStack) : Categories :=
  {| techStack := f (techStack c); cms := cms c; ecommerce := ecommerce c;
     analytics := analytics c; devops := devops c; security := security c;
     competitor := competitor c |}.

Definition with_devops (c : Categories) (f : DevOps -> DevOps) : Categories :=
  {| techStack := techStack c; cms := cms c; ecommerce := ecommerce c;
     analytics := analytics c; devops := f (devops c); security := security c;
     competitor := competitor c |}.

Definition with_competitor (c : Categories) (f : Competitor -> Competitor) : Categories :=
  {| techStack := techStack c; cms := cms c; ecommerce := ecommerce c;
     analytics := analytics c; devops := devops c; security := security c;
     competitor := f (competitor c) |}.

(** [categories.<bucket>.push(tech)] *)
Definition push (b : Bucket) (tech : TechInfo) (c : Categories) : Categories :=
  match b with
  | Frontend => with_techStack c (fun t =>
      {| frontend := frontend t ++ [tech]; backend := backend t; databases := databases t;
         programmingLanguages := programmingLanguages t; frameworks := frameworks t;
         libraries := libraries t |})
  | Backend => with_techStack c (fun t =>
      {| frontend := frontend t; backend := backend t ++ [tech]; databases := databases t;
         programmingLanguages := programmingLanguages t; frameworks := frameworks t;
         libraries := libraries t |})
  | Databases => with_techStack c (fun t =>
      {| frontend := frontend t; backend := backend t; databases := databases t ++ [tech];
         programmingLanguages := programmingLanguages t; frameworks := frameworks t;
         libraries := libraries t |})
  | ProgrammingLanguages => with_techStack c (fun t =>
      {| frontend := frontend t; backend := backend t; databases := databases t;
         programmingLanguages := programmingLanguages t ++ [tech]; frameworks := frameworks t;
         libraries := libraries t |})
  | Frameworks => with_techStack c (fun t =>
      {| frontend := frontend t; backend := backend t; databases := databases t;
         programmingLanguages := programmingLanguages t; frameworks := frameworks t ++ [tech];
         libraries := libraries t |})
  | Libraries => with_techStack c (fun t =>
      {| frontend := frontend t; backend := backend t; databases := databases t;
         programmingLanguages := programmingLanguages t; frameworks := frameworks t;
         libraries := libraries t ++ [tech] |})
  | Cms =>
      {| techStack := techStack c; cms := cms c ++ [tech]; ecommerce := ecommerce c;
         analytics := analytics c; devops := devops c; security := security c;
         competitor := competitor c |}
  | Ecommerce =>
      {| techStack := techStack c; cms := cms c; ecommerce := ecommerce c ++ [tech];
         analytics := analytics c; devops := devops c; security := security c;
         competitor := competitor c |}
  | Analytics =>
      {| techStack := techStack c; cms := cms c; ecommerce := ecommerce c;
         analytics := analytics c ++ [tech]; devops := devops c; security := security c;
         competitor := competitor c |}
  | WebServers => with_devops c (fun d =>
      {| webServers := webServers d ++ [tech]; cdn := cdn d; hosting := hosting d;
         cloudServices := cloudServices d |})
  | Cdn => with_devops c (fun d =>
      {| webServers := webServers d; cdn := cdn d ++ [tech]; hosting := hosting d;
         cloudServices := cloudServices d |})
  | Hosting => with_devops c (fun d =>
      {| webServers := webServers d; cdn := cdn d; hosting := hosting d ++ [tech];
         cloudServices := cloudServices d |})
  | CloudServices => with_devops c (fun d =>
      {| webServers := webServers d; cdn := cdn d; hosting := hosting d;
         cloudServices := cloudServices d ++ [tech] |})
  | Security =>
      {| techStack := techStack c; cms := cms c; ecommerce := ecommerce c;
         analytics := analytics c; devops := devops c; security := security c ++ [tech];
         competitor := competitor c |}
  | PaymentProcessors => with_competitor c (fun p =>
      {| paymentProcessors := paymentProcessors p ++ [tech];
         advertisingNetworks := advertisingNetworks p; abTesting := abTesting p |})
  | AdvertisingNetworks => with_competitor c (fun p =>
      {| paymentProcessors := paymentProcessors p;
         advertisingNetworks := advertisingNetworks p ++ [tech]; abTesting := abTesting p |})
  | AbTesting => with_competitor c (fun p =>
      {| paymentProcessors := paymentProcessors p;
         advertisingNetworks := advertisingNetworks p; abTesting := abTesting p ++ [tech] |})
  end.

(** [categorizeTechnology(tech, categories)]: the if / else-if chain. *)
Definition categorizeTechnology (tech : TechInfo) (categories : Categories) : Categories :=
  let name := toLowerCase (name tech) in
  let category := toLowerCase (category tech) in
  if isFrontendTech name category then push Frontend tech categories
  else if isBackendTech name category then push Backend tech categories
  else if isDatabase name category then push Databases tech categories
  else if isProgrammingLanguage name category then push ProgrammingLanguages tech categories
  else if isFramework name category then push Frameworks tech categories
  else if isLibrary name category then push Libraries tech categories
  else if isCMS name category then push Cms tech categories
  else if isEcommerce name category then push Ecommerce tech categories
  else if isAnalytics name category then push Analytics tech categories
  else if isWebServer name category then push WebServers tech categories
  else if isCDN name category then push Cdn tech categories
  else if isHosting name category then push Hosting tech categories
  else if isCloudService name category then push CloudServices tech categories
  else if isSecurity name category then push Security tech categories
  else if isPaymentProcessor name category then push PaymentProcessors tech categories
  else if isAdvertisingNetwork name category then push AdvertisingNetworks tech categories
  else if isABTesting name category then push AbTesting tech categories
  else categories.

(** [categorizeTechnologies(results)]; [None] stands for a result without a
    [technologies] array. *)
Definition categorizeTechnologies (technologies : option (list RawTech)) : Categories :=
  match technologies with
  | None => empty_categories
  | Some techs =>
      fold_left (fun categories tech => categorizeTechnology (techInfo_of tech) categories)
                techs empty_categories
  end.

(** The specification's reading of the bucketing: a keyword table per bucket and a
    fixed priority order. *)
Definition keyword_table (b : Bucket) : list string :=
  match b with
  | Frontend => frontendKeywords
  | Backend => backendKeywords
  | Databases => databaseKeywords
  | ProgrammingLanguages => languageKeywords
  | Frameworks => frameworkKeywords
  | Libraries => libraryKeywords
  | Cms => cmsKeywords
  | Ecommerce => ecommerceKeywords
  | Analytics => analyticsKeywords
  | WebServers => serverKeywords
  | Cdn => cdnKeywords
  | Hosting => hostingKeywords
  | CloudServices => cloudKeywords
  | Security => securityKeywords
  | PaymentProcessors => paymentKeywords
  | AdvertisingNetworks => adKeywords
  | AbTesting => abTestingKeywords
  end.

Definition priority_order : list Bucket :=
  [Frontend; Backend; Databases; ProgrammingLanguages; Frameworks; Libraries;
   Cms; Ecommerce; Analytics; WebServers; Cdn; Hosting; CloudServices;
   Security; PaymentProcessors; AdvertisingNetworks; AbTesting].

(** Position of a bucket in the priority order. *)
Definition rank (b : Bucket) : nat :=
  match b with
  | Frontend => 0 | Backend => 1 | Databases => 2 | ProgrammingLanguages => 3
  | Frameworks => 4 | Libraries => 5 | Cms => 6 | Ecommerce => 7 | Analytics => 8
  | WebServers => 9 | Cdn => 10 | Hosting => 11 | CloudServices => 12
  | Security => 13 | PaymentProcessors => 14 | AdvertisingNetworks => 15
  | AbTesting => 16
  end%nat.

(** The lowercased name or the lowercased category of [tech] contains a
    keyword of the table of [b]. *)
Definition matches_bucket (tech : TechInfo) (b : Bucket) : Prop :=
  exists keyword, In keyword (keyword_table b) /\
    (includes (toLowerCase (name tech)) keyword = true \/
     includes (toLowerCase (category tech)) keyword = true).

(** [tech] has been pushed to bucket [b]. *)
Definition placed_in (tech : TechInfo) (before after : Categories) (b : Bucket) : Prop :=
  bucket_of after b = bucket_of before b ++ [tech].

(** The bucket the else-if chain selects, as a search along the priority order. *)
Definition first_bucket (tech : TechInfo) : option Bucket :=
  List.find (fun b => some_keyword (keyword_table b)
                        (toLowerCase (name tech)) (toLowerCase (category tech)))
            priority_order.

(** ** Numbers *)

(** [Math.round(x)]: the nearest integer, halves rounded up. *)
Definition Math_round (x : Q) : Z := Qfloor (x + (1 # 2)).

(** ** JavaScript values and thrown errors *)

(** A value as [JSON.parse] produces it, and [undefined]. *)
Inductive JSValue :=
| VUndefined
| VNull
| VBool (b : bool)
| VNum (q : Q)
| VStr (s : string)
| VArr (items : list JSValue)
| VObj (fields : list (string * JSValue)).

(** A thrown [Error]: its message and, for the errors of [cruxFetch], the
    HTTP status attached to it. *)
Record JsError := mkError {
  message : string;
  http_status : option Z
}.

Definition Error_ (msg : string) : JsError := {| message := msg; http_status := None |}.

(** Truthiness. *)
Definition truthy (v : JSValue) : bool :=
  match v with
  | VUndefined | VNull => false
  | VBool b => b
  | VNum q => negb (Qeq_bool q 0)
  | VStr s => negb (String.eqb s EmptyString)
  | VArr _ | VObj _ => true
  end.

Fixpoint assoc (key : string) (fields : list (string * JSValue)) : JSValue :=
  match fields with
  | [] => VUndefined
  | (k, v) :: rest => if String.eqb k key then v else assoc key rest
  end.

(** [v[key]] for a [v] that is neither [null] nor [undefined] and a [key] that
    is none of the built-in properties. *)
Definition get (v : JSValue) (key : string) : JSValue :=
  match v with
  | VObj fields => assoc key fields
  | _ => VUndefined
  end.

(** [v?.[key]] *)
Definition get_opt (v : JSValue) (key : string) : JSValue :=
  match v with
  | VUndefined | VNull => VUndefined
  | _ => get v key
  end.

(** [a || b] *)
Definition js_or (a b : JSValue) : JSValue := if truthy a then a else b.

(** [Object.values(v)] for a truthy [v] *)
Definition Object_values (v : JSValue) : list JSValue :=
  match v with
  | VObj fields => List.map snd fields
  | VArr items => items
  | VStr s => List.map (fun c => VStr (String c EmptyString)) (list_ascii_of_string s)
  | _ => []
  end.

(** Decimal notation of an integer. *)
Definition string_of_Z (z : Z) : string := NilZero.string_of_int (Z.to_int z).

(** ** Programs over external events *)

(** How an HTTP GET issued by [getSecurityHeaders] or [getPageData] ends. *)
Inductive HttpOutcome (A : Type) :=
| Responded (a : A)            (* the response callback ran and resolved *)
| RequestError (e : string)    (* the request emitted ['error'] *)
| SocketTimeout                (* [req.setTimeout] fired *)
| Deadline                     (* the ten-second timer fired *)
| GetThrew (e : string).       (* [client.get] itself threw *)
Arguments Responded {A} a.
Arguments RequestError {A} e.
Arguments SocketTimeout {A}.
Arguments Deadline {A}.
Arguments GetThrew {A} e.

(** How the request of [testWebsite] ends. *)
Inductive ProbeOutcome :=
| ProbeStatus (statusCode : Z)
| ProbeError (e : string)
| ProbeTimeout
| ProbeThrew (e : string).

(** What [getPageData] resolves to. *)
Record PageData := {
  html : string;
  page_headers : gmap string string;
  statusCode : Z
}.

(** A [fetch] response: status line and the outcome of [res.json()]. *)
Record FetchResponse := {
  res_status : Z;
  res_statusText : string;
  res_json : string + JSValue
}.

(** [res.ok] *)
Definition res_ok (res : FetchResponse) : bool :=
  (200 <=? res_status res) && (res_status res <=? 299).

(** The calls that leave the handler, indexed by the type of their answer.
    A call that fails answers with the message of the error that the runtime
    raises; such an error has no [status].
    [JSON.parse], [JSON.stringify], the conversion of a value to a string and
    [new URL(url).origin] are answered by the runtime as well. *)
Inductive Event : Type -> Type :=
| DateNow : Event Z
| ToISOString : Event string
| Cwd : Event string
| GetEnv (name : string) : Event (option string)
| ExistsSync (path : string) : Event bool
| MkdirSync (path : string) : Event (string + unit)
| StatSync (path : string) : Event (string + Z)
| ReadFileSync (path : string) : Event (string + string)
| UnlinkSync (path : string) : Event (string + unit)
| ExecAsync (command : string) : Event (string + string * string)
| JsonParse (text : string) : Event (string + JSValue)
| JsonStringify (v : JSValue) : Event string
| StringOf (v : JSValue) : Event string
| UrlOrigin (url : string) : Event (string + string)
| HttpGetHeaders (url : string) : Event (HttpOutcome (gmap string string))
| HttpGetPage (url : string) : Event (HttpOutcome PageData)
| HttpsProbe (url : string) : Event ProbeOutcome
| Fetch (url : string) (body : JSValue) : Event (string + FetchResponse)
| WappalyzerNew : Event (string + unit)
| WappalyzerInit : Event (string + unit)
| WappalyzerOpen (url : string) : Event (string + unit)
| WappalyzerAnalyze : Event (string + option (list RawTech))
| WappalyzerDestroy : Event (string + unit).

(** An asynchronous function body: it returns, throws, or performs an event
    and continues with the answer. *)
Inductive Prog (R : Type) : Type :=
| Ret (r : R)
| Throw (e : JsError)
| Vis {X : Type} (ev : Event X) (k : X -> Prog R).
Arguments Ret {R} r.
Arguments Throw {R} e.
Arguments Vis {R X} ev k.

Fixpoint bind {A B : Type} (p : Prog A) (f : A -> Prog B) : Prog B :=
  match p with
  | Ret a => f a
  | Throw e => Throw e
  | Vis ev k => Vis ev (fun x => bind (k x) f)
  end.

(** [try { p } catch (e) { handler e }] *)
Fixpoint try_catch {A : Type} (p : Prog A) (handler : JsError -> Prog A) : Prog A :=
  match p with
  | Ret a => Ret a
  | Throw e => handler e
  | Vis ev k => Vis ev (fun x => try_catch (k x) handler)
  end.

(** Perform an event. *)
Definition call {X : Type} (ev : Event X) : Prog X := Vis ev Ret.

(** Perform an event that fails by throwing. *)
Definition call_throwing {X : Type} (ev : Event (string + X)) : Prog X :=
  Vis ev (fun r => match r with inl msg => Throw (Error_ msg) | inr x => Ret x end).

(** Perform an event whose failure is caught and ignored. *)
Definition call_ignoring {X : Type} (ev : Event (string + X)) : Prog unit :=
  Vis ev (fun _ => Ret tt).

Declare Scope prog_scope.
Delimit Scope prog_scope with prog.
Notation "'let!' x ':=' p 'in' q" := (bind p (fun x => q))
  (at level 10, x pattern, p at level 100, q at level 200) : prog_scope.
Notation "'do!' p 'in' q" := (bind p (fun _ => q))
  (at level 10, p at level 100, q at level 200) : prog_scope.

(** One answered event. *)
Record Obs := observed {
  obs_type : Type;
  obs_event : Event obs_type;
  obs_answer : obs_type
}.
Arguments observed {obs_type} obs_event obs_answer.

(** How a handler ends. *)
Inductive Outcome (R : Type) :=
| Returned (r : R)
| Threw (e : JsError).
Arguments Returned {R} r.
Arguments Threw {R} e.

(** A world answers every event and moves to its next state. *)
Record World := {
  state : Type;
  answer : forall X : Type, Event X -> state -> X * state
}.

Record Run (w : World) (R : Type) := {
  trace : list Obs;
  outcome : Outcome R;
  final : state w
}.
Arguments trace {w R} r.
Arguments outcome {w R} r.
Arguments final {w R} r.

Definition after {w : World} {R : Type} (o : Obs) (r : Run w R) : Run w R :=
  {| trace := o :: trace r; outcome := outcome r; final := final r |}.

Fixpoint run {R : Type} (w : World) (p : Prog R) (s : state w) : Run w R :=
  match p with
  | Ret r => {| trace := []; outcome := Returned r; final := s |}
  | Throw e => {| trace := []; outcome := Threw e; final := s |}
  | Vis ev k =>
      let '(x, s') := answer w _ ev s in
      after (observed ev x) (run w (k x) s')
  end.

(** ** Screenshot timeline ([extractScreenshots] and its helpers) *)

Module Screenshots.

(** A [data] property: falsy and not a string, a string, or some other
    truthy value. *)
Inductive Field :=
| Absent
| Text (s : string)
| Other.

(** [{ data, width, height }]: a filmstrip frame's [screenshot] and the
    [details] of the [final-screenshot] audit. *)
Record Shot := {
  shot_data : Field;
  shot_width : option Q;
  shot_height : option Q
}.

(** An element of [reportData.screenshots]. *)
Record Entry := {
  entry_data : Field;
  entry_timestamp : option Q;
  entry_width : option Q;
  entry_height : option Q
}.

(** An element of [reportData.filmstrip]. *)
Record Frame := {
  frame_screenshot : option Shot;
  frame_timestamp : option Q
}.

(** The part of a Lighthouse report that [extractScreenshots] reads; the
    numeric fields are the [numericValue]s of the named audits and the
    duration of the first main-thread work item. *)
Record Report := {
  screenshots : option (list Entry);
  filmstrip : option (list Frame);
  final_screenshot : option Shot;
  first_contentful_paint : option Q;
  largest_contentful_paint : option Q;
  speed_index : option Q;
  interactive : option Q;
  first_meaningful_paint : option Q;
  mainthread_first_duration : option Q
}.

(** [getPerformanceMetricsForTimeline]'s result; [None] is [null]. *)
Record Metrics := {
  firstContentfulPaint : option Q;
  largestContentfulPaint : option Q;
  speedIndex : option Q;
  timeToInteractive : option Q;
  firstMeaningfulPaint : option Q;
  domContentLoaded : option Q
}.

(** The [id] of an extracted screenshot: the index, ["filmstrip-<index>"]
    or ["final"]. *)
Inductive Id :=
| Index (i : nat)
| Filmstrip (i : nat)
| Final.

Record Screenshot := {
  id : Id;
  timestamp : Q;
  data : string;
  width : Q;
  height : Q;
  description : string;
  phase : string;
  timelineContext : option Metrics
}.

(** [v || d] on an optional number. *)
Definition num_or (v : option Q) (d : Q) : Q :=
  match v with
  | Some q => if Qeq_bool q 0 then d else q
  | None => d
  end.

(** [v || null] on an optional number. *)
Definition or_null (v : option Q) : option Q :=
  match v with
  | Some q => if Qeq_bool q 0 then None else Some q
  | None => None
  end.

(** The text up to the first comma, and what follows that comma. *)
Fixpoint cut_comma (s : string) : string * option string :=
  match s with
  | EmptyString => (EmptyString, None)
  | String c rest =>
      if Ascii.eqb c "," then (EmptyString, Some rest)
      else let '(head, tail) := cut_comma rest in (String c head, tail)
  end.

(** [s.split(',')[1]] *)
Definition split_comma_1 (s : string) : option string :=
  match snd (cut_comma s) with
  | Some rest => Some (fst (cut_comma rest))
  | None => None
  end.

(** The base64 text kept for a string [data]: the data-URL prefix is cut
    off, and an empty or missing remainder is dropped. *)
Definition base64_of (s : string) : option string :=
  let base64Data := if startsWith s "data:image/" then split_comma_1 s else Some s in
  match base64Data with
  | Some b => if negb (String.eqb b EmptyString) && (0 <? Z.of_nat (String.length b))
              then Some b else None
  | None => None
  end.

(** The base64 text kept for a [data] property. *)
Definition usable (d : Field) : option string :=
  match d with
  | Text s => if String.eqb s EmptyString then None else base64_of s
  | Absent | Other => None
  end.

(** [x.toFixed(1)] *)
Definition toFixed1 (x : Q) : string :=
  let tenths := Math_round (Qabs x * 10) in
  String.append (if Qle_bool 0 x then EmptyString else "-")
    (String.append (string_of_Z (tenths / 10))
       (String.append "." (string_of_Z (tenths mod 10)))).

(** [getLoadingPhase(timestamp, index)] *)
Definition getLoadingPhase (timestamp : Q) (index : nat) : string :=
  if negb (Qle_bool 1000 timestamp) then "initial"
  else if negb (Qle_bool 3000 timestamp) then "early"
  else if negb (Qle_bool 8000 timestamp) then "loading"
  else if negb (Qle_bool 15000 timestamp) then "late"
  else "complete".

(** [array.forEach((x, index) => { if (...) screenshots.push(...) })] *)
Fixpoint for_each {A : Type} (f : nat -> A -> option Screenshot)
    (index : nat) (l : list A) : list Screenshot :=
  match l with
  | [] => []
  | x :: rest =>
      match f index x with
      | Some shot => shot :: for_each f (S index) rest
      | None => for_each f (S index) rest
      end
  end.

Definition of_entry (index : nat) (screenshot : Entry) : option Screenshot :=
  match usable (entry_data screenshot) with
  | Some base64Data =>
      let timestamp := num_or (entry_timestamp screenshot) (inject_Z (Z.of_nat index) * 1000) in
      let seconds := toFixed1 (timestamp / 1000) in
      Some {| id := Index index;
              timestamp := timestamp;
              data := base64Data;
              width := num_or (entry_width screenshot) 1200;
              height := num_or (entry_height screenshot) 800;
              description := String.append "Loading at " (String.append seconds "s");
              phase := getLoadingPhase timestamp index;
              timelineContext := None |}
  | None => None
  end.

Definition of_frame (index : nat) (frame : Frame) : option Screenshot :=
  match frame_screenshot frame with
  | Some shot =>
      match usable (shot_data shot) with
      | Some base64Data =>
          let timestamp := num_or (frame_timestamp frame) (inject_Z (Z.of_nat index) * 1000) in
          let seconds := toFixed1 (timestamp / 1000) in
          Some {| id := Filmstrip index;
                  timestamp := timestamp;
                  data := base64Data;
                  width := num_or (shot_width shot) 1200;
                  height := num_or (shot_height shot) 800;
                  description := String.append "Filmstrip at " (String.append seconds "s");
                  phase := getLoadingPhase timestamp index;
                  timelineContext := None |}
      | None => None
      end
  | None => None
  end.

(** The entry pushed for the final screenshot when the clock reads [now]. *)
Definition final_entry (details : Shot) (base64Data : string) (now : Z) : Screenshot :=
  {| id := Final;
     timestamp := inject_Z now;
     data := base64Data;
     width := num_or (shot_width details) 1200;
     height := num_or (shot_height details) 800;
     description := "Final loaded page";
     phase := "complete";
     timelineContext := None |}.

(** The final screenshot that will be pushed, if any. *)
Definition final_candidate (reportData : Report) : option (Shot * string) :=
  match final_screenshot reportData with
  | Some details =>
      match usable (shot_data details) with
      | Some base64Data => Some (details, base64Data)
      | None => None
      end
  | None => None
  end.

Fixpoint insert_by_timestamp (x : Screenshot) (sorted : list Screenshot) : list Screenshot :=
  match sorted with
  | [] => [x]
  | y :: rest =>
      if Qle_bool (timestamp x) (timestamp y) then x :: sorted
      else y :: insert_by_timestamp x rest
  end.

(** [screenshots.sort((a, b) => a.timestamp - b.timestamp)], a stable sort. *)
Definition sort_by_timestamp (l : list Screenshot) : list Screenshot :=
  fold_right insert_by_timestamp [] l.

Fixpoint keep_unseen (seen : list Z) (l : list Screenshot) : list Screenshot :=
  match l with
  | [] => []
  | screenshot :: rest =>
      let key := Math_round (timestamp screenshot / 100) in
      if existsb (Z.eqb key) seen then keep_unseen seen rest
      else screenshot :: keep_unseen (key :: seen) rest
  end.

(** [removeDuplicateScreenshots] *)
Definition removeDuplicateScreenshots (l : list Screenshot) : list Screenshot :=
  keep_unseen [] l.

(** [getPerformanceMetricsForTimeline] *)
Definition getPerformanceMetricsForTimeline (reportData : Report) : Metrics :=
  {| firstContentfulPaint := or_null (first_contentful_paint reportData);
     largestContentfulPaint := or_null (largest_contentful_paint reportData);
     speedIndex := or_null (speed_index reportData);
     timeToInteractive := or_null (interactive reportData);
     firstMeaningfulPaint := or_null (first_meaningful_paint reportData);
     domContentLoaded := or_null (mainthread_first_duration reportData) |}.

(** [metric && timestamp >= metric] *)
Definition reached (metric : option Q) (timestamp : Q) : bool :=
  match metric with
  | Some m => Qle_bool m timestamp
  | None => false
  end.

(** [getEnhancedDescription] *)
Definition getEnhancedDescription (screenshot : Screenshot) (metrics : Metrics) : string :=
  if reached (firstContentfulPaint metrics) (timestamp screenshot) then
    if reached (largestContentfulPaint metrics) (timestamp screenshot)
    then "Fully loaded page (post-LCP)"
    else if reached (speedIndex metrics) (timestamp screenshot)
    then "Page mostly loaded (post-Speed Index)"
    else "Content visible (post-FCP)"
  else "Initial page load state".

(** [determinePhaseFromMetrics] *)
Definition determinePhaseFromMetrics (metrics : Metrics) : string :=
  match timeToInteractive metrics, largestContentfulPaint metrics,
        firstContentfulPaint metrics with
  | Some _, Some _, _ => "complete"
  | _, Some _, _ => "late"
  | _, _, Some _ => "loading"
  | _, _, _ => "initial"
  end.

(** Sorting, removal of duplicates and the single-screenshot enhancement. *)
Definition finish (reportData : Report) (collected : list Screenshot) : list Screenshot :=
  let uniqueScreenshots := removeDuplicateScreenshots (sort_by_timestamp collected) in
  match uniqueScreenshots with
  | [singleScreenshot] =>
      let performanceMetrics := getPerformanceMetricsForTimeline reportData in
      [ {| id := id singleScreenshot;
           timestamp := timestamp singleScreenshot;
           data := data singleScreenshot;
           width := width singleScreenshot;
           height := height singleScreenshot;
           description := getEnhancedDescription singleScreenshot performanceMetrics;
           phase := determinePhaseFromMetrics performanceMetrics;
           timelineContext := Some performanceMetrics |} ]
  | _ => uniqueScreenshots
  end.

(** The screenshots pushed before the final one. *)
Definition collected_frames (reportData : Report) : list Screenshot :=
  (match screenshots reportData with
   | Some ((_ :: _) as entries) => for_each of_entry 0 entries
   | _ => []
   end)
  ++
  (match filmstrip reportData with
   | Some ((_ :: _) as frames) => for_each of_frame 0 frames
   | _ => []
   end).

(** [extractScreenshots(reportData)] *)
Definition extractScreenshots (reportData : Report) : Prog (list Screenshot) :=
  try_catch
    (let! collected :=
       match final_candidate reportData with
       | Some (details, base64Data) =>
           let! now := call DateNow in
           Ret (collected_frames reportData ++ [final_entry details base64Data now])
       | None => Ret (collected_frames reportData)
       end in
     Ret (finish reportData collected))%prog
    (fun _ => Ret []).

(** Reading a parsed report at the Lighthouse schema: a property of another
    type than the schema gives is read as missing. *)
Definition as_num (v : JSValue) : option Q :=
  match v with
  | VNum q => Some q
  | _ => None
  end.

Definition as_field (v : JSValue) : Field :=
  match v with
  | VStr s => Text s
  | VArr _ | VObj _ => Other
  | _ => if truthy v then Other else Absent
  end.

Definition as_shot (v : JSValue) : option Shot :=
  if truthy v then
    Some {| shot_data := as_field (get v "data");
            shot_width := as_num (get v "width");
            shot_height := as_num (get v "height") |}
  else None.

Definition as_entry (v : JSValue) : Entry :=
  {| entry_data := as_field (get_opt v "data");
     entry_timestamp := as_num (get_opt v "timestamp");
     entry_width := as_num (get_opt v "width");
     entry_height := as_num (get_opt v "height") |}.

Definition as_frame (v : JSValue) : Frame :=
  {| frame_screenshot := as_shot (get_opt v "screenshot");
     frame_timestamp := as_num (get_opt v "timestamp") |}.

Definition as_list {A : Type} (f : JSValue -> A) (v : JSValue) : option (list A) :=
  match v with
  | VArr items => Some (List.map f items)
  | _ => None
  end.

Definition numericValue (audits : JSValue) (audit : string) : option Q :=
  as_num (get_opt (get_opt audits audit) "numericValue").

Definition report_view (reportData : JSValue) : Report :=
  let audits := js_or (get reportData "audits") (VObj []) in
  {| screenshots := as_list as_entry (get reportData "screenshots");
     filmstrip := as_list as_frame (get reportData "filmstrip");
     final_screenshot :=
       as_shot (get_opt (get_opt (get reportData "audits") "final-screenshot") "details");
     first_contentful_paint := numericValue audits "first-contentful-paint";
     largest_contentful_paint := numericValue audits "largest-contentful-paint";
     speed_index := numericValue audits "speed-index";
     interactive := numericValue audits "interactive";
     first_meaningful_paint := numericValue audits "first-meaningful-paint";
     mainthread_first_duration :=
       match get_opt (get_opt (get_opt audits "mainthread-work-breakdown") "details") "items" with
       | VArr (first :: _) => as_num (get_opt first "duration")
       | _ => None
       end |}.

End Screenshots.

(** ** Security headers ([analyzeSecurityHeadersData]) *)

Module SecurityHeaders.

(** [res.headers]: header name to header value. *)
Abbreviation Headers := (gmap string string).

(** Truthiness of [headers[key]]: a missing header ([undefined]) and an empty
    value are falsy. *)
Definition truthy (v : option string) : bool :=
  match v with
  | Some s => negb (String.eqb s EmptyString)
  | None => false
  end.

(** [a || b] on two header look-ups. *)
Definition or_else (a b : option string) : option string :=
  if truthy a then a else b.

Record HttpsInfo := {
  enabled : bool;
  https_status : string;
  https_description : string
}.

Record HeaderInfo := {
  present : bool;
  value : option string;
  status : string;
  description : string;
  recommendation : string
}.

Record Summary := {
  totalHeaders : Z;
  securityScore : Z;
  overallStatus : string;
  recommendations : list string
}.

Record Analysis := {
  https : HttpsInfo;
  hsts : HeaderInfo;
  csp : HeaderInfo;
  xFrameOptions : HeaderInfo;
  xContentTypeOptions : HeaderInfo;
  referrerPolicy : HeaderInfo;
  permissionsPolicy : HeaderInfo;
  summary : Summary
}.

(** One "Check ..." block: the initial (missing) entry, overwritten when the
    header is found under its lower-case or its canonical name. *)
Definition check (headers : Headers) (lower canonical : string)
    (missing_description missing_recommendation : string)
    (present_description present_recommendation : string) : HeaderInfo :=
  if truthy (headers !! lower) || truthy (headers !! canonical) then
    {| present := true;
       value := or_else (headers !! lower) (headers !! canonical);
       status := "Present";
       description := present_description;
       recommendation := present_recommendation |}
  else
    {| present := false;
       value := None;
       status := "Missing";
       description := missing_description;
       recommendation := missing_recommendation |}.

(** [if (!h.present) recommendations.push(h.recommendation)] *)
Definition push_if_missing (h : HeaderInfo) (recs : list string) : list string :=
  if negb (present h) then recs ++ [recommendation h] else recs.

Definition overall_status (score : Z) : string :=
  if 80 <=? score then "Excellent"
  else if 60 <=? score then "Good"
  else if 40 <=? score then "Fair"
  else if 20 <=? score then "Poor"
  else "Very Poor".

Definition analyzeSecurityHeadersData (headers : Headers) (isHttps : bool) : Analysis :=
  let https :=
    {| enabled := isHttps;
       https_status := if isHttps then "Secure" else "Insecure";
       https_description := if isHttps then "Website uses HTTPS encryption"
                            else "Website uses unencrypted HTTP" |} in
  let hsts := check headers "strict-transport-security" "Strict-Transport-Security"
    "Strict-Transport-Security header not found"
    "Add HSTS header to prevent downgrade attacks"
    "HSTS header is configured" "HSTS is properly configured" in
  let csp := check headers "content-security-policy" "Content-Security-Policy"
    "Content-Security-Policy header not found"
    "Add CSP header to prevent XSS attacks"
    "CSP header is configured" "CSP is properly configured" in
  let xFrameOptions := check headers "x-frame-options" "X-Frame-Options"
    "X-Frame-Options header not found"
    "Add X-Frame-Options to prevent clickjacking"
    "X-Frame-Options header is configured" "X-Frame-Options is properly configured" in
  let xContentTypeOptions := check headers "x-content-type-options" "X-Content-Type-Options"
    "X-Content-Type-Options header not found"
    "Add X-Content-Type-Options to prevent MIME sniffing"
    "X-Content-Type-Options header is configured"
    "X-Content-Type-Options is properly configured" in
  let referrerPolicy := check headers "referrer-policy" "Referrer-Policy"
    "Referrer-Policy header not found"
    "Add Referrer-Policy to protect sensitive referral data"
    "Referrer-Policy header is configured" "Referrer-Policy is properly configured" in
  let permissionsPolicy := check headers "permissions-policy" "Permissions-Policy"
    "Permissions-Policy header not found"
    "Add Permissions-Policy to restrict feature access"
    "Permissions-Policy header is configured" "Permissions-Policy is properly configured" in
  let presentHeaders :=
    Z.of_nat (List.length (List.filter (fun b : bool => b)
      [present hsts; present csp; present xFrameOptions;
       present xContentTypeOptions; present referrerPolicy;
       present permissionsPolicy])) in
  let securityScore := Math_round ((inject_Z presentHeaders / 6) * 100)%Q in
  let recommendations :=
    push_if_missing permissionsPolicy
      (push_if_missing referrerPolicy
        (push_if_missing xContentTypeOptions
          (push_if_missing xFrameOptions
            (push_if_missing csp
              (push_if_missing hsts []))))) in
  {| https := https; hsts := hsts; csp := csp; xFrameOptions := xFrameOptions;
     xContentTypeOptions := xContentTypeOptions; referrerPolicy := referrerPolicy;
     permissionsPolicy := permissionsPolicy;
     summary := {| totalHeaders := presentHeaders;
                   securityScore := securityScore;
                   overallStatus := overall_status securityScore;
                   recommendations := recommendations |} |}.

(** The six tracked headers: lower-case name, canonical name and the
    recommendation issued when the header is missing. *)
Definition tracked : list (string * string * string) :=
  [ ("strict-transport-security", "Strict-Transport-Security",
     "Add HSTS header to prevent downgrade attacks");
    ("content-security-policy", "Content-Security-Policy",
     "Add CSP header to prevent XSS attacks");
    ("x-frame-options", "X-Frame-Options",
     "Add X-Frame-Options to prevent clickjacking");
    ("x-content-type-options", "X-Content-Type-Options",
     "Add X-Content-Type-Options to prevent MIME sniffing");
    ("referrer-policy", "Referrer-Policy",
     "Add Referrer-Policy to protect sensitive referral data");
    ("permissions-policy", "Permissions-Policy",
     "Add Permissions-Policy to restrict feature access") ].

(** The header is a key of the map, under either spelling. *)
Definition in_map (headers : Headers) (t : string * string * string) : bool :=
  let '(lower, canonical, _) := t in
  bool_decide (is_Some (headers !! lower)) || bool_decide (is_Some (headers !! canonical)).

(** The header is in the map with a non-empty value, under either spelling. *)
Definition has_value (headers : Headers) (t : string * string * string) : bool :=
  let '(lower, canonical, _) := t in
  truthy (headers !! lower) || truthy (headers !! canonical).

Definition count (p : string * string * string -> bool) : Z :=
  Z.of_nat (List.length (List.filter p tracked)).

End SecurityHeaders.

(** ** Mobile-friendliness heuristic (the body of [analyzeMobileFriendlyWithoutApi]) *)

Module MobileFriendly.

Record Details := {
  viewport : bool;
  textSize : bool;
  clickableElements : bool;
  contentWidth : bool;
  plugins : bool;
  responsiveDesign : bool;
  loadingSpeed : bool
}.

Record Analysis := {
  verdict : string;
  issues : list string;
  screenshots : list string;
  details : Details;
  recommendations : list string
}.

(** The object the function starts from. *)
Definition initial : Analysis :=
  {| verdict := "MOBILE_FRIENDLY";
     issues := [];
     screenshots := [];
     details := {| viewport := false; textSize := false; clickableElements := false;
                   contentWidth := false; plugins := false; responsiveDesign := false;
                   loadingSpeed := false |};
     recommendations := [] |}.

(** [analysis.issues.push(issue); analysis.details = update(analysis.details)] *)
Definition flag (issue : string) (update : Details -> Details) (a : Analysis) : Analysis :=
  {| verdict := verdict a;
     issues := issues a ++ [issue];
     screenshots := screenshots a;
     details := update (details a);
     recommendations := recommendations a |}.

Definition set_verdict (v : string) (a : Analysis) : Analysis :=
  {| verdict := v; issues := issues a; screenshots := screenshots a;
     details := details a; recommendations := recommendations a |}.

(** [analysis.recommendations.push(r)] *)
Definition recommend (r : string) (a : Analysis) : Analysis :=
  {| verdict := verdict a; issues := issues a; screenshots := screenshots a;
     details := details a; recommendations := recommendations a ++ [r] |}.

Definition set_viewport (d : Details) : Details :=
  {| viewport := true; textSize := textSize d; clickableElements := clickableElements d;
     contentWidth := contentWidth d; plugins := plugins d;
     responsiveDesign := responsiveDesign d; loadingSpeed := loadingSpeed d |}.
Definition set_responsiveDesign (d : Details) : Details :=
  {| viewport := viewport d; textSize := textSize d; clickableElements := clickableElements d;
     contentWidth := contentWidth d; plugins := plugins d;
     responsiveDesign := true; loadingSpeed := loadingSpeed d |}.
Definition set_contentWidth (d : Details) : Details :=
  {| viewport := viewport d; textSize := textSize d; clickableElements := clickableElements d;
     contentWidth := true; plugins := plugins d;
     responsiveDesign := responsiveDesign d; loadingSpeed := loadingSpeed d |}.
Definition set_textSize (d : Details) : Details :=
  {| viewport := viewport d; textSize := true; clickableElements := clickableElements d;
     contentWidth := contentWidth d; plugins := plugins d;
     responsiveDesign := responsiveDesign d; loadingSpeed := loadingSpeed d |}.
Definition set_clickableElements (d : Details) : Details :=
  {| viewport := viewport d; textSize := textSize d; clickableElements := true;
     contentWidth := contentWidth d; plugins := plugins d;
     responsiveDesign := responsiveDesign d; loadingSpeed := loadingSpeed d |}.
Definition set_plugins (d : Details) : Details :=
  {| viewport := viewport d; textSize := textSize d; clickableElements := clickableElements d;
     contentWidth := contentWidth d; plugins := true;
     responsiveDesign := responsiveDesign d; loadingSpeed := loadingSpeed d |}.

(** ['name="viewport"'] *)
Definition name_viewport : string :=
  String.append "name=" (String.append dq (String.append "viewport" dq)).

(** ['Add viewport meta tag: <meta name="viewport"
    content="width=device-width, initial-scale=1.0">'] *)
Definition viewport_recommendation : string :=
  String.concat dq
    ["Add viewport meta tag: <meta name="; "viewport"; " content=";
     "width=device-width, initial-scale=1.0"; ">"].

Definition is_digit_upto (hi : nat) (c : ascii) : bool :=
  let n := nat_of_ascii c in (Nat.leb 48 n && Nat.leb n (48 + hi))%bool.

(** Remove a literal prefix. *)
Fixpoint strip_prefix (p s : string) : option string :=
  match p, s with
  | EmptyString, _ => Some s
  | String a p', String b s' => if Ascii.eqb a b then strip_prefix p' s' else None
  | String _ _, EmptyString => None
  end.

(** Some suffix of [s] satisfies [here]: an unanchored regular expression. *)
Fixpoint somewhere (here : string -> bool) (s : string) : bool :=
  here s ||
  match s with
  | EmptyString => false
  | String _ rest => somewhere here rest
  end.

(** [(1[0-5]px|[0-9]px)] at the start of [s] *)
Definition small_size_here (s : string) : bool :=
  match s with
  | String d1 (String d2 rest) =>
      (Ascii.eqb d1 "1" && is_digit_upto 5 d2 && String.prefix "px" rest)
      || (is_digit_upto 9 d1 && String.prefix "px" (String d2 rest))
  | _ => false
  end.

(** [html.match(/font-size:\s*(1[0-5]px|[0-9]px)/)] is not [null] *)
Definition matches_small_font (html : string) : bool :=
  somewhere (fun s => match strip_prefix "font-size:" s with
                      | Some rest => small_size_here (skip_spaces rest)
                      | None => false
                      end) html.

(** [html.match(/padding:\s*0(px)?/)] is not [null] *)
Definition matches_zero_padding (html : string) : bool :=
  somewhere (fun s => match strip_prefix "padding:" s with
                      | Some rest => String.prefix "0" (skip_spaces rest)
                      | None => false
                      end) html.

(** [if (condition) { statement }] on the analysis object. *)
Definition when (condition : bool) (statement : Analysis -> Analysis)
    (analysis : Analysis) : Analysis :=
  if condition then statement analysis else analysis.

(** [if (analysis.issues.length > 0) analysis.verdict = 'NOT_MOBILE_FRIENDLY'] *)
Definition decide_verdict (analysis : Analysis) : Analysis :=
  when (0 <? Z.of_nat (List.length (issues analysis)))
       (set_verdict "NOT_MOBILE_FRIENDLY") analysis.

(** [if (analysis.details.<detail>) analysis.recommendations.push(r)] *)
Definition recommend_if (detail : Details -> bool) (r : string)
    (analysis : Analysis) : Analysis :=
  when (detail (details analysis)) (recommend r) analysis.

(** Everything [analyzeMobileFriendlyWithoutApi] does once the page is
    fetched; [page_html] is [pageData.html || '']. *)
Definition heuristic (page_html : string) : Analysis :=
  let html := toLowerCase page_html in
  let analysis := initial in
  (* Viewport *)
  let analysis :=
    when (negb (includes html "<meta") || negb (includes html name_viewport)
          || negb (includes html "width=device-width"))
         (flag "Viewport not set" set_viewport) analysis in
  (* Responsive CSS hints *)
  let hasResponsiveCSS :=
    includes html "@media" || includes html "max-width" || includes html "min-width" in
  let analysis :=
    when (negb hasResponsiveCSS)
         (flag "No responsive design detected" set_responsiveDesign) analysis in
  (* Content wider than screen indicators *)
  let analysis :=
    when (includes html "width=" && includes html "px")
         (flag "Content wider than screen" set_contentWidth) analysis in
  (* Legible font sizes *)
  let analysis :=
    when (includes html "font-size:" && matches_small_font html)
         (flag "Text too small to read" set_textSize) analysis in
  (* Tap targets *)
  let analysis :=
    when (includes html "padding:" && matches_zero_padding html)
         (flag "Clickable elements too close" set_clickableElements) analysis in
  (* Plugins *)
  let analysis :=
    when (includes html "<object" || includes html ".swf" || includes html "flash")
         (flag "Incompatible plugins detected" set_plugins) analysis in
  (* Verdict *)
  let analysis := decide_verdict analysis in
  (* Recommendations based on issues *)
  let analysis := recommend_if viewport viewport_recommendation analysis in
  let analysis :=
    recommend_if responsiveDesign
      "Implement responsive design using CSS media queries" analysis in
  let analysis :=
    recommend_if contentWidth
      "Use flexible layouts with percentage-based widths" analysis in
  let analysis :=
    recommend_if textSize
      "Use larger font sizes (minimum 16px) for mobile readability" analysis in
  let analysis :=
    recommend_if clickableElements
      "Ensure clickable elements have adequate spacing (minimum 44px)" analysis in
  let analysis :=
    recommend_if plugins
      "Remove or replace Flash and other incompatible plugins" analysis in
  analysis.

End MobileFriendly.

(** ** Responses *)

(** What a successful handler spreads into its response. *)
Inductive Payload :=
| LighthouseResult (reportData : JSValue) (screenshots : list Screenshots.Screenshot)
| TechStackResult (categorizedResults : Categories)
| SecurityHeadersResult (headers : SecurityHeaders.Analysis)
| MobileFriendlyResult (result : MobileFriendly.Analysis)
| CoreWebVitalsResult (origin : string) (result : JSValue).

(** The object literals the handlers return.
    - [Result url timestamp payload] is [{ url, ...payload }], with
      [success: true] and [timestamp] when [timestamp] is given. For the
      Lighthouse handler the payload stands for the fields computed from
      [reportData] and the extracted screenshots.
    - [ErrorReport url message timestamp] is [{ url, error: true, message }],
      with [success: false] and [timestamp] when [timestamp] is given.
    - [SiteStatus url statusCode accessible message] is
      [{ url, statusCode, accessible, message }]. *)
Inductive Response :=
| Result (url : string) (timestamp : option string) (payload : Payload)
| ErrorReport (url : string) (message : JSValue) (timestamp : option string)
| SiteStatus (url : string) (statusCode : option Z) (accessible : bool) (message : string).

(** The [url] property of a response. *)
Definition field_url (r : Response) : string :=
  match r with
  | Result url _ _ | ErrorReport url _ _ | SiteStatus url _ _ _ => url
  end.

(** The [error] property of a response, when it has one. *)
Definition field_error (r : Response) : option bool :=
  match r with
  | ErrorReport _ _ _ => Some true
  | Result _ _ _ | SiteStatus _ _ _ _ => None
  end.


(** ** The handlers *)

(** [if (!url.startsWith('http://') && !url.startsWith('https://')) url = 'https://' + url] *)
Definition normalizeUrl (url : string) : string :=
  if negb (startsWith url "http://") && negb (startsWith url "https://")
  then String.append "https://" url
  else url.

(** [path.join(...)], without its normalisation of the segments. *)
Definition path_join (segments : list string) : string := String.concat "/" segments.

(** [throw new TypeError(...)]; the text of the message is the engine's. *)
Definition TypeError (msg : string) : JsError := Error_ msg.

(** *** Lighthouse *)

Definition version_command : string := "npx lighthouse --version".
Definition global_version_command : string := "lighthouse --version".

Definition quoted (s : string) : string := template [dq; s; dq].

Definition main_command (url reportPath : string) : string :=
  template
    ["npx lighthouse "; quoted url; " --output=json --output-path=";
     quoted (escape_quotes reportPath);
     " --chrome-flags="; quoted "--headless --no-sandbox --disable-gpu --disable-dev-shm-usage";
     " --timeout=60000 --preset=desktop";
     " --only-categories=performance,accessibility,best-practices,seo,pwa";
     " --max-wait-for-load=30000 --throttling-method=devtools"].

Definition alternative_command (url reportPath : string) : string :=
  template
    ["npx lighthouse "; quoted url; " --output=json --output-path=";
     quoted (escape_quotes reportPath);
     " --chrome-flags="; quoted "--headless --no-sandbox";
     " --timeout=30000 --preset=desktop"].

(** The inner [try] block: run the command and look at the report file. *)
Definition run_command (command reportPath : string) : Prog unit :=
  (let! _ := call_throwing (ExecAsync command) in
   let! created := call (ExistsSync reportPath) in
   if negb created then Throw (Error_ "Lighthouse report file was not created")
   else
     let! _ := call_throwing (StatSync reportPath) in
     let! _ := call_throwing (ReadFileSync reportPath) in
     Ret tt)%prog.

(** The inner [catch (execError)] block. *)
Definition on_exec_error (url reportPath : string) (execError : JsError) : Prog unit :=
  if includes (message execError) "timeout" || includes (message execError) "ECONNREFUSED" then
    try_catch
      (let! _ := call_throwing (ExecAsync (alternative_command url reportPath)) in
       let! created := call (ExistsSync reportPath) in
       if negb created
       then Throw (Error_ "Alternative command also failed to create report file")
       else Ret tt)%prog
      (fun altError => Throw execError)
  else if includes (message execError) "ENOENT" then
    Throw (Error_ "Lighthouse CLI not found. Please ensure lighthouse is installed: npm install -g lighthouse")
  else
    Throw (Error_ (String.append "Lighthouse execution failed: " (message execError))).

(** [screenshotData.includes(needle)] for a truthy [screenshotData]. *)
Definition data_includes (screenshotData : JSValue) (needle : string) : JsError + bool :=
  match screenshotData with
  | VStr s => inr (includes s needle)
  | VArr items =>
      inr (existsb (fun item => match item with
                                | VStr s => String.eqb s needle
                                | _ => false
                                end) items)
  | _ => inl (TypeError "screenshotData.includes is not a function")
  end.

(** The test for a Chrome interstitial in the final screenshot. *)
Definition shows_chrome_error (reportData : JSValue) : Prog bool :=
  let audits := get reportData "audits" in
  if truthy audits && truthy (get audits "final-screenshot") then
    let finalScreenshot := get audits "final-screenshot" in
    if truthy (get finalScreenshot "details")
       && truthy (get (get finalScreenshot "details") "data") then
      let screenshotData := get (get finalScreenshot "details") "data" in
      match data_includes screenshotData "chrome-error://",
            data_includes screenshotData "ERR_",
            data_includes screenshotData "This site can't be reached" with
      | inr a, inr b, inr c => Ret (a || b || c)
      | inl e, _, _ | _, inl e, _ | _, _, inl e => Throw e
      end
    else Ret false
  else Ret false.

(** [cat && cat.score !== null && cat.score !== undefined] *)
Definition has_score (cat : JSValue) : bool :=
  truthy cat &&
  match get cat "score" with
  | VNull | VUndefined => false
  | _ => true
  end.

(** What follows the removal of the report file. *)
Definition report_to_response (url : string) (reportData : JSValue) : Prog Response :=
  if truthy (get reportData "runtimeError") then
    Ret (ErrorReport url
           (js_or (get_opt (get reportData "runtimeError") "message")
                  (VStr "Failed to analyze website. The site may be down or inaccessible."))
           None)
  else
    (let! interstitial := shows_chrome_error reportData in
     if interstitial : bool then
       Ret (ErrorReport url
              (VStr "Website appears to be down or inaccessible. Chrome is showing an error page instead of the website content.")
              None)
     else if negb (truthy (get reportData "categories")) || negb (truthy (get reportData "audits")) then
       Ret (ErrorReport url
              (VStr "Analysis completed but returned invalid data structure.") None)
     else if negb (existsb has_score (Object_values (get reportData "categories"))) then
       Ret (ErrorReport url
              (VStr "Analysis completed but no valid scores were returned. The site may not be accessible.")
              None)
     else
       let! screenshots := Screenshots.extractScreenshots (Screenshots.report_view reportData) in
       Ret (Result url None (LighthouseResult reportData screenshots)))%prog.

(** The name of the report file of a run started at [timestamp]. *)
Definition report_path (cwd : string) (timestamp : Z) : string :=
  path_join [cwd; "reports"; template ["lighthouse-report-"; string_of_Z timestamp; ".json"]].

(** The start of the outer [try] block: the report file is named, the
    reports directory is made and the installed Lighthouse is probed. *)
Definition prepare_report : Prog string :=
  (let! timestamp := call DateNow in
   let! cwd := call Cwd in
   let reportPath := report_path cwd timestamp in
   let! cwd' := call Cwd in
   let reportsDir := path_join [cwd'; "reports"] in
   let! exists_ := call (ExistsSync reportsDir) in
   do! (if negb exists_ then call_throwing (MkdirSync reportsDir) else Ret tt) in
   do! call_ignoring (ExecAsync version_command) in
   do! call_ignoring (ExecAsync global_version_command) in
   Ret reportPath)%prog.

(** The inner [try] / [catch]: the Lighthouse run and its fallback. *)
Definition produce_report (url reportPath : string) : Prog unit :=
  try_catch (run_command (main_command url reportPath) reportPath)
            (on_exec_error url reportPath).

(** The rest of the outer [try] block: the report is read, parsed, removed
    and reshaped. *)
Definition consume_report (url reportPath : string) : Prog Response :=
  (let! content := call_throwing (ReadFileSync reportPath) in
   let! reportData := call_throwing (JsonParse content) in
   match reportData with
   | VNull | VUndefined => Throw (TypeError "Cannot convert undefined or null to object")
   | _ =>
       do! call_ignoring (UnlinkSync reportPath) in
       report_to_response url reportData
   end)%prog.

(** The outer [try] block, after the URL has been normalised. *)
Definition runLighthouseAnalysis_try (url : string) : Prog Response :=
  (let! reportPath := prepare_report in
   do! produce_report url reportPath in
   consume_report url reportPath)%prog.

(** The outer [catch (error)] block. *)
Definition runLighthouseAnalysis_catch (url : string) (error : JsError) : Prog Response :=
  let errorMessage :=
    if includes (message error) "ENOENT"
    then "Lighthouse CLI not found. Please ensure lighthouse is installed."
    else if includes (message error) "timeout"
    then "Analysis timed out. The website may be too slow or unresponsive."
    else if includes (message error) "ECONNREFUSED"
    then "Cannot connect to the website. Please check the URL and try again."
    else message error in
  Ret (ErrorReport url (VStr (String.append "Failed to analyze website: " errorMessage)) None).

(** [runLighthouseAnalysis(url)] *)
Definition runLighthouseAnalysis (url : string) : Prog Response :=
  let url := normalizeUrl url in
  try_catch (runLighthouseAnalysis_try url) (runLighthouseAnalysis_catch url).

(** *** The catch block shared by the other service handlers:
    [{ url, success: false, error: true, message: `<what>: ${error.message}`, timestamp }] *)
Definition report_failure (what url : string) (error : JsError) : Prog Response :=
  (let! timestamp := call ToISOString in
   Ret (ErrorReport url (VStr (template [what; ": "; message error])) (Some timestamp)))%prog.

(** [{ url, success: true, timestamp, ...payload }] *)
Definition report_success (url : string) (payload : Payload) : Prog Response :=
  (let! timestamp := call ToISOString in
   Ret (Result url (Some timestamp) payload))%prog.

(** *** Tech stack *)

Definition analyzeTechStack_try (url : string) : Prog Response :=
  (do! call_throwing WappalyzerNew in
   do! call_throwing WappalyzerInit in
   do! call_throwing (WappalyzerOpen url) in
   let! results := call_throwing WappalyzerAnalyze in
   let categorizedResults := categorizeTechnologies results in
   do! call_throwing WappalyzerDestroy in
   report_success url (TechStackResult categorizedResults))%prog.

(** [analyzeTechStack(url)] *)
Definition analyzeTechStack (url : string) : Prog Response :=
  let url := normalizeUrl url in
  try_catch (analyzeTechStack_try url) (report_failure "Failed to analyze tech stack" url).

(** *** Security headers *)

(** How the promise of [getSecurityHeaders] and [getPageData] settles. *)
Definition settle {A B : Type} (o : HttpOutcome A) (resolve : A -> B) : Prog B :=
  match o with
  | Responded a => Ret (resolve a)
  | RequestError e => Throw (Error_ e)
  | SocketTimeout => Throw (Error_ "Request timeout")
  | Deadline => Throw (Error_ "Request timeout after 10 seconds")
  | GetThrew e => Throw (Error_ e)
  end.

(** [getSecurityHeaders(url)] *)
Definition getSecurityHeaders (url : string) : Prog SecurityHeaders.Analysis :=
  let isHttps := startsWith url "https://" in
  Vis (HttpGetHeaders url)
      (fun o => settle o (fun headers =>
                            SecurityHeaders.analyzeSecurityHeadersData headers isHttps)).

Definition analyzeSecurityHeaders_try (url : string) : Prog Response :=
  (let! headers := getSecurityHeaders url in
   report_success url (SecurityHeadersResult headers))%prog.

(** [analyzeSecurityHeaders(url)] *)
Definition analyzeSecurityHeaders (url : string) : Prog Response :=
  let url := normalizeUrl url in
  try_catch (analyzeSecurityHeaders_try url)
            (report_failure "Failed to analyze security headers" url).

(** *** Mobile friendliness *)

(** [getPageData(url)] *)
Definition getPageData (url : string) : Prog PageData :=
  Vis (HttpGetPage url) (fun o => settle o (fun pageData => pageData)).

(** [analyzeMobileFriendlyWithoutApi(url)] *)
Definition analyzeMobileFriendlyWithoutApi (url : string) : Prog MobileFriendly.Analysis :=
  try_catch
    (let! pageData := getPageData url in
     Ret (MobileFriendly.heuristic (html pageData)))%prog
    (fun error => Throw (Error_ "Unable to analyze page content")).

Definition analyzeMobileFriendly_try (url : string) : Prog Response :=
  (let! result := analyzeMobileFriendlyWithoutApi url in
   report_success url (MobileFriendlyResult result))%prog.

(** [analyzeMobileFriendly(url)] *)
Definition analyzeMobileFriendly (url : string) : Prog Response :=
  let url := normalizeUrl url in
  try_catch (analyzeMobileFriendly_try url)
            (report_failure "Failed to analyze mobile-friendliness" url).

(** *** Core Web Vitals *)

Definition crux_endpoint : string :=
  "https://chromeuxreport.googleapis.com/v1/records:queryRecord?key=".

(** [detail ? ' - ' + detail : ''] for
    [detail = ej?.error?.message || JSON.stringify(ej)] *)
Definition detail_suffix (ej : JSValue) : Prog string :=
  let message := get_opt (get_opt ej "error") "message" in
  if truthy message then
    match message with
    | VStr s => Ret (String.append " - " s)
    | _ => Vis (StringOf message) (fun text => Ret (String.append " - " text))
    end
  else
    Vis (JsonStringify ej)
        (fun text => Ret (if String.eqb text EmptyString then EmptyString
                          else String.append " - " text)).

(** [cruxFetch(body, label)] *)
Definition cruxFetch (apiUrl : string) (body : JSValue) : Prog JSValue :=
  (let! res := call_throwing (Fetch apiUrl body) in
   if negb (res_ok res) then
     let! suffix :=
       try_catch (match res_json res with
                  | inr ej => detail_suffix ej
                  | inl e => Throw (Error_ e)
                  end)
                 (fun _ => Ret EmptyString) in
     Throw {| message :=
                template ["CrUX API request failed: "; string_of_Z (res_status res); " ";
                          res_statusText res; suffix];
              http_status := Some (res_status res) |}
   else
     match res_json res with
     | inr result => Ret result
     | inl e => Throw (Error_ e)
     end)%prog.

Definition page_query (origin : string) : JSValue :=
  VObj [("url", VStr origin); ("formFactor", VStr "ALL_FORM_FACTORS")].

Definition origin_query (origin : string) : JSValue :=
  VObj [("origin", VStr origin); ("formFactor", VStr "ALL_FORM_FACTORS")].

Section CoreWebVitals.

(** The reshaping of the CrUX record into the [analysis] object
    ([parseMetrics], [calculateCoreWebVitalsSummary]): it makes no external
    call and throws on a record of an unexpected shape. Its floating-point
    arithmetic is not modelled. *)
Variable crux_analysis : JSValue -> JsError + JSValue.

(** [runCoreWebVitalsAnalysis(origin)] *)
Definition runCoreWebVitalsAnalysis (origin : string) : Prog JSValue :=
  (let! GOOGLE_API_KEY := call (GetEnv "GOOGLE_API_KEY") in
   match GOOGLE_API_KEY with
   | None => Throw (Error_ "GOOGLE_API_KEY is not set.")
   | Some key =>
       if String.eqb key EmptyString then Throw (Error_ "GOOGLE_API_KEY is not set.")
       else
         let apiUrl := String.append crux_endpoint key in
         try_catch
           (let! result :=
              try_catch (cruxFetch apiUrl (page_query origin))
                (fun e => if match http_status e with
                             | Some status => status =? 404
                             | None => false
                             end
                          then cruxFetch apiUrl (origin_query origin)
                          else Throw e) in
            match result with
            | VNull | VUndefined =>
                Throw (TypeError "Cannot convert undefined or null to object")
            | _ =>
                match crux_analysis result with
                | inr analysis => Ret analysis
                | inl e => Throw e
                end
            end)
           (fun error => Throw error)
   end)%prog.

Definition analyzeCoreWebVitals_try (url : string) : Prog Response :=
  (let! origin := call_throwing (UrlOrigin url) in
   let! result := runCoreWebVitalsAnalysis origin in
   report_success url (CoreWebVitalsResult origin result))%prog.

(** [analyzeCoreWebVitals(url)] *)
Definition analyzeCoreWebVitals (url : string) : Prog Response :=
  let url := normalizeUrl url in
  try_catch (analyzeCoreWebVitals_try url)
            (report_failure "Failed to analyze Core Web Vitals" url).

End CoreWebVitals.

(** *** The controller's [testWebsite] *)

(** The promise the [try] block returns. *)
Definition probe (urlToTest : string) : Prog Response :=
  Vis (HttpsProbe urlToTest)
      (fun o => match o with
                | ProbeStatus code =>
                    Ret (SiteStatus urlToTest (Some code)
                           ((200 <=? code) && (code <? 400))
                           (String.append "Website responded with status code: "
                                          (string_of_Z code)))
                | ProbeError error =>
                    Ret (SiteStatus urlToTest None false
                           (String.append "Website is not accessible: " error))
                | ProbeTimeout =>
                    Ret (SiteStatus urlToTest None false
                           "Website connection timed out after 10 seconds")
                | ProbeThrew error => Throw (Error_ error)
                end).

(** [testWebsite(url)]: the promise is returned from inside the [try] block
    without being awaited there, so its rejection is not caught. *)
Definition testWebsite (url : string) : Prog Response :=
  let urlToTest := if startsWith url "http" then url else String.append "https://" url in
  (let! returned :=
     try_catch (Ret (inr (probe urlToTest)))
       (fun error =>
          Ret (inl (SiteStatus url None false
                      (String.append "Error testing website: " (message error))))) in
   match returned with
   | inl response => Ret response
   | inr promise => promise
   end)%prog.

(** ** Configuration ([config/configuration.ts]) *)

Module Configuration.

Definition digit_value (c : ascii) : option Z :=
  let n := nat_of_ascii c in
  if (Nat.leb 48 n && Nat.leb n 57)%bool then Some (Z.of_nat (n - 48)) else None.

Fixpoint digits (acc : option Z) (s : string) : option Z :=
  match s with
  | EmptyString => acc
  | String c rest =>
      match digit_value c with
      | Some d => digits (Some (10 * match acc with Some a => a | None => 0 end + d)) rest
      | None => acc
      end
  end.

(** [parseInt(s, 10)]; [None] is [NaN]. *)
Definition parseInt (s : string) : option Z :=
  match skip_spaces s with
  | String "-" rest => option_map Z.opp (digits None rest)
  | String "+" rest => digits None rest
  | trimmed => digits None trimmed
  end.

Record Lighthouse := {
  timeout : option Z;
  chromeFlags : string
}.

Record Config := {
  port : option Z;
  frontendUrl : string;
  environment : string;
  lighthouse : Lighthouse
}.

(** [process.env.NAME || fallback] *)
Definition env_or (env : gmap string string) (name fallback : string) : string :=
  str_or (env !! name) fallback.

(** [configuration()] under the environment [env] *)
Definition configuration (env : gmap string string) : Config :=
  {| port := parseInt (env_or env "PORT" "3001");
     frontendUrl := env_or env "FRONTEND_URL" "http://localhost:3000";
     environment := env_or env "NODE_ENV" "development";
     lighthouse :=
       {| timeout := parseInt (env_or env "LIGHTHOUSE_TIMEOUT" "60000");
          chromeFlags := env_or env "LIGHTHOUSE_CHROME_FLAGS"
                           "--headless --no-sandbox --disable-gpu --disable-dev-shm-usage" |} |}.

End Configuration.

(** ** Reading traces *)

(** The command of a child-process event. *)
Definition exec_command (o : Obs) : option string :=
  match obs_event o with
  | ExecAsync command => Some command
  | _ => None
  end.

(** The calls to the external collaborators that do the analysis: the
    Lighthouse runs (the two version probes apart), the fingerprinting engine,
    the HTTP requests and the remote API. *)
Definition is_analysis_call (o : Obs) : bool :=
  match obs_event o with
  | ExecAsync command =>
      negb (String.eqb command version_command
            || String.eqb command global_version_command)
  | WappalyzerNew | WappalyzerInit | WappalyzerOpen _ | WappalyzerAnalyze
  | WappalyzerDestroy => true
  | HttpGetHeaders _ | HttpGetPage _ | HttpsProbe _ => true
  | Fetch _ _ => true
  | _ => false
  end.

Definition analysis_calls (tr : list Obs) : list Obs := List.filter is_analysis_call tr.

Definition is_failure {A B : Type} (r : A + B) : bool :=
  match r with
  | inl _ => true
  | inr _ => false
  end.

Definition not_responded {A : Type} (o : HttpOutcome A) : bool :=
  match o with
  | Responded _ => false
  | _ => true
  end.

(** An answered event is a failure. *)
Definition failed_answer {X : Type} (ev : Event X) : X -> bool :=
  match ev in Event X return X -> bool with
  | MkdirSync _ => is_failure
  | StatSync _ => is_failure
  | ReadFileSync _ => is_failure
  | UnlinkSync _ => is_failure
  | ExecAsync _ => is_failure
  | JsonParse _ => is_failure
  | UrlOrigin _ => is_failure
  | HttpGetHeaders _ => not_responded
  | HttpGetPage _ => not_responded
  | HttpsProbe _ => fun o => match o with ProbeStatus _ => false | _ => true end
  | Fetch _ _ => fun r => match r with
                          | inl _ => true
                          | inr res => negb (res_ok res) || is_failure (res_json res)
                          end
  | WappalyzerNew => is_failure
  | WappalyzerInit => is_failure
  | WappalyzerOpen _ => is_failure
  | WappalyzerAnalyze => is_failure
  | WappalyzerDestroy => is_failure
  | _ => fun _ => false
  end.

Definition call_failed (o : Obs) : bool := failed_answer (obs_event o) (obs_answer o).

(** The file a successful [fs.unlinkSync] removed. *)
Definition unlinked (o : Obs) : option string :=
  match o with
  | observed ev x =>
      match ev in Event X return X -> option string with
      | UnlinkSync path => fun r => if is_failure r then None else Some path
      | _ => fun _ => None
      end x
  end.

(** A call to a remote HTTP API. *)
Definition is_fetch (o : Obs) : bool :=
  match obs_event o with
  | Fetch _ _ => true
  | _ => false
  end.

(** The URL an event hands to an external collaborator. *)
Definition requested_url (o : Obs) : option string :=
  match obs_event o with
  | HttpGetHeaders url | HttpGetPage url | HttpsProbe url | WappalyzerOpen url
  | UrlOrigin url => Some url
  | _ => None
  end.

(** A read of the process environment. *)
Definition is_getenv (o : Obs) : bool :=
  match obs_event o with
  | GetEnv _ => true
  | _ => false
  end.

(** A call of [fs.unlinkSync], whether it succeeds or not. *)
Definition is_unlink (o : Obs) : bool :=
  match obs_event o with
  | UnlinkSync _ => true
  | _ => false
  end.

(** ** A simulated world *)

Module Sim.

(** What the surroundings of the service do. *)
Record Behaviour := {
  clock : Z;
  iso_time : string;
  cwd : string;
  env : gmap string string;
  (** A child process: its result and the files it leaves. *)
  child : string -> gmap string string -> (string + string * string) * gmap string string;
  (** The texts [JSON.parse] accepts. *)
  json : gmap string JSValue;
  headers_of : string -> HttpOutcome (gmap string string);
  page_of : string -> HttpOutcome PageData;
  probe_of : string -> ProbeOutcome;
  fetch_of : string -> JSValue -> string + FetchResponse;
  origin_of : string -> string + string;
  technologies : string + option (list RawTech)
}.

(** The file system: the content of every file, and the directories. *)
Record Files := {
  files : gmap string string;
  dirs : list string
}.

Definition ENOENT (path : string) : string :=
  template ["ENOENT: no such file or directory '"; path; "'"].

Definition is_file (fs : Files) (path : string) : bool :=
  match files fs !! path with
  | Some _ => true
  | None => false
  end.

Definition is_dir (fs : Files) (path : string) : bool :=
  existsb (String.eqb path) (dirs fs).

Definition respond (b : Behaviour) (X : Type) (ev : Event X) : Files -> X * Files :=
  match ev in Event X return Files -> X * Files with
  | DateNow => fun fs => (clock b, fs)
  | ToISOString => fun fs => (iso_time b, fs)
  | Cwd => fun fs => (cwd b, fs)
  | GetEnv name => fun fs => (env b !! name, fs)
  | ExistsSync path => fun fs => (is_file fs path || is_dir fs path, fs)
  | MkdirSync path => fun fs => (inr tt, {| files := files fs; dirs := path :: dirs fs |})
  | StatSync path => fun fs =>
      (match files fs !! path with
       | Some content => inr (Z.of_nat (String.length content))
       | None => inl (ENOENT path)
       end, fs)
  | ReadFileSync path => fun fs =>
      (match files fs !! path with
       | Some content => inr content
       | None => inl (ENOENT path)
       end, fs)
  | UnlinkSync path => fun fs =>
      if is_file fs path
      then (inr tt, {| files := delete path (files fs); dirs := dirs fs |})
      else (inl (ENOENT path), fs)
  | ExecAsync command => fun fs =>
      let '(result, files') := child b command (files fs) in
      (result, {| files := files'; dirs := dirs fs |})
  | JsonParse text => fun fs =>
      (match json b !! text with
       | Some v => inr v
       | None => inl "Unexpected token in JSON at position 0"
       end, fs)
  | JsonStringify v => fun fs => ("{}", fs)
  | StringOf v => fun fs => ("[object Object]", fs)
  | UrlOrigin url => fun fs => (origin_of b url, fs)
  | HttpGetHeaders url => fun fs => (headers_of b url, fs)
  | HttpGetPage url => fun fs => (page_of b url, fs)
  | HttpsProbe url => fun fs => (probe_of b url, fs)
  | Fetch url body => fun fs => (fetch_of b url body, fs)
  | WappalyzerNew => fun fs => (inr tt, fs)
  | WappalyzerInit => fun fs => (inr tt, fs)
  | WappalyzerOpen url => fun fs => (inr tt, fs)
  | WappalyzerAnalyze => fun fs => (technologies b, fs)
  | WappalyzerDestroy => fun fs => (inr tt, fs)
  end.

Definition world (b : Behaviour) : World :=
  {| state := Files; answer := respond b |}.

(** A machine on which nothing answers and no file exists. *)
Definition offline : Behaviour :=
  {| clock := 1700000000000;
     iso_time := "2023-11-14T22:13:20.000Z";
     cwd := "/srv/websense";
     env := ∅;
     child := fun command fs => (inl "Command failed: spawn ENOENT", fs);
     json := ∅;
     headers_of := fun _ => RequestError "getaddrinfo ENOTFOUND";
     page_of := fun _ => RequestError "getaddrinfo ENOTFOUND";
     probe_of := fun _ => ProbeError "getaddrinfo ENOTFOUND";
     fetch_of := fun _ _ => inl "fetch failed";
     origin_of := fun _ => inl "Invalid URL";
     technologies := inl "net::ERR_NAME_NOT_RESOLVED" |}.

Definition no_files : Files := {| files := ∅; dirs := [] |}.

End Sim.

(** ** Properties of program trees *)

(** Every way [p] returns satisfies [P]; it may throw. *)
Inductive Returns {R : Type} (P : R -> Prop) : Prog R -> Prop :=
| Returns_Ret (r : R) : P r -> Returns P (Ret r)
| Returns_Throw (e : JsError) : Returns P (Throw e)
| Returns_Vis {X : Type} (ev : Event X) (k : X -> Prog R) :
    (forall x, Returns P (k x)) -> Returns P (Vis ev k).

(** [p] never throws, and every way it returns satisfies [P]. *)
Inductive Always {R : Type} (P : R -> Prop) : Prog R -> Prop :=
| Always_Ret (r : R) : P r -> Always P (Ret r)
| Always_Vis {X : Type} (ev : Event X) (k : X -> Prog R) :
    (forall x, Always P (k x)) -> Always P (Vis ev k).

(** No event of [p] satisfies [bad]. *)
Inductive Avoids {R : Type} (bad : Obs -> bool) : Prog R -> Prop :=
| Avoids_Ret (r : R) : Avoids bad (Ret r)
| Avoids_Throw (e : JsError) : Avoids bad (Throw e)
| Avoids_Vis {X : Type} (ev : Event X) (k : X -> Prog R) :
    (forall x, bad (observed ev x) = false) ->
    (forall x, Avoids bad (k x)) -> Avoids bad (Vis ev k).

(** ** The service handlers as a family *)




Section Service.

Variable crux_analysis : JSValue -> JsError + JSValue.



End Service.

(** ** The routes of [WebsiteAnalysisController] *)










Section Routes.

Variable crux_analysis : JSValue -> JsError + JSValue.



End Routes.

(** ** The retry policy *)








(** ** Sample reports and machines *)

(** A report whose only picture is the final screenshot. *)
Definition final_only_report : Screenshots.Report :=
  {| Screenshots.screenshots := None;
     Screenshots.filmstrip := None;
     Screenshots.final_screenshot :=
       Some {| Screenshots.shot_data := Screenshots.Text "data:image/jpeg;base64,AAAA";
               Screenshots.shot_width := Some (1350 # 1)%Q;
               Screenshots.shot_height := Some (940 # 1)%Q |};
     Screenshots.first_contentful_paint := Some (812 # 1)%Q;
     Screenshots.largest_contentful_paint := Some (1490 # 1)%Q;
     Screenshots.speed_index := Some (1100 # 1)%Q;
     Screenshots.interactive := Some (2300 # 1)%Q;
     Screenshots.first_meaningful_paint := None;
     Screenshots.mainthread_first_duration := None |}.

(** A report with a filmstrip of three frames and no final screenshot. *)
Definition filmstrip_report : Screenshots.Report :=
  let frame (t : Q) (picture : string) :=
    {| Screenshots.frame_screenshot :=
         Some {| Screenshots.shot_data := Screenshots.Text picture;
                 Screenshots.shot_width := None;
                 Screenshots.shot_height := None |};
       Screenshots.frame_timestamp := Some t |} in
  {| Screenshots.screenshots := None;
     Screenshots.filmstrip := Some [frame (2040 # 1)%Q "CCCC"; frame (300 # 1)%Q "AAAA"; frame (330 # 1)%Q "BBBB"];
     Screenshots.final_screenshot := None;
     Screenshots.first_contentful_paint := Some (812 # 1)%Q;
     Screenshots.largest_contentful_paint := None;
     Screenshots.speed_index := None;
     Screenshots.interactive := None;
     Screenshots.first_meaningful_paint := None;
     Screenshots.mainthread_first_duration := None |}.

(** The same surroundings with another clock reading. *)
Definition at_time (now : Z) (b : Sim.Behaviour) : Sim.Behaviour :=
  {| Sim.clock := now;
     Sim.iso_time := Sim.iso_time b;
     Sim.cwd := Sim.cwd b;
     Sim.env := Sim.env b;
     Sim.child := Sim.child b;
     Sim.json := Sim.json b;
     Sim.headers_of := Sim.headers_of b;
     Sim.page_of := Sim.page_of b;
     Sim.probe_of := Sim.probe_of b;
     Sim.fetch_of := Sim.fetch_of b;
     Sim.origin_of := Sim.origin_of b;
     Sim.technologies := Sim.technologies b |}.

(** The text [{"categories":{"performance":{"score":0.9}},"audits":{}}] and
    the value [JSON.parse] gives for it. *)
Definition sample_report_text : string :=
  String.concat dq ["{"; "categories"; ":{"; "performance"; ":{"; "score";
                    ":0.9}},"; "audits"; ":{}}"].

Definition sample_report : JSValue :=
  VObj [("categories", VObj [("performance", VObj [("score", VNum (9 # 10))])]);
        ("audits", VObj [])].

(** The report file of a run started in [/srv/websense] when the clock reads
    1700000000000. *)
Definition sample_report_path : string :=
  "/srv/websense/reports/lighthouse-report-1700000000000.json".

(** A machine with Lighthouse installed and [LIGHTHOUSE_TIMEOUT=90000] in its
    environment; a Lighthouse run leaves [content] in the report file. *)
Definition lighthouse_writing (content : string) : Sim.Behaviour :=
  {| Sim.clock := 1700000000000;
     Sim.iso_time := "2023-11-14T22:13:20.000Z";
     Sim.cwd := "/srv/websense";
     Sim.env := {[ "LIGHTHOUSE_TIMEOUT" := "90000" ]};
     Sim.child := fun command fs =>
       if includes command "--output-path="
       then (inr (EmptyString, EmptyString),
             <[ report_path "/srv/websense" 1700000000000 := content ]> fs)
       else (inr ("12.2.1", EmptyString), fs);
     Sim.json := {[ sample_report_text := sample_report ]};
     Sim.headers_of := fun _ => RequestError "getaddrinfo ENOTFOUND";
     Sim.page_of := fun _ => RequestError "getaddrinfo ENOTFOUND";
     Sim.probe_of := fun _ => ProbeError "getaddrinfo ENOTFOUND";
     Sim.fetch_of := fun _ _ => inl "fetch failed";
     Sim.origin_of := fun _ => inl "Invalid URL";
     Sim.technologies := inl "net::ERR_NAME_NOT_RESOLVED" |}.

(** A machine on which the first Lighthouse run times out and the
    alternative command succeeds. *)
Definition lighthouse_timing_out : Sim.Behaviour :=
  {| Sim.clock := 1700000000000;
     Sim.iso_time := "2023-11-14T22:13:20.000Z";
     Sim.cwd := "/srv/websense";
     Sim.env := ∅;
     Sim.child := fun command fs =>
       if includes command "--throttling-method=devtools"
       then (inl "Command failed: Navigation timeout of 60000 ms exceeded", fs)
       else if includes command "--output-path="
       then (inr (EmptyString, EmptyString),
             <[ sample_report_path := sample_report_text ]> fs)
       else (inr ("12.2.1", EmptyString), fs);
     Sim.json := {[ sample_report_text := sample_report ]};
     Sim.headers_of := fun _ => RequestError "getaddrinfo ENOTFOUND";
     Sim.page_of := fun _ => RequestError "getaddrinfo ENOTFOUND";
     Sim.probe_of := fun _ => ProbeError "getaddrinfo ENOTFOUND";
     Sim.fetch_of := fun _ _ => inl "fetch failed";
     Sim.origin_of := fun _ => inl "Invalid URL";
     Sim.technologies := inl "net::ERR_NAME_NOT_RESOLVED" |}.

(** A site for which CrUX has origin-level data only: the page-level query is
    answered with status 404, the origin-level query with a record. *)
Definition crux_without_page_data : Sim.Behaviour :=
  {| Sim.clock := 1700000000000;
     Sim.iso_time := "2023-11-14T22:13:20.000Z";
     Sim.cwd := "/srv/websense";
     Sim.env := {[ "GOOGLE_API_KEY" := "AIzaSyExampleExampleExample" ]};
     Sim.child := fun command fs => (inl "Command failed: spawn ENOENT", fs);
     Sim.json := ∅;
     Sim.headers_of := fun _ => RequestError "getaddrinfo ENOTFOUND";
     Sim.page_of := fun _ => RequestError "getaddrinfo ENOTFOUND";
     Sim.probe_of := fun _ => ProbeError "getaddrinfo ENOTFOUND";
     Sim.fetch_of := fun _ body =>
       if truthy (get body "origin")
       then inr {| res_status := 200; res_statusText := "OK";
                   res_json := inr (VObj [("record", VObj [("key", VObj [])])]) |}
       else inr {| res_status := 404; res_statusText := "Not Found";
                   res_json := inr (VObj [("error",
                                           VObj [("message",
                                                  VStr "chrome ux report data not found")])]) |};
     Sim.origin_of := fun _ => inr "https://example.com";
     Sim.technologies := inl "net::ERR_NAME_NOT_RESOLVED" |}.

(** ** The findings of a Lighthouse report ([extractPerformanceSuggestions],
    [extractAccessibilityIssues], [extractBestPracticesIssues],
    [extractSEOIssues], [extractCategoryScores]) *)

Module Findings.

(** A JavaScript number: a double, given by the rational it denotes, an
    infinity or [NaN]. *)
Inductive Number :=
| Finite (q : Q)
| Infinity (positive : bool)
| NaN.

(** [x < bound] for a finite [bound]. *)
Definition less_than (x : Number) (bound : Q) : bool :=
  match x with
  | Finite q => negb (Qle_bool bound q)
  | Infinity positive => negb positive
  | NaN => false
  end.

(** [Math.round(x)] *)
Definition round (x : Number) : Number :=
  match x with
  | Finite q => Finite (inject_Z (Math_round q))
  | Infinity _ | NaN => x
  end.

(** An element of [suggestions]. *)
Record Suggestion := {
  title : JSValue;
  description : JSValue;
  score : Number;
  savings : JSValue;
  details : JSValue
}.

(** An element of [accessibilityIssues], [bestPracticesIssues] or
    [seoIssues]. *)
Record Issue := {
  issue_title : JSValue;
  issue_description : JSValue;
  issue_score : Number;
  issue_category : string;
  issue_details : JSValue
}.

Definition opportunityAudits : list string :=
  ["unused-css-rules"; "unused-javascript"; "modern-image-formats"; "offscreen-images";
   "render-blocking-resources"; "unminified-css"; "unminified-javascript";
   "efficient-animated-content"; "duplicate-id-used"; "total-byte-weight";
   "uses-optimized-images"; "uses-text-compression"; "uses-responsive-images";
   "efficient-animated-content"; "preload-lcp-image"].

Definition diagnosticAudits : list string :=
  ["dom-size"; "critical-request-chains"; "server-response-time"; "redirects";
   "uses-long-cache-ttl"; "uses-http2"; "uses-passive-event-listeners"].

Definition accessibility_key (key : string) : bool :=
  startsWith key "accessibility" || includes key "aria" || includes key "alt"
  || includes key "button" || includes key "link" || includes key "form"
  || includes key "table" || includes key "heading" || includes key "color".

Definition best_practices_key (key : string) : bool :=
  includes key "https" || includes key "security" || includes key "deprecated"
  || includes key "document-write" || includes key "notification"
  || includes key "geolocation" || includes key "passive-listeners"
  || includes key "no-vulnerable-libraries".

Definition seo_key (key : string) : bool :=
  includes key "meta" || includes key "headings" || includes key "robots"
  || includes key "canonical" || includes key "hreflang" || includes key "structured-data"
  || includes key "viewport" || includes key "charset" || includes key "doctype".

(** The array index a property key denotes, when it denotes one: the key is
    the decimal notation of an integer from 0 to 2^32 - 2. *)
Definition array_index (key : string) : option Z :=
  match Configuration.parseInt key with
  | Some n =>
      if String.eqb (string_of_Z n) key && (0 <=? n) && (n <=? 4294967294)
      then Some n else None
  | None => None
  end.

Fixpoint insert_by_index (n : Z) (property : string * JSValue)
    (sorted : list (Z * (string * JSValue))) : list (Z * (string * JSValue)) :=
  match sorted with
  | [] => [(n, property)]
  | (m, other) :: rest =>
      if n <? m then (n, property) :: sorted
      else (m, other) :: insert_by_index n property rest
  end.

Fixpoint indexed (properties : list (string * JSValue)) : list (Z * (string * JSValue)) :=
  match properties with
  | [] => []
  | (key, v) :: rest =>
      match array_index key with
      | Some n => insert_by_index n (key, v) (indexed rest)
      | None => indexed rest
      end
  end.

(** The order in which [for (const key in object)] visits the properties of
    an object that [JSON.parse] made: those whose key is an array index
    first, by ascending index, then the others as the text has them. *)
Definition for_in (properties : list (string * JSValue)) : list (string * JSValue) :=
  List.map snd (indexed properties)
  ++ List.filter (fun property => match array_index (fst property) with
                                  | Some _ => false
                                  | None => true
                                  end) properties.

Section Engine.

(** [ToNumber(v)] for a string, an array or an object [v]: the engine reads
    the number off the text of [v] ([NaN] when the text denotes none), and
    throws a [TypeError] for an object that has no usable [toString]. *)
Variable text_to_number : JSValue -> JsError + Number.

(** [x * 100], the product of two doubles rounded to a double. *)
Variable times100 : Number -> Number.

(** [ToNumber(v)] *)
Definition ToNumber (v : JSValue) : JsError + Number :=
  match v with
  | VUndefined => inr NaN
  | VNull => inr (Finite 0)
  | VBool b => inr (Finite (if b then 1 else 0))
  | VNum q => inr (Finite q)
  | VStr _ | VArr _ | VObj _ => text_to_number v
  end.

(** [Math.round(score * 100)] *)
Definition percentage (score : JSValue) : JsError + Number :=
  match ToNumber score with
  | inr x => inr (round (times100 x))
  | inl e => inl e
  end.

(** [audit && audit.score !== null && audit.score < bound]: the number the
    score converts to, when the test holds; the conversion may throw. *)
Definition failing_score (audit : JSValue) (bound : Q) : JsError + option Number :=
  if truthy audit then
    match get audit "score" with
    | VNull => inr None
    | score => match ToNumber score with
               | inr x => inr (if less_than x bound then Some x else None)
               | inl e => inl e
               end
    end
  else inr None.

(** The object pushed for a failing audit whose score converts to [x];
    [score] is [Math.round(audit.score * 100)]. *)
Definition suggestion_of (fallback : string) (audit : JSValue) (x : Number) : Suggestion :=
  {| title := get audit "title";
     description := get audit "description";
     score := round (times100 x);
     savings := js_or (get audit "displayValue") (VStr fallback);
     details := get audit "details" |}.

(** [for (const auditKey of auditKeys) { ... suggestions.push(...) }]: the
    list after the loop, and whether the loop came to its end; a conversion
    that throws leaves the loop. *)
Fixpoint push_suggestions (audits : JSValue) (bound : Q) (fallback : string)
    (auditKeys : list string) (suggestions : list Suggestion)
  : list Suggestion * bool :=
  match auditKeys with
  | [] => (suggestions, true)
  | auditKey :: rest =>
      let audit := get audits auditKey in
      match failing_score audit bound with
      | inr (Some x) =>
          push_suggestions audits bound fallback rest
            (suggestions ++ [suggestion_of fallback audit x])
      | inr None => push_suggestions audits bound fallback rest suggestions
      | inl _ => (suggestions, false)
      end
  end.

(** [extractPerformanceSuggestions(reportData)]. Without [audits] the first
    look-up throws; whatever is thrown inside the [try] block, the [catch]
    logs it and the suggestions pushed so far are returned. *)
Definition extractPerformanceSuggestions (reportData : JSValue) : list Suggestion :=
  let audits := get reportData "audits" in
  let suggestions :=
    match audits with
    | VNull | VUndefined => []
    | _ =>
        let (opportunities, completed) :=
          push_suggestions audits 1 "Improvement available" opportunityAudits [] in
        if completed
        then fst (push_suggestions audits (9 # 10) "Improvement recommended"
                    diagnosticAudits opportunities)
        else opportunities
    end in
  firstn 10 suggestions.

Definition issue_of (category : string) (audit : JSValue) (x : Number) : Issue :=
  {| issue_title := get audit "title";
     issue_description := get audit "description";
     issue_score := round (times100 x);
     issue_category := category;
     issue_details := get audit "details" |}.

(** [for (const key in audits) { ... issues.push(...) }] over the properties
    in the order of the loop; the score is tested before the key, and a
    conversion that throws leaves the loop. *)
Fixpoint push_issues (selected : string -> bool) (category : string)
    (properties : list (string * JSValue)) (issues : list Issue) : list Issue :=
  match properties with
  | [] => issues
  | (key, audit) :: rest =>
      match failing_score audit 1 with
      | inr (Some x) =>
          if selected key
          then push_issues selected category rest (issues ++ [issue_of category audit x])
          else push_issues selected category rest issues
      | inr None => push_issues selected category rest issues
      | inl _ => issues
      end
  end.

(** The body shared by the three issue extractors. The keys of an array or
    of a string are indices, and none of them passes one of the key tests:
    nothing is pushed for such [audits], whether the loop ends or throws. *)
Definition extract_issues (selected : string -> bool) (category : string)
    (reportData : JSValue) : list Issue :=
  let issues :=
    match get reportData "audits" with
    | VObj properties => push_issues selected category (for_in properties) []
    | _ => []
    end in
  firstn 10 issues.

Definition extractAccessibilityIssues : JSValue -> list Issue :=
  extract_issues accessibility_key "Accessibility".

Definition extractBestPracticesIssues : JSValue -> list Issue :=
  extract_issues best_practices_key "Best Practices".

Definition extractSEOIssues : JSValue -> list Issue :=
  extract_issues seo_key "SEO".

(** [extractedCategories.<name>], when it is set; the conversion of the
    score may throw. *)
Definition category_score (categories : JSValue) (name : string)
  : JsError + option Number :=
  let category := get categories name in
  if truthy category then
    match get category "score" with
    | VNull => inr None
    | score => match percentage score with
               | inr x => inr (Some x)
               | inl e => inl e
               end
    end
  else inr None.

Record CategoryScores := {
  performance : option Number;
  accessibility : option Number;
  best_practices : option Number;
  seo : option Number;
  pwa : option Number
}.

(** [extractCategoryScores(categories)]: the five categories in turn; there
    is no [try] around them. *)
Definition extractCategoryScores (categories : JSValue) : JsError + CategoryScores :=
  if truthy categories then
    match category_score categories "performance" with
    | inl e => inl e
    | inr performance =>
    match category_score categories "accessibility" with
    | inl e => inl e
    | inr accessibility =>
    match category_score categories "best-practices" with
    | inl e => inl e
    | inr best_practices =>
    match category_score categories "seo" with
    | inl e => inl e
    | inr seo =>
    match category_score categories "pwa" with
    | inl e => inl e
    | inr pwa =>
        inr {| performance := performance; accessibility := accessibility;
               best_practices := best_practices; seo := seo; pwa := pwa |}
    end end end end end
  else
    inr {| performance := None; accessibility := None; best_practices := None;
           seo := None; pwa := None |}.

(** The [score] property of the result, from the [categories] of the report:
    [categories.performance?.score ? Math.round(categories.performance.score * 100) : 0]. *)
Definition result_score (categories : JSValue) : JsError + Number :=
  match categories with
  | VUndefined =>
      inl (TypeError "Cannot read properties of undefined (reading 'performance')")
  | VNull =>
      inl (TypeError "Cannot read properties of null (reading 'performance')")
  | _ =>
      let score := get_opt (get categories "performance") "score" in
      if truthy score then percentage score else inr (Finite 0)
  end.

End Engine.

End Findings.

(** ** The Core Web Vitals analysis ([parseMetrics],
    [calculateCoreWebVitalsSummary] and the end of [runCoreWebVitalsAnalysis])

    Densities are read at the CrUX schema, as numbers; the arithmetic on them
    is exact. A 75th percentile is kept as the value the record holds. *)

Module Crux.

(** One entry of [parsed]: [{ p75, good, needsImprovement, poor, total }]. *)
Record Metric := {
  p75 : JSValue;
  good : Q;
  needsImprovement : Q;
  poor : Q;
  total : Q
}.

Record Parsed := {
  lcp : Metric;
  fid : Metric;
  cls : Metric;
  ttfb : Metric;
  inp : Metric
}.

Definition no_metric : Metric :=
  {| p75 := VNum 0; good := 0; needsImprovement := 0; poor := 0; total := 0 |}.

(** [histogram[i]], [key] being the decimal notation of [i]. *)
Definition element (histogram : JSValue) (i : nat) (key : string) : JSValue :=
  match histogram with
  | VArr items => nth i items VUndefined
  | VObj _ => get histogram key
  | _ => VUndefined
  end.

(** [histogram[i]?.density || 0] *)
Definition density (histogram : JSValue) (i : nat) (key : string) : Q :=
  match get_opt (element histogram i key) "density" with
  | VNum d => d
  | _ => 0
  end.

(** The five assignments made for one metric, [m] being
    [metrics.<name>[formFactor]]; a missing [percentiles] or [histogram]
    makes the property access throw. *)
Definition read_metric (m : JSValue) : JsError + Metric :=
  match get m "percentiles" with
  | VUndefined | VNull =>
      inl (TypeError "Cannot read properties of undefined (reading 'p75')")
  | percentiles =>
      match get m "histogram" with
      | VUndefined | VNull =>
          inl (TypeError "Cannot read properties of undefined (reading '0')")
      | histogram =>
          let good := density histogram 0 "0" in
          let needsImprovement := density histogram 1 "1" in
          let poor := density histogram 2 "2" in
          inr {| p75 := js_or (get percentiles "p75") (VNum 0);
                 good := good;
                 needsImprovement := needsImprovement;
                 poor := poor;
                 total := good + needsImprovement + poor |}
      end
  end.

(** [if (metrics.<name> && metrics.<name>[formFactor]) { ... }] *)
Definition parse_metric (metrics : JSValue) (name formFactor : string) : JsError + Metric :=
  if truthy (get metrics name) && truthy (get (get metrics name) formFactor)
  then read_metric (get (get metrics name) formFactor)
  else inr no_metric.

(** [parseMetrics(metrics, formFactor)] *)
Definition parseMetrics (metrics : JSValue) (formFactor : string) : JsError + Parsed :=
  match parse_metric metrics "largest_contentful_paint" formFactor with
  | inl e => inl e
  | inr lcp =>
  match parse_metric metrics "first_input_delay" formFactor with
  | inl e => inl e
  | inr fid =>
  match parse_metric metrics "cumulative_layout_shift" formFactor with
  | inl e => inl e
  | inr cls =>
  match parse_metric metrics "first_contentful_paint" formFactor with
  | inl e => inl e
  | inr ttfb =>
  match parse_metric metrics "interaction_to_next_paint" formFactor with
  | inl e => inl e
  | inr inp => inr {| lcp := lcp; fid := fid; cls := cls; ttfb := ttfb; inp := inp |}
  end end end end end.

Record Summary := {
  overallScore : Z;
  status : string;
  recommendations : list string
}.

(** [missing] zeros before [text]. *)
Fixpoint zeros_before (missing : nat) (text : string) : string :=
  match missing with
  | O => text
  | S fewer => zeros_before fewer (String "0" text)
  end.

(** [text], padded with zeros on the left to [width] characters. *)
Definition pad_left (width : nat) (text : string) : string :=
  zeros_before (width - String.length text) text.

(** [x.toFixed(digits)] for a number below 1e21. *)
Definition toFixed (digits : nat) (x : Q) : string :=
  let unit := Z.pow 10 (Z.of_nat digits) in
  let scaled := Math_round (Qabs x * inject_Z unit) in
  String.append (if Qle_bool 0 x then EmptyString else "-")
    (String.append (string_of_Z (scaled / unit))
       (match digits with
        | O => EmptyString
        | _ => String.append "." (pad_left digits (string_of_Z (scaled mod unit)))
        end)).

(** [v.toFixed(digits)]: only a number has the method. *)
Definition call_toFixed (v : JSValue) (digits : nat) : JsError + string :=
  match v with
  | VNum x => inr (toFixed digits x)
  | _ => inl (TypeError "toFixed is not a function")
  end.

(** The running state of [calculateCoreWebVitalsSummary]. *)
Record Tally := {
  totalScore : Q;
  metricCount : Z;
  pushed : list string
}.

(** One [if (metric.total > 0) { ... }] block: the metric's share of good
    experiences is added and, below 75, a recommendation that prints the
    percentile is pushed. *)
Definition score_metric (m : Metric) (before : string) (digits : nat) (after : string)
    (tally : Tally) : JsError + Tally :=
  let share := (good m / total m * 100)%Q in
  let counted pushed :=
    {| totalScore := totalScore tally + share;
       metricCount := metricCount tally + 1;
       pushed := pushed |} in
  if negb (Qle_bool 75 share) then
    match call_toFixed (p75 m) digits with
    | inr printed => inr (counted (pushed tally ++ [template [before; printed; after]]))
    | inl e => inl e
    end
  else inr (counted (pushed tally)).

(** [metric.total > 0] *)
Definition measured (m : Metric) : bool := negb (Qle_bool (total m) 0).

Definition general_recommendations : list string :=
  ["Consider implementing performance optimizations like:";
   "- Image optimization and lazy loading";
   "- Minimizing render-blocking resources";
   "- Using a CDN for faster content delivery";
   "- Implementing proper caching strategies"].

(** The status and its message. *)
Definition rate (overallScore : Z) : string * string :=
  if 90 <=? overallScore
  then ("Excellent", "Great job! Your Core Web Vitals are performing well.")
  else if 75 <=? overallScore
  then ("Good", "Your Core Web Vitals are good, but there's room for improvement.")
  else if 50 <=? overallScore
  then ("Needs Improvement",
        "Your Core Web Vitals need attention to improve user experience.")
  else ("Poor", "Your Core Web Vitals require immediate attention.").

(** What follows the three metric blocks. *)
Definition conclude (tally : Tally) : Summary :=
  let overallScore :=
    if 0 <? metricCount tally
    then Math_round (totalScore tally / inject_Z (metricCount tally))
    else 0 in
  let '(status, message) := rate overallScore in
  {| overallScore := overallScore;
     status := status;
     recommendations :=
       pushed tally ++ [message]
       ++ (if overallScore <? 90 then general_recommendations else []) |}.

(** [calculateCoreWebVitalsSummary(analysis)], given [formFactors.mobile] and
    [formFactors.desktop]. *)
Definition calculateCoreWebVitalsSummary (mobile desktop : option Parsed)
  : JsError + Summary :=
  let primaryMetrics := match mobile with Some _ => mobile | None => desktop end in
  match primaryMetrics with
  | None => inr {| overallScore := 0; status := "No data available"; recommendations := [] |}
  | Some primaryMetrics =>
      let tally := {| totalScore := 0; metricCount := 0; pushed := [] |} in
      match (if measured (lcp primaryMetrics)
             then score_metric (lcp primaryMetrics)
                    "Optimize Largest Contentful Paint (LCP): " 0
                    "ms (75th percentile). Target < 2.5s." tally
             else inr tally) with
      | inl e => inl e
      | inr tally =>
      match (if measured (cls primaryMetrics)
             then score_metric (cls primaryMetrics)
                    "Improve Cumulative Layout Shift (CLS): " 3
                    " (75th percentile). Target < 0.1." tally
             else inr tally) with
      | inl e => inl e
      | inr tally =>
      match (if measured (inp primaryMetrics)
             then score_metric (inp primaryMetrics)
                    "Optimize Interaction to Next Paint (INP): " 0
                    "ms (75th percentile). Target < 200ms." tally
             else if measured (fid primaryMetrics)
             then score_metric (fid primaryMetrics)
                    "Improve First Input Delay (FID): " 0
                    "ms (75th percentile). Target < 100ms." tally
             else inr tally) with
      | inl e => inl e
      | inr tally => inr (conclude tally)
      end end end
  end.

Record FormFactors := {
  desktop : option Parsed;
  mobile : option Parsed;
  tablet : option Parsed
}.

(** The [analysis] object, without the [metrics] and
    [effectiveConnectionTypes] members, which keep their initial values. *)
Record Analysis := {
  recordCount : JSValue;
  formFactors : FormFactors;
  summary : Summary
}.

(** [if (lcp && lcp[formFactor]) formFactors[formFactor] = parseMetrics(...)] *)
Definition parse_form_factor (metrics : JSValue) (formFactor : string)
  : JsError + option Parsed :=
  if truthy (get metrics "largest_contentful_paint")
     && truthy (get (get metrics "largest_contentful_paint") formFactor)
  then match parseMetrics metrics formFactor with
       | inr parsed => inr (Some parsed)
       | inl e => inl e
       end
  else inr None.

Definition no_data_recommendations : list string :=
  ["No Core Web Vitals data available for this origin. This could mean:";
   "- The site is new or has low traffic";
   "- The site is not accessible to Chrome users";
   "- Try analyzing a specific page URL instead of the origin"].

(** The end of [runCoreWebVitalsAnalysis]: the [analysis] built from the
    [result] of the query, which is neither [null] nor [undefined]. *)
Definition analyse (result : JSValue) : JsError + Analysis :=
  let record := get result "record" in
  if truthy record then
    let recordCount := js_or (get record "recordCount") (VNum 0) in
    let metrics := get record "metrics" in
    match (if truthy metrics
           then match parse_form_factor metrics "desktop" with
                | inl e => inl e
                | inr desktop =>
                match parse_form_factor metrics "mobile" with
                | inl e => inl e
                | inr mobile =>
                match parse_form_factor metrics "tablet" with
                | inl e => inl e
                | inr tablet =>
                    inr {| desktop := desktop; mobile := mobile; tablet := tablet |}
                end end end
           else inr {| desktop := None; mobile := None; tablet := None |}) with
    | inl e => inl e
    | inr formFactors =>
        match calculateCoreWebVitalsSummary (mobile formFactors) (desktop formFactors) with
        | inl e => inl e
        | inr summary =>
            inr {| recordCount := recordCount; formFactors := formFactors;
                   summary := summary |}
        end
    end
  else
    inr {| recordCount := VNum 0;
           formFactors := {| desktop := None; mobile := None; tablet := None |};
           summary := {| overallScore := 0; status := "No data available";
                         recommendations := no_data_recommendations |} |}.

(** The [analysis] object as a value; [metrics] and
    [effectiveConnectionTypes] are as they were initialised. *)
Definition metric_value (m : Metric) : JSValue :=
  VObj [("p75", p75 m); ("good", VNum (good m));
        ("needsImprovement", VNum (needsImprovement m)); ("poor", VNum (poor m));
        ("total", VNum (total m))].

Definition parsed_value (parsed : option Parsed) : JSValue :=
  match parsed with
  | Some parsed =>
      VObj [("lcp", metric_value (lcp parsed)); ("fid", metric_value (fid parsed));
            ("cls", metric_value (cls parsed)); ("ttfb", metric_value (ttfb parsed));
            ("inp", metric_value (inp parsed))]
  | None => VNull
  end.

Definition analysis_value (analysis : Analysis) : JSValue :=
  let initial :=
    VObj [("p75", VNum 0); ("good", VNum 0); ("needsImprovement", VNum 0);
          ("poor", VNum 0)] in
  VObj [("recordCount", recordCount analysis);
        ("metrics",
         VObj [("lcp", initial); ("fid", initial); ("cls", initial); ("ttfb", initial);
               ("inp", initial)]);
        ("formFactors",
         VObj [("desktop", parsed_value (desktop (formFactors analysis)));
               ("mobile", parsed_value (mobile (formFactors analysis)));
               ("tablet", parsed_value (tablet (formFactors analysis)))]);
        ("effectiveConnectionTypes",
         VObj [("4g", VNull); ("3g", VNull); ("2g", VNull); ("slow2g", VNull)]);
        ("summary",
         VObj [("overallScore", VNum (inject_Z (overallScore (summary analysis))));
               ("status", VStr (status (summary analysis)));
               ("recommendations",
                VArr (List.map VStr (recommendations (summary analysis))))])].

(** The reshaping that [runCoreWebVitalsAnalysis] applies to the result of
    the query. *)
Definition crux_analysis (result : JSValue) : JsError + JSValue :=
  match analyse result with
  | inr analysis => inr (analysis_value analysis)
  | inl e => inl e
  end.

End Crux.

(** ** Notions and samples used to state further properties *)

(** The technology is pushed to bucket [b]: [b] is the branch of the
    else-if chain that fires for it. *)
Definition lands_in (b : Bucket) (tech : TechInfo) : bool :=
  match first_bucket tech with
  | Some chosen => Nat.eqb (rank chosen) (rank b)
  | None => false
  end.

(** The twelve keys [analyzeSecurityHeadersData] looks up. *)
Definition looked_up_names : list string :=
  flat_map (fun t : string * string * string => let '(lower, canonical, _) := t in
                                                 [lower; canonical])
           SecurityHeaders.tracked.


(** The six findings of the mobile heuristic, in the order of the checks:
    the issue text, the recommendation pushed for it and the [details] flag
    that records it. *)
Definition heuristic_findings : list (string * string * (MobileFriendly.Details -> bool)) :=
  [ ("Viewport not set", MobileFriendly.viewport_recommendation, MobileFriendly.viewport);
    ("No responsive design detected",
     "Implement responsive design using CSS media queries",
     MobileFriendly.responsiveDesign);
    ("Content wider than screen",
     "Use flexible layouts with percentage-based widths",
     MobileFriendly.contentWidth);
    ("Text too small to read",
     "Use larger font sizes (minimum 16px) for mobile readability",
     MobileFriendly.textSize);
    ("Clickable elements too close",
     "Ensure clickable elements have adequate spacing (minimum 44px)",
     MobileFriendly.clickableElements);
    ("Incompatible plugins detected",
     "Remove or replace Flash and other incompatible plugins",
     MobileFriendly.plugins) ].

(** The findings whose flag is set in [analysis.details]. *)
Definition flagged (analysis : MobileFriendly.Analysis)
  : list (string * string * (MobileFriendly.Details -> bool)) :=
  List.filter (fun finding => snd finding (MobileFriendly.details analysis)) heuristic_findings.

(** [Math.round(screenshot.timestamp / 100)], the key under which
    [removeDuplicateScreenshots] remembers a screenshot. *)
Definition timestamp_key (screenshot : Screenshots.Screenshot) : Z :=
  Math_round (Screenshots.timestamp screenshot / 100).

(** [a.timestamp <= b.timestamp] *)
Definition not_later (a b : Screenshots.Screenshot) : Prop :=
  (Screenshots.timestamp a <= Screenshots.timestamp b)%Q.

(** A screenshot that can be displayed: some image data and a size. *)
Definition displayable (screenshot : Screenshots.Screenshot) : Prop :=
  Screenshots.data screenshot <> EmptyString /\
  ~ (Screenshots.width screenshot == 0)%Q /\
  ~ (Screenshots.height screenshot == 0)%Q.

(** [reportData.screenshots] and [reportData.filmstrip] as lists, a missing
    array being empty. *)
Definition entries_of (reportData : Screenshots.Report) : list Screenshots.Entry :=
  match Screenshots.screenshots reportData with
  | Some entries => entries
  | None => []
  end.

Definition frames_of (reportData : Screenshots.Report) : list Screenshots.Frame :=
  match Screenshots.filmstrip reportData with
  | Some frames => frames
  | None => []
  end.

(** The base64 text a filmstrip frame contributes, if any. *)
Definition frame_usable (frame : Screenshots.Frame) : option string :=
  match Screenshots.frame_screenshot frame with
  | Some shot => Screenshots.usable (Screenshots.shot_data shot)
  | None => None
  end.


(** The release of the fingerprinting engine's browser. *)
Definition is_destroy (o : Obs) : bool :=
  match obs_event o with
  | WappalyzerDestroy => true
  | _ => false
  end.

(** The path a file-system call works on. *)
Definition file_path (o : Obs) : option string :=
  match obs_event o with
  | ExistsSync path | MkdirSync path | StatSync path | ReadFileSync path
  | UnlinkSync path => Some path
  | _ => None
  end.

(** A file-system call on a path outside [allowed]. *)
Definition touches_outside (allowed : list string) (o : Obs) : bool :=
  match file_path o with
  | Some path => negb (existsb (String.eqb path) allowed)
  | None => false
  end.

(** A report from which the Lighthouse handler builds a result: no
    [runtimeError], [categories] and [audits], and a category with a score. *)
Definition report_is_usable (reportData : JSValue) : bool :=
  negb (truthy (get reportData "runtimeError"))
  && truthy (get reportData "categories") && truthy (get reportData "audits")
  && existsb has_score (Object_values (get reportData "categories")).

(** What the Lighthouse handler may answer for [url]: a result built from a
    usable report, or an error report; neither carries a timestamp. *)
Definition lighthouse_answer (url : string) (r : Response) : Prop :=
  match r with
  | Result u timestamp (LighthouseResult reportData _) =>
      u = url /\ timestamp = None /\ report_is_usable reportData = true
  | ErrorReport u _ timestamp => u = url /\ timestamp = None
  | _ => False
  end.
(** [x <= bound], which no [NaN] satisfies. *)
Definition at_most (x : Findings.Number) (bound : Q) : Prop :=
  match x with
  | Findings.Finite q => (q <= bound)%Q
  | Findings.Infinity positive => positive = false
  | Findings.NaN => False
  end.

(** [low <= x <= high] *)
Definition between (low : Q) (x : Findings.Number) (high : Q) : Prop :=
  match x with
  | Findings.Finite q => (low <= q <= high)%Q
  | Findings.Infinity _ | Findings.NaN => False
  end.

Section FindingsNotions.

Variable text_to_number : JSValue -> JsError + Findings.Number.
Variable times100 : Findings.Number -> Findings.Number.

(** The audit is an object whose score is not [null] and converts to the
    number [x], below [bound]. *)
Definition fails_with (audit : JSValue) (bound : Q) (x : Findings.Number) : Prop :=
  truthy audit = true /\
  get audit "score" <> VNull /\
  Findings.ToNumber text_to_number (get audit "score") = inr x /\
  Findings.less_than x bound = true.

(** A suggestion made for one of the audits the routine looks up in
    [audits]: an opportunity with a score below 1 or a diagnostic with a
    score below 0.9. *)
Definition suggested_by (audits : JSValue) (suggestion : Findings.Suggestion) : Prop :=
  exists auditKey bound x,
    (In auditKey Findings.opportunityAudits /\ bound = 1%Q \/
     In auditKey Findings.diagnosticAudits /\ bound = (9 # 10)%Q) /\
    fails_with (get audits auditKey) bound x /\
    Findings.score suggestion = Findings.round (times100 x) /\
    Findings.title suggestion = get (get audits auditKey) "title" /\
    Findings.description suggestion = get (get audits auditKey) "description" /\
    Findings.details suggestion = get (get audits auditKey) "details".

(** An issue reported under [category] for a property of [audits] whose key
    passes [selected]. *)
Definition reported_for (selected : string -> bool) (category : string)
    (audits : JSValue) (issue : Findings.Issue) : Prop :=
  exists properties key audit x,
    audits = VObj properties /\
    In (key, audit) properties /\
    selected key = true /\
    fails_with audit 1 x /\
    issue = Findings.issue_of times100 category audit x.

End FindingsNotions.
(** The five category properties [extractCategoryScores] may set, by name. *)
Definition category_entries (scores : Findings.CategoryScores)
  : list (string * option Findings.Number) :=
  [("performance", Findings.performance scores);
   ("accessibility", Findings.accessibility scores);
   ("best-practices", Findings.best_practices scores);
   ("seo", Findings.seo scores);
   ("pwa", Findings.pwa scores)].
(** A report with one failing opportunity, one failing accessibility audit,
    an audit without score and one that passed. *)
Definition audited_report : JSValue :=
  let audit (title : string) (score : JSValue) (displayValue : JSValue) :=
    VObj [("title", VStr title); ("description", VStr EmptyString);
          ("score", score); ("displayValue", displayValue)] in
  VObj [("categories", VObj [("performance", VObj [("score", VNum (3 # 4))])]);
        ("audits",
         VObj [("is-on-https", audit "Uses HTTPS" (VNum 1) VUndefined);
               ("unused-css-rules",
                audit "Reduce unused CSS" (VNum (1 # 2)) (VStr "Potential savings of 10 KiB"));
               ("color-contrast", audit "Contrast" (VNum 0) VUndefined);
               ("meta-description", audit "Meta description" VNull VUndefined);
               ("efficient-animated-content",
                audit "Use video formats" (VNum (1 # 4)) VUndefined)])].

(** A report whose audits have scores that are no numbers (a string, [false],
    an object with a [toString] property of its own), and an array index as
    key. *)
Definition unusual_report : JSValue :=
  let audit (title : string) (score : JSValue) :=
    VObj [("title", VStr title); ("score", score)] in
  VObj [("audits",
         VObj [("color-contrast", audit "Contrast" (VStr "0.5"));
               ("link-name", audit "Links" (VBool false));
               ("aria-roles", audit "Roles" (VObj [("toString", VNum 1)]));
               ("image-alt", audit "Alternatives" (VNum 0));
               ("7", audit "Seven" (VNum 0));
               ("unused-css-rules", audit "Reduce unused CSS" (VStr "0.5"));
               ("unused-javascript", audit "Reduce unused JavaScript"
                                       (VObj [("toString", VNum 1)]));
               ("dom-size", audit "Avoid an excessive DOM size" (VNum 0))])].

(** A report whose first audit in the text fails and whose second has an
    array index as key and a score that cannot be converted. *)
Definition index_keyed_report : JSValue :=
  VObj [("audits",
         VObj [("color-contrast", VObj [("title", VStr "Contrast"); ("score", VNum 0)]);
               ("0", VObj [("score", VObj [("toString", VNum 1)])])])].

(** An engine for the samples: it reads the string "0.5" and throws for an
    object with a [toString] property of its own. The scores of the samples
    are multiples of 1/4, whose products with 100 are exact. *)
Definition sample_text_to_number (v : JSValue) : JsError + Findings.Number :=
  match v with
  | VStr "0.5" => inr (Findings.Finite (1 # 2))
  | VObj fields =>
      match assoc "toString" fields with
      | VUndefined => inr Findings.NaN
      | _ => inl (TypeError "Cannot convert object to primitive value")
      end
  | _ => inr Findings.NaN
  end.

Definition sample_times100 (x : Findings.Number) : Findings.Number :=
  match x with
  | Findings.Finite q => Findings.Finite (q * 100)
  | Findings.Infinity _ | Findings.NaN => x
  end.

(** The number a decimal numeral denotes, after the digits read so far. *)
Fixpoint uint_value (acc : Z) (d : Decimal.uint) : Z :=
  match d with
  | Decimal.Nil => acc
  | Decimal.D0 d => uint_value (10 * acc) d
  | Decimal.D1 d => uint_value (10 * acc + 1) d
  | Decimal.D2 d => uint_value (10 * acc + 2) d
  | Decimal.D3 d => uint_value (10 * acc + 3) d
  | Decimal.D4 d => uint_value (10 * acc + 4) d
  | Decimal.D5 d => uint_value (10 * acc + 5) d
  | Decimal.D6 d => uint_value (10 * acc + 6) d
  | Decimal.D7 d => uint_value (10 * acc + 7) d
  | Decimal.D8 d => uint_value (10 * acc + 8) d
  | Decimal.D9 d => uint_value (10 * acc + 9) d
  end.

(** [formFactors.mobile || formFactors.desktop] *)
Definition primary_metrics (mobile desktop : option Crux.Parsed) : option Crux.Parsed :=
  match mobile with
  | Some _ => mobile
  | None => desktop
  end.

(** The metrics [calculateCoreWebVitalsSummary] may score. *)
Definition scored_metrics (primaryMetrics : Crux.Parsed) : list Crux.Metric :=
  [Crux.lcp primaryMetrics; Crux.cls primaryMetrics; Crux.inp primaryMetrics;
   Crux.fid primaryMetrics].

(** The good experiences are a share of all experiences. *)
Definition is_share (m : Crux.Metric) : Prop :=
  (0 <= Crux.good m)%Q /\ (Crux.good m <= Crux.total m)%Q.

(** The five members of [record.metrics] that [parseMetrics] reads. *)
Definition parsed_names : list string :=
  ["largest_contentful_paint"; "first_input_delay"; "cumulative_layout_shift";
   "first_contentful_paint"; "interaction_to_next_paint"].

(** A record in the shape of the CrUX API: the histogram and the percentiles
    sit directly under each metric. *)
Definition crux_record : JSValue :=
  let bin (d : Q) := VObj [("density", VNum d)] in
  let metric (g n p : Q) (p75 : JSValue) :=
    VObj [("histogram", VArr [bin g; bin n; bin p]);
          ("percentiles", VObj [("p75", p75)])] in
  VObj [("record",
         VObj [("key", VObj [("origin", VStr "https://example.com")]);
               ("metrics",
                VObj [("largest_contentful_paint",
                       metric (8 # 10) (15 # 100) (5 # 100) (VNum (1800 # 1)));
                      ("cumulative_layout_shift",
                       metric (6 # 10) (3 # 10) (1 # 10) (VStr "0.12"))])])].

(** Parsed metrics with a layout-shift share of 60 out of 100; [cls_p75] is
    the 75th percentile of the layout shift. *)
Definition shifting_layout (cls_p75 : JSValue) : Crux.Parsed :=
  let metric (g n p : Q) (p75 : JSValue) :=
    {| Crux.p75 := p75; Crux.good := g; Crux.needsImprovement := n; Crux.poor := p;
       Crux.total := g + n + p |} in
  {| Crux.lcp := metric (8 # 10) (15 # 100) (5 # 100) (VNum (1800 # 1));
     Crux.fid := Crux.no_metric;
     Crux.cls := metric (6 # 10) (3 # 10) (1 # 10) cls_p75;
     Crux.ttfb := Crux.no_metric;
     Crux.inp := metric (9 # 10) (5 # 100) (5 # 100) (VNum (150 # 1)) |}.

(** Parsed metrics of a form factor without any histogram data. *)
Definition unmeasured : Crux.Parsed :=
  {| Crux.lcp := Crux.no_metric; Crux.fid := Crux.no_metric; Crux.cls := Crux.no_metric;
     Crux.ttfb := Crux.no_metric; Crux.inp := Crux.no_metric |}.

(** The metric is scored and its share of good experiences is below 75, so
    that a recommendation prints its 75th percentile. *)
Definition needs_advice (m : Crux.Metric) : bool :=
  Crux.measured m && negb (Qle_bool 75 (Crux.good m / Crux.total m * 100)).

(** The metrics [calculateCoreWebVitalsSummary] looks at: LCP, CLS, and INP
    or, without INP data, FID. *)
Definition vitals (primaryMetrics : Crux.Parsed) : list Crux.Metric :=
  [Crux.lcp primaryMetrics; Crux.cls primaryMetrics;
   if Crux.measured (Crux.inp primaryMetrics)
   then Crux.inp primaryMetrics else Crux.fid primaryMetrics].

Definition is_number (v : JSValue) : bool :=
  match v with
  | VNum _ => true
  | _ => false
  end.

(** The scores added so far average to a percentage. *)
Definition tally_in_range (tally : Crux.Tally) : Prop :=
  0 <= Crux.metricCount tally /\
  (0 <= Crux.totalScore tally)%Q /\
  (Crux.totalScore tally <= 100 * inject_Z (Crux.metricCount tally))%Q.

(* ================================================================== *)
(** * Theorems *)

(** ** Technology bucketing *)

Lemma some_keyword_spec (keywords : list string) (n c : string) :
  some_keyword keywords n c = true <->
  exists keyword, In keyword keywords /\
    (includes n keyword = true \/ includes c keyword = true).
Proof.
  unfold some_keyword. rewrite existsb_exists.
  split; intros [k [Hin Hk]]; exists k; split; auto.
  - apply orb_true_iff in Hk. exact Hk.
  - apply orb_true_iff. exact Hk.
Qed.

Lemma categorizeTechnology_first_bucket (tech : TechInfo) (categories : Categories) :
  categorizeTechnology tech categories =
  match first_bucket tech with
  | Some b => push b tech categories
  | None => categories
  end.
Proof.
  unfold categorizeTechnology, first_bucket, priority_order, List.find, keyword_table.
  unfold isFrontendTech, isBackendTech, isDatabase, isProgrammingLanguage, isFramework,
    isLibrary, isCMS, isEcommerce, isAnalytics, isWebServer, isCDN, isHosting,
    isCloudService, isSecurity, isPaymentProcessor, isAdvertisingNetwork, isABTesting.
  repeat match goal with
         | |- context [if ?c then _ else _] => destruct c; [reflexivity|]
         end.
  reflexivity.
Qed.

Lemma bucket_of_push (b b' : Bucket) (tech : TechInfo) (c : Categories) :
  bucket_of (push b tech c) b' =
  if Nat.eqb (rank b) (rank b') then bucket_of c b' ++ [tech] else bucket_of c b'.
Proof. destruct b, b'; reflexivity. Qed.

Lemma rank_inj (b b' : Bucket) : rank b = rank b' -> b = b'.
Proof. destruct b, b'; simpl; intros H; try reflexivity; discriminate H. Qed.

Lemma app_one_neq {A} (l : list A) (x : A) : l <> l ++ [x].
Proof.
  intros H. apply (f_equal (@List.length A)) in H.
  rewrite List.length_app in H. simpl in H. lia.
Qed.

Lemma find_first {A} (p : A -> bool) (l : list A) (x : A) :
  List.find p l = Some x <->
  exists l1 l2, l = l1 ++ x :: l2 /\ p x = true /\ forall y, In y l1 -> p y = false.
Proof.
  induction l as [|a l IH]; simpl.
  - split; [discriminate|]. intros (l1 & l2 & H & _). destruct l1; discriminate H.
  - destruct (p a) eqn:Ha.
    + split.
      * intros [= ->]. exists [], l. simpl. auto with datatypes.
        split; [reflexivity|]. split; [assumption|]. intros y [].
      * intros (l1 & l2 & H & Hx & Hl1). destruct l1 as [|a' l1]; simpl in H.
        -- congruence.
        -- injection H as -> _. rewrite (Hl1 a') in Ha by (left; reflexivity). discriminate.
    + rewrite IH. split.
      * intros (l1 & l2 & -> & Hx & Hl1). exists (a :: l1), l2. simpl.
        split; [reflexivity|]. split; [assumption|].
        intros y [<-|Hy]; auto.
      * intros (l1 & l2 & H & Hx & Hl1). destruct l1 as [|a' l1]; simpl in H.
        -- injection H as -> _. congruence.
        -- injection H as -> ->. exists l1, l2.
           split; [reflexivity|]. split; [assumption|].
           intros y Hy. apply Hl1. right. assumption.
Qed.

Lemma priority_order_split (b : Bucket) (l1 l2 : list Bucket) :
  priority_order = l1 ++ b :: l2 ->
  forall b', In b' l1 <-> (rank b' < rank b)%nat.
Proof.
  unfold priority_order. intros H b'.
  repeat (destruct l1 as [|? l1];
          [ injection H as <- _; destruct b'; simpl; split; intros; try lia; intuition congruence
          | injection H as <- H ]).
  destruct l1; discriminate H.
Qed.

Lemma first_bucket_spec (tech : TechInfo) (b : Bucket) :
  first_bucket tech = Some b <->
  matches_bucket tech b /\
  forall b', (rank b' < rank b)%nat -> ~ matches_bucket tech b'.
Proof.
  unfold first_bucket, matches_bucket. rewrite find_first. split.
  - intros (l1 & l2 & Hsplit & Hb & Hl1). split.
    + apply some_keyword_spec. exact Hb.
    + intros b' Hlt Hm. apply some_keyword_spec in Hm.
      rewrite Hl1 in Hm; [discriminate|].
      apply (priority_order_split b l1 l2 Hsplit). exact Hlt.
  - intros [Hb Hearlier].
    assert (Hin : In b priority_order) by (destruct b; simpl; tauto).
    apply in_split in Hin. destruct Hin as (l1 & l2 & Hsplit).
    exists l1, l2. split; [exact Hsplit|]. split.
    + apply some_keyword_spec. exact Hb.
    + intros y Hy. apply not_true_is_false. intros Hm.
      apply (Hearlier y).
      * apply (priority_order_split b l1 l2 Hsplit). exact Hy.
      * apply some_keyword_spec. exact Hm.
Qed.

Example categorize_jquery :
  first_bucket {| name := "jQuery"; version := "3.6"; confidence := 100;
                  category := "JavaScript libraries"; description := EmptyString |} = Some Frontend.
Proof. reflexivity. Qed.

Example categorize_nginx :
  first_bucket {| name := "Nginx"; version := "Unknown"; confidence := 100;
                  category := "Web servers"; description := EmptyString |} = Some WebServers.
Proof. reflexivity. Qed.

(** C7. A detected technology is pushed to a bucket exactly when its
    lowercased name or lowercased category contains a keyword of that bucket's
    table and no bucket earlier in the fixed priority order (frontend, backend,
    databases, programming languages, frameworks, libraries, cms, ecommerce,
    analytics, web servers, cdn, hosting, cloud services, security, payment
    processors, advertising networks, a/b testing) matches; every other bucket
    is left as it was, so a technology lands in at most one bucket. *)
Theorem categorizeTechnology_first_matching_bucket
    (tech : TechInfo) (categories : Categories) :
  let after := categorizeTechnology tech categories in
  (forall b, placed_in tech categories after b <->
             (matches_bucket tech b /\
              forall b', (rank b' < rank b)%nat -> ~ matches_bucket tech b')) /\
  (forall b, ~ placed_in tech categories after b ->
             bucket_of after b = bucket_of categories b) /\
  (forall b1 b2, placed_in tech categories after b1 ->
                 placed_in tech categories after b2 -> b1 = b2).
Proof.
  intros after.
  assert (Hplaced : forall b, placed_in tech categories after b <-> first_bucket tech = Some b).
  { intros b. unfold placed_in, after. rewrite categorizeTechnology_first_bucket.
    destruct (first_bucket tech) as [b0|].
    - rewrite bucket_of_push. destruct (Nat.eqb (rank b0) (rank b)) eqn:E.
      + apply Nat.eqb_eq, rank_inj in E. subst b0. tauto.
      + split.
        * intros H. exfalso. exact (app_one_neq _ _ H).
        * intros [= ->]. rewrite Nat.eqb_refl in E. discriminate.
    - split; [|discriminate]. intros H. exfalso. exact (app_one_neq _ _ H). }
  split; [|split].
  - intros b. rewrite Hplaced. apply first_bucket_spec.
  - intros b Hb. unfold after. rewrite categorizeTechnology_first_bucket.
    destruct (first_bucket tech) as [b0|] eqn:E; [|reflexivity].
    rewrite bucket_of_push. destruct (Nat.eqb (rank b0) (rank b)) eqn:E'; [|reflexivity].
    apply Nat.eqb_eq, rank_inj in E'. subst b0. exfalso. apply Hb, Hplaced. reflexivity.
  - intros b1 b2 H1 H2. apply Hplaced in H1, H2. congruence.
Qed.

(** ** Security headers *)

Example security_score_values :
  List.map (fun n => Math_round ((inject_Z n / 6) * 100)%Q) [0; 1; 2; 3; 4; 5; 6]
  = [0; 17; 33; 50; 67; 83; 100].
Proof. reflexivity. Qed.

Example nosniff_only :
  let a := SecurityHeaders.analyzeSecurityHeadersData
             {[ "x-content-type-options" := "nosniff" ]} true in
  SecurityHeaders.totalHeaders (SecurityHeaders.summary a) = 1 /\
  SecurityHeaders.securityScore (SecurityHeaders.summary a) = 17 /\
  List.length (SecurityHeaders.recommendations (SecurityHeaders.summary a)) = 5%nat.
Proof. vm_compute. auto. Qed.

(** C9, as stated, fails on a tracked header sent with an empty value: the
    header is a key of the map, yet it is counted as missing. *)
Lemma security_headers_empty_value_not_counted :
  let headers : gmap string string := {[ "x-frame-options" := EmptyString ]} in
  let s := SecurityHeaders.summary
             (SecurityHeaders.analyzeSecurityHeadersData headers true) in
  SecurityHeaders.count (SecurityHeaders.in_map headers) = 1 /\
  SecurityHeaders.totalHeaders s = 0 /\
  SecurityHeaders.totalHeaders s
    <> SecurityHeaders.count (SecurityHeaders.in_map headers) /\
  Z.of_nat (List.length (SecurityHeaders.recommendations s))
    <> 6 - SecurityHeaders.count (SecurityHeaders.in_map headers).
Proof. vm_compute. repeat split; discriminate. Qed.

Lemma present_check h l c md mr pd pr :
  SecurityHeaders.present (SecurityHeaders.check h l c md mr pd pr)
  = SecurityHeaders.truthy (h !! l) || SecurityHeaders.truthy (h !! c).
Proof. unfold SecurityHeaders.check. destruct (_ || _); reflexivity. Qed.

Lemma push_if_missing_check h l c md mr pd pr recs :
  SecurityHeaders.push_if_missing (SecurityHeaders.check h l c md mr pd pr) recs
  = if SecurityHeaders.truthy (h !! l) || SecurityHeaders.truthy (h !! c)
    then recs else recs ++ [mr].
Proof.
  unfold SecurityHeaders.push_if_missing, SecurityHeaders.check.
  destruct (_ || _); reflexivity.
Qed.

(** C9, amended. For every header map, [summary.totalHeaders] is the number of
    the six tracked headers that the map holds with a non-empty value (under
    the lower-case or the canonical name), [summary.securityScore] is
    [round(totalHeaders / 6 * 100)], and [summary.recommendations] holds, in
    order, exactly one entry per tracked header without such a value, so its
    length is [6 - totalHeaders]. *)
Theorem security_headers_summary (headers : gmap string string) (isHttps : bool) :
  let s := SecurityHeaders.summary
             (SecurityHeaders.analyzeSecurityHeadersData headers isHttps) in
  SecurityHeaders.totalHeaders s
    = SecurityHeaders.count (SecurityHeaders.has_value headers) /\
  SecurityHeaders.securityScore s
    = Math_round ((inject_Z (SecurityHeaders.totalHeaders s) / 6) * 100)%Q /\
  SecurityHeaders.recommendations s
    = List.map snd
        (List.filter (fun t => negb (SecurityHeaders.has_value headers t))
                     SecurityHeaders.tracked) /\
  Z.of_nat (List.length (SecurityHeaders.recommendations s))
    = 6 - SecurityHeaders.totalHeaders s.
Proof.
  unfold SecurityHeaders.analyzeSecurityHeadersData, SecurityHeaders.count,
    SecurityHeaders.tracked, SecurityHeaders.has_value.
  cbn [List.filter List.map snd SecurityHeaders.summary SecurityHeaders.totalHeaders
       SecurityHeaders.securityScore SecurityHeaders.recommendations].
  rewrite !present_check, !push_if_missing_check.
  generalize
    (SecurityHeaders.truthy (headers !! "strict-transport-security")
     || SecurityHeaders.truthy (headers !! "Strict-Transport-Security")),
    (SecurityHeaders.truthy (headers !! "content-security-policy")
     || SecurityHeaders.truthy (headers !! "Content-Security-Policy")),
    (SecurityHeaders.truthy (headers !! "x-frame-options")
     || SecurityHeaders.truthy (headers !! "X-Frame-Options")),
    (SecurityHeaders.truthy (headers !! "x-content-type-options")
     || SecurityHeaders.truthy (headers !! "X-Content-Type-Options")),
    (SecurityHeaders.truthy (headers !! "referrer-policy")
     || SecurityHeaders.truthy (headers !! "Referrer-Policy")),
    (SecurityHeaders.truthy (headers !! "permissions-policy")
     || SecurityHeaders.truthy (headers !! "Permissions-Policy")).
  intros [] [] [] [] [] []; cbv; auto.
Qed.

(** ** The mobile-friendliness heuristic *)

Example heuristic_responsive_page :
  let page := String.concat dq
    ["<html><head><META name="; "viewport"; " content=";
     "width=device-width, initial-scale=1"; "><style>@media (max-width: 600em) {}</style>"] in
  MobileFriendly.verdict (MobileFriendly.heuristic page) = "MOBILE_FRIENDLY" /\
  MobileFriendly.issues (MobileFriendly.heuristic page) = [].
Proof. vm_compute. auto. Qed.

Example heuristic_small_font :
  MobileFriendly.issues (MobileFriendly.heuristic "<p style='font-size:  12px; padding: 4px'>x</p>")
  = ["Viewport not set"; "No responsive design detected"; "Text too small to read"].
Proof. vm_compute. reflexivity. Qed.

Example regex_font_size :
  List.map MobileFriendly.matches_small_font
    ["font-size:9px"; "font-size: 15px"; "font-size:16px"; "font-size:116px";
     "font-size:1px"; "font-size:100px"; "xfont-size:	7px"; "font-size: px"]
  = [true; true; false; false; true; false; true; false].
Proof. vm_compute. reflexivity. Qed.

Example regex_padding :
  List.map MobileFriendly.matches_zero_padding
    ["padding:0"; "padding:  0px"; "padding: 10px"; "padding:05"; "padding"]
  = [true; true; false; true; false].
Proof. vm_compute. reflexivity. Qed.

Lemma verdict_recommend_if detail r analysis :
  MobileFriendly.verdict (MobileFriendly.recommend_if detail r analysis)
  = MobileFriendly.verdict analysis.
Proof.
  unfold MobileFriendly.recommend_if, MobileFriendly.when.
  destruct (detail _); reflexivity.
Qed.

Lemma issues_recommend_if detail r analysis :
  MobileFriendly.issues (MobileFriendly.recommend_if detail r analysis)
  = MobileFriendly.issues analysis.
Proof.
  unfold MobileFriendly.recommend_if, MobileFriendly.when.
  destruct (detail _); reflexivity.
Qed.

Lemma issues_decide_verdict analysis :
  MobileFriendly.issues (MobileFriendly.decide_verdict analysis)
  = MobileFriendly.issues analysis.
Proof.
  unfold MobileFriendly.decide_verdict, MobileFriendly.when.
  destruct (0 <? _); reflexivity.
Qed.

Lemma verdict_decide_verdict analysis :
  MobileFriendly.verdict (MobileFriendly.decide_verdict analysis)
  = match MobileFriendly.issues analysis with
    | [] => MobileFriendly.verdict analysis
    | _ :: _ => "NOT_MOBILE_FRIENDLY"
    end.
Proof.
  unfold MobileFriendly.decide_verdict, MobileFriendly.when.
  destruct (MobileFriendly.issues analysis); reflexivity.
Qed.

Lemma verdict_when_flag condition issue update analysis :
  MobileFriendly.verdict
    (MobileFriendly.when condition (MobileFriendly.flag issue update) analysis)
  = MobileFriendly.verdict analysis.
Proof. destruct condition; reflexivity. Qed.

(** C10. For every fetched page the heuristic's verdict is
    'NOT_MOBILE_FRIENDLY' exactly when its issues list is not empty, and
    'MOBILE_FRIENDLY' with an empty issues list otherwise. *)
Theorem heuristic_verdict_iff_issues (page_html : string) :
  let analysis := MobileFriendly.heuristic page_html in
  (MobileFriendly.verdict analysis = "NOT_MOBILE_FRIENDLY"
   <-> MobileFriendly.issues analysis <> []) /\
  (MobileFriendly.verdict analysis <> "NOT_MOBILE_FRIENDLY" ->
   MobileFriendly.verdict analysis = "MOBILE_FRIENDLY" /\
   MobileFriendly.issues analysis = []).
Proof.
  unfold MobileFriendly.heuristic. cbv zeta.
  rewrite !verdict_recommend_if, !issues_recommend_if.
  rewrite verdict_decide_verdict, issues_decide_verdict.
  rewrite !verdict_when_flag.
  destruct (MobileFriendly.issues _) as [|issue rest]; cbn [MobileFriendly.verdict MobileFriendly.initial].
  - split.
    + split; [discriminate | intros H; exfalso; apply H; reflexivity].
    + intros _. split; reflexivity.
  - split.
    + split; [discriminate | reflexivity].
    + intros H. exfalso. apply H. reflexivity.
Qed.

(** ** Running program trees *)

Lemma run_bind {A B : Type} (w : World) (p : Prog A) (f : A -> Prog B) (s : state w) :
  run w (bind p f) s =
  match outcome (run w p s) with
  | Returned a =>
      let r := run w (f a) (final (run w p s)) in
      {| trace := trace (run w p s) ++ trace r; outcome := outcome r; final := final r |}
  | Threw e =>
      {| trace := trace (run w p s); outcome := Threw e; final := final (run w p s) |}
  end.
Proof.
  revert s. induction p as [a|e|X ev k IH]; intros s; simpl.
  - destruct (run w (f a) s); reflexivity.
  - reflexivity.
  - destruct (answer w X ev s) as [x s']. rewrite IH. unfold after. simpl.
    destruct (outcome (run w (k x) s')) eqn:E; simpl; rewrite ?E; reflexivity.
Qed.

Lemma run_try_catch {A : Type} (w : World) (p : Prog A) (h : JsError -> Prog A)
    (s : state w) :
  run w (try_catch p h) s =
  match outcome (run w p s) with
  | Returned a => run w p s
  | Threw e =>
      let r := run w (h e) (final (run w p s)) in
      {| trace := trace (run w p s) ++ trace r; outcome := outcome r; final := final r |}
  end.
Proof.
  revert s. induction p as [a|e|X ev k IH]; intros s; simpl.
  - reflexivity.
  - destruct (run w (h e) s); reflexivity.
  - destruct (answer w X ev s) as [x s']. rewrite IH. unfold after. simpl.
    destruct (outcome (run w (k x) s')) eqn:E; simpl; rewrite ?E; reflexivity.
Qed.

Lemma trace_bind {A B : Type} (w : World) (p : Prog A) (f : A -> Prog B) (s : state w) :
  trace (run w (bind p f) s) =
  trace (run w p s) ++
  match outcome (run w p s) with
  | Returned a => trace (run w (f a) (final (run w p s)))
  | Threw _ => []
  end.
Proof.
  rewrite run_bind. destruct (outcome (run w p s)); simpl; [reflexivity|].
  rewrite app_nil_r. reflexivity.
Qed.

Lemma trace_try_catch {A : Type} (w : World) (p : Prog A) (h : JsError -> Prog A)
    (s : state w) :
  trace (run w (try_catch p h) s) =
  trace (run w p s) ++
  match outcome (run w p s) with
  | Returned _ => []
  | Threw e => trace (run w (h e) (final (run w p s)))
  end.
Proof.
  rewrite run_try_catch. destruct (outcome (run w p s)); simpl; [|reflexivity].
  rewrite app_nil_r. reflexivity.
Qed.

Lemma Returns_run {R : Type} (P : R -> Prop) (p : Prog R) :
  Returns P p -> forall (w : World) (s : state w) (r : R),
  outcome (run w p s) = Returned r -> P r.
Proof.
  induction 1 as [r Hr|e|X ev k _ IH]; intros w s r'; simpl.
  - intros [= <-]. exact Hr.
  - discriminate.
  - destruct (answer w X ev s) as [x s']. simpl. apply IH.
Qed.

Lemma Always_run {R : Type} (P : R -> Prop) (p : Prog R) :
  Always P p -> forall (w : World) (s : state w),
  exists r, outcome (run w p s) = Returned r /\ P r.
Proof.
  induction 1 as [r Hr|X ev k _ IH]; intros w s; simpl.
  - exists r. split; [reflexivity|exact Hr].
  - destruct (answer w X ev s) as [x s']. simpl. apply IH.
Qed.

Lemma Avoids_run {R : Type} (bad : Obs -> bool) (p : Prog R) :
  Avoids bad p -> forall (w : World) (s : state w),
  List.filter bad (trace (run w p s)) = [].
Proof.
  induction 1 as [r|e|X ev k Hev _ IH]; intros w s; simpl; try reflexivity.
  destruct (answer w X ev s) as [x s']. simpl. rewrite Hev. apply IH.
Qed.

Lemma Returns_bind {A B : Type} (P : B -> Prop) (p : Prog A) (f : A -> Prog B) :
  (forall a, Returns P (f a)) -> Returns P (bind p f).
Proof.
  intros Hf. induction p as [a|e|X ev k IH]; simpl.
  - apply Hf.
  - constructor.
  - constructor. exact IH.
Qed.

Lemma Returns_try_catch {A : Type} (P : A -> Prop) (p : Prog A) (h : JsError -> Prog A) :
  Returns P p -> (forall e, Returns P (h e)) -> Returns P (try_catch p h).
Proof.
  intros Hp Hh. induction Hp as [r Hr|e|X ev k _ IH]; simpl.
  - constructor. exact Hr.
  - apply Hh.
  - constructor. exact IH.
Qed.

Lemma Avoids_bind {A B : Type} (bad : Obs -> bool) (p : Prog A) (f : A -> Prog B) :
  Avoids bad p -> (forall a, Avoids bad (f a)) -> Avoids bad (bind p f).
Proof.
  intros Hp Hf. induction Hp as [r|e|X ev k Hev _ IH]; simpl.
  - apply Hf.
  - constructor.
  - constructor; assumption.
Qed.

Lemma Avoids_try_catch {A : Type} (bad : Obs -> bool) (p : Prog A) (h : JsError -> Prog A) :
  Avoids bad p -> (forall e, Avoids bad (h e)) -> Avoids bad (try_catch p h).
Proof.
  intros Hp Hh. induction Hp as [r|e|X ev k Hev _ IH]; simpl.
  - constructor.
  - apply Hh.
  - constructor; assumption.
Qed.

Lemma filter_try_catch {A : Type} (bad : Obs -> bool) (w : World) (p : Prog A)
    (h : JsError -> Prog A) (s : state w) :
  (forall e, Avoids bad (h e)) ->
  List.filter bad (trace (run w (try_catch p h) s)) = List.filter bad (trace (run w p s)).
Proof.
  intros Hh. rewrite trace_try_catch, List.filter_app.
  destruct (outcome (run w p s)) as [a|e].
  - apply app_nil_r.
  - rewrite (Avoids_run _ _ (Hh e)). apply app_nil_r.
Qed.

Lemma filter_bind_left {A B : Type} (bad : Obs -> bool) (w : World) (p : Prog A)
    (f : A -> Prog B) (s : state w) :
  Avoids bad p ->
  List.filter bad (trace (run w (bind p f) s)) =
  match outcome (run w p s) with
  | Returned a => List.filter bad (trace (run w (f a) (final (run w p s))))
  | Threw _ => []
  end.
Proof.
  intros Hp. rewrite trace_bind, List.filter_app, (Avoids_run _ _ Hp).
  destruct (outcome (run w p s)); reflexivity.
Qed.


(** Building [Avoids] facts for the straight-line parts of the handlers. *)
Ltac avoids :=
  repeat first
    [ apply Avoids_Ret
    | apply Avoids_Throw
    | apply Avoids_bind
    | apply Avoids_try_catch
    | apply Avoids_Vis; [intros; reflexivity|]
    | progress intros
    | match goal with
      | |- Avoids _ (match ?x with _ => _ end) => destruct x
      | |- Avoids _ (if ?c then _ else _) => destruct c
      end ].

(** One step of symbolic execution: the world's next answer is named. *)
Ltac answer_step :=
  match goal with
  | |- context [answer ?w ?X ?ev ?s] =>
      let x := fresh "x" in
      let s' := fresh "s" in
      destruct (answer w X ev s) as [x s']
  end.

(** Symbolic execution of a program whose events are all named. *)
Ltac execute :=
  repeat (cbn -[includes];
          first [ answer_step
                | match goal with
                  | |- context [match ?x with _ => _ end] => destruct x eqn:?
                  end ]);
  cbn -[includes].

(** ** Screenshot timeline *)

Example extract_filmstrip :
  List.map (fun shot => (Screenshots.id shot, Screenshots.description shot,
                         Screenshots.phase shot))
    (Screenshots.finish filmstrip_report (Screenshots.collected_frames filmstrip_report))
  = [(Screenshots.Filmstrip 1, "Filmstrip at 0.3s", "initial");
     (Screenshots.Filmstrip 0, "Filmstrip at 2.0s", "early")].
Proof. vm_compute. reflexivity. Qed.

(** What [extractScreenshots] returns, given the clock reading. *)
Lemma extractScreenshots_run (reportData : Screenshots.Report) (w : World) (s : state w) :
  outcome (run w (Screenshots.extractScreenshots reportData) s) =
  Returned
    (Screenshots.finish reportData
       (Screenshots.collected_frames reportData ++
        match Screenshots.final_candidate reportData with
        | Some (details, base64Data) =>
            [Screenshots.final_entry details base64Data (fst (answer w _ DateNow s))]
        | None => []
        end)).
Proof.
  unfold Screenshots.extractScreenshots, call.
  destruct (Screenshots.final_candidate reportData) as [[details base64Data]|].
  - cbn -[Screenshots.finish Screenshots.collected_frames].
    destruct (answer w _ DateNow s) as [now s']. reflexivity.
  - cbn -[Screenshots.finish Screenshots.collected_frames].
    rewrite app_nil_r. reflexivity.
Qed.

Lemma extractScreenshots_Avoids (bad : Obs -> bool) (reportData : Screenshots.Report) :
  (forall now, bad (observed DateNow now) = false) ->
  Avoids bad (Screenshots.extractScreenshots reportData).
Proof.
  intros Hnow. unfold Screenshots.extractScreenshots, call.
  apply Avoids_try_catch; [|intros; constructor].
  apply Avoids_bind; [|intros; constructor].
  destruct (Screenshots.final_candidate reportData) as [[details base64Data]|].
  - simpl. constructor; [exact Hnow|]. intros; constructor.
  - constructor.
Qed.

(** C4, as stated, fails: the final screenshot is stamped with the wall
    clock, so two runs on one report differ when the clock has moved. *)
Lemma extractScreenshots_depends_on_the_clock :
  outcome (run (Sim.world (at_time 1700000000000 Sim.offline))
               (Screenshots.extractScreenshots final_only_report) Sim.no_files)
  <> outcome (run (Sim.world (at_time 1700000000001 Sim.offline))
                  (Screenshots.extractScreenshots final_only_report) Sim.no_files).
Proof. vm_compute. intros H. discriminate H. Qed.

(** C4, amended. The routine always returns, and two runs on the same report
    return the same list whenever the report yields no final-screenshot entry
    or the two runs read the same clock value. *)
Theorem extractScreenshots_deterministic_up_to_clock
    (reportData : Screenshots.Report)
    (w1 w2 : World) (s1 : state w1) (s2 : state w2) :
  Screenshots.final_candidate reportData = None \/
  fst (answer w1 _ DateNow s1) = fst (answer w2 _ DateNow s2) ->
  exists shots,
    outcome (run w1 (Screenshots.extractScreenshots reportData) s1) = Returned shots /\
    outcome (run w2 (Screenshots.extractScreenshots reportData) s2) = Returned shots.
Proof.
  intros H. rewrite !extractScreenshots_run. eexists. split; [reflexivity|].
  destruct H as [-> | ->]; reflexivity.
Qed.

(** The amended C4 at a filmstrip without a final screenshot, read at two
    different times. *)
Lemma extractScreenshots_deterministic_witness :
  exists shots,
    outcome (run (Sim.world (at_time 1700000000000 Sim.offline))
                 (Screenshots.extractScreenshots filmstrip_report) Sim.no_files)
    = Returned shots /\
    outcome (run (Sim.world (at_time 1700000000001 Sim.offline))
                 (Screenshots.extractScreenshots filmstrip_report) Sim.no_files)
    = Returned shots.
Proof.
  apply (extractScreenshots_deterministic_up_to_clock filmstrip_report
           (Sim.world (at_time 1700000000000 Sim.offline))
           (Sim.world (at_time 1700000000001 Sim.offline))).
  left. reflexivity.
Defined.

(** ** The handler boundary *)





Section ServiceFacts.

Variable crux_analysis : JSValue -> JsError + JSValue.





End ServiceFacts.

Section RouteFacts.

Variable crux_analysis : JSValue -> JsError + JSValue.


End RouteFacts.


Example lighthouse_not_installed :
  outcome (run (Sim.world Sim.offline) (runLighthouseAnalysis "example.com") Sim.no_files)
  = Returned (ErrorReport "https://example.com"
                (VStr "Failed to analyze website: Lighthouse CLI not found. Please ensure lighthouse is installed: npm install -g lighthouse")
                None).
Proof. vm_compute. reflexivity. Qed.

Example security_headers_unreachable :
  outcome (run (Sim.world Sim.offline) (analyzeSecurityHeaders "http://example.com")
               Sim.no_files)
  = Returned (ErrorReport "http://example.com"
                (VStr "Failed to analyze security headers: getaddrinfo ENOTFOUND")
                (Some "2023-11-14T22:13:20.000Z")).
Proof. vm_compute. reflexivity. Qed.

Example tech_stack_unreachable :
  outcome (run (Sim.world Sim.offline) (analyzeTechStack "example.com") Sim.no_files)
  = Returned (ErrorReport "https://example.com"
                (VStr "Failed to analyze tech stack: net::ERR_NAME_NOT_RESOLVED")
                (Some "2023-11-14T22:13:20.000Z")).
Proof. vm_compute. reflexivity. Qed.

Example core_web_vitals_falls_back_to_origin :
  exists analysis,
    outcome (run (Sim.world crux_without_page_data)
                 (analyzeCoreWebVitals (fun record => inr record) "example.com")
                 Sim.no_files)
    = Returned (Result "https://example.com" (Some "2023-11-14T22:13:20.000Z")
                  (CoreWebVitalsResult "https://example.com" analysis)).
Proof. eexists. vm_compute. reflexivity. Qed.

(** [testWebsite] answers a failed request with
    [{ url, statusCode: null, accessible: false, message }], which has no
    [error] property. *)
Lemma testWebsite_failure_has_no_error_field :
  let r := run (Sim.world Sim.offline) (testWebsite "example.com") Sim.no_files in
  List.map call_failed (trace r) = [true] /\
  outcome r = Returned (SiteStatus "https://example.com" None false
                          "Website is not accessible: getaddrinfo ENOTFOUND") /\
  (forall resp, outcome r = Returned resp -> field_error resp <> Some true).
Proof.
  vm_compute. split; [reflexivity|]. split; [reflexivity|].
  intros resp [= <-]. discriminate.
Qed.

(** The promise of [testWebsite] is not awaited inside the [try] block: when
    [https.get] itself throws, the handler throws. *)
Lemma testWebsite_rejection_escapes (url e : string) (w : World) (s : state w) :
  fst (answer w _ (HttpsProbe (if startsWith url "http" then url
                               else String.append "https://" url)) s) = ProbeThrew e ->
  outcome (run w (testWebsite url) s) = Threw (Error_ e).
Proof.
  unfold testWebsite. simpl.
  destruct (answer w _ _ s) as [o s']. simpl. intros ->. reflexivity.
Qed.

(** ** URL normalisation *)

(** C6, at a host name that begins with "http": in every world [testWebsite]
    requests the name as it is and, when it answers, reports it as it is,
    where the specification has "https://httpbin.org"; [analyzeSecurityHeaders], like
    the other service handlers, requests and reports "https://httpbin.org". *)
Lemma testWebsite_keeps_http_prefixed_host (w : World) (s : state w) :
  let r := run w (testWebsite "httpbin.org") s in
  let r' := run w (analyzeSecurityHeaders "httpbin.org") s in
  normalizeUrl "httpbin.org" = "https://httpbin.org" /\
  omap requested_url (trace r) = ["httpbin.org"] /\
  (forall resp, outcome r = Returned resp -> field_url resp = "httpbin.org") /\
  omap requested_url (trace r') = ["https://httpbin.org"] /\
  (forall resp, outcome r' = Returned resp -> field_url resp = "https://httpbin.org").
Proof.
  split; [reflexivity|].
  unfold testWebsite, analyzeSecurityHeaders.
  change (normalizeUrl "httpbin.org") with "https://httpbin.org".
  change (startsWith "httpbin.org" "http") with true.
  unfold probe, analyzeSecurityHeaders_try, getSecurityHeaders, settle,
    report_success, report_failure, call.
  cbn -[SecurityHeaders.analyzeSecurityHeadersData].
  destruct (answer w _ (HttpsProbe "httpbin.org") s) as [probed s1].
  destruct (answer w _ (HttpGetHeaders "https://httpbin.org") s) as [fetched s2].
  split; [destruct probed; reflexivity|].
  split; [destruct probed; cbn; intros resp [= <-]; reflexivity|].
  destruct fetched; cbn -[SecurityHeaders.analyzeSecurityHeadersData];
    destruct (answer w _ ToISOString s2) as [timestamp s3];
    cbn -[SecurityHeaders.analyzeSecurityHeadersData];
    (split; [reflexivity | intros resp [= <-]; reflexivity]).
Qed.

(** ** The mobile-friendliness handler *)


(** C8. For every input URL and in every world, [analyzeMobileFriendly] makes
    exactly one external call, the download of the page itself, and no call
    to a remote API; its verdict is the local heuristic's on the downloaded
    HTML. *)
Theorem analyzeMobileFriendly_uses_local_heuristic
    (url : string) (w : World) (s : state w) :
  let url' := normalizeUrl url in
  let r := run w (analyzeMobileFriendly url) s in
  let fetched := fst (answer w _ (HttpGetPage url') s) in
  List.filter is_fetch (trace r) = [] /\
  analysis_calls (trace r) = [observed (HttpGetPage url') fetched] /\
  match fetched with
  | Responded pageData =>
      exists timestamp,
        outcome r = Returned (Result url' (Some timestamp)
                                (MobileFriendlyResult
                                   (MobileFriendly.heuristic (html pageData))))
  | _ =>
      exists timestamp,
        outcome r = Returned (ErrorReport url'
                                (VStr "Failed to analyze mobile-friendliness: Unable to analyze page content")
                                (Some timestamp))
  end.
Proof.
  unfold analyzeMobileFriendly, analyzeMobileFriendly_try, analyzeMobileFriendlyWithoutApi,
    getPageData, report_success, report_failure, call.
  generalize (normalizeUrl url). intros url'.
  cbn -[MobileFriendly.heuristic].
  destruct (answer w _ (HttpGetPage url') s) as [fetched s1].
  destruct fetched as [pageData|e| | |e]; cbn -[MobileFriendly.heuristic];
    destruct (answer w _ ToISOString s1) as [timestamp s2];
    cbn -[MobileFriendly.heuristic];
    (split; [reflexivity|]); (split; [reflexivity|]); exists timestamp; reflexivity.
Qed.

(** ** Calls to the external collaborators *)





Lemma shows_chrome_error_Avoids (bad : Obs -> bool) (reportData : JSValue) :
  Avoids bad (shows_chrome_error reportData).
Proof. unfold shows_chrome_error. avoids. Qed.

Lemma report_to_response_Avoids (bad : Obs -> bool) (url : string) (reportData : JSValue) :
  (forall now, bad (observed DateNow now) = false) ->
  Avoids bad (report_to_response url reportData).
Proof.
  intros Hnow. unfold report_to_response.
  destruct (truthy _); [constructor|].
  apply Avoids_bind; [apply shows_chrome_error_Avoids|].
  intros [|]; [constructor|].
  destruct (_ || _); [constructor|].
  destruct (negb _); [constructor|].
  apply Avoids_bind; [apply extractScreenshots_Avoids; exact Hnow|].
  intros; constructor.
Qed.




Lemma main_command_is_analysis_call (url reportPath : string) r :
  is_analysis_call (observed (ExecAsync (main_command url reportPath)) r) = true.
Proof. reflexivity. Qed.

Lemma alternative_command_is_analysis_call (url reportPath : string) r :
  is_analysis_call (observed (ExecAsync (alternative_command url reportPath)) r) = true.
Proof. reflexivity. Qed.




(** An error of [cruxFetch] that carries a status comes from a response with
    that status. *)
Lemma cruxFetch_status (apiUrl : string) (body : JSValue) (w : World) (s : state w)
    (e : JsError) (status : Z) :
  outcome (run w (cruxFetch apiUrl body) s) = Threw e ->
  http_status e = Some status ->
  exists res, fst (answer w _ (Fetch apiUrl body) s) = inr res /\ res_status res = status.
Proof.
  unfold cruxFetch, detail_suffix, call_throwing.
  cbn -[includes].
  destruct (answer w _ (Fetch apiUrl body) s) as [r s1].
  destruct r as [msg|res].
  - cbn. intros [= <-]. discriminate.
  - execute; intros [= <-]; try discriminate;
      cbn; intros [= <-]; exists res; split; reflexivity.
Qed.



Section RetryFacts.

Variable crux_analysis : JSValue -> JsError + JSValue.






End RetryFacts.

Example lighthouse_fallback_runs_once :
  let r := run (Sim.world lighthouse_timing_out) (runLighthouseAnalysis "example.com")
               Sim.no_files in
  omap exec_command (analysis_calls (trace r))
  = [main_command "https://example.com" sample_report_path;
     alternative_command "https://example.com" sample_report_path] /\
  List.map call_failed (analysis_calls (trace r)) = [true; false] /\
  outcome r = Returned (Result "https://example.com" None
                          (LighthouseResult sample_report [])).
Proof. vm_compute. auto. Qed.


(** ** The Lighthouse report file *)

Example report_path_sample :
  report_path "/srv/websense" 1700000000000 = sample_report_path.
Proof. reflexivity. Qed.

(** When the report parses, the file is removed before the handler returns. *)
Example report_file_removed_after_parsing :
  let r := run (Sim.world (lighthouse_writing sample_report_text))
               (runLighthouseAnalysis "example.com") Sim.no_files in
  outcome r = Returned (Result "https://example.com" None
                          (LighthouseResult sample_report [])) /\
  omap unlinked (trace r) = [sample_report_path] /\
  Sim.files (final r) !! sample_report_path = None.
Proof. vm_compute. auto. Qed.

(** The report file, and nothing else, is removed once the report has been
    read and parsed: whenever the outer [try] block of the Lighthouse handler
    completes, the handler has called [fs.unlinkSync] exactly once, on the
    report file it named. *)
Lemma report_file_removed_when_parsed
    (url : string) (w : World) (s : state w) (response : Response) :
  outcome (run w (runLighthouseAnalysis_try (normalizeUrl url)) s) = Returned response ->
  exists reportPath result,
    outcome (run w prepare_report s) = Returned reportPath /\
    List.filter is_unlink (trace (run w (runLighthouseAnalysis url) s))
    = [observed (UnlinkSync reportPath) result].
Proof.
  unfold runLighthouseAnalysis. set (url' := normalizeUrl url).
  rewrite filter_try_catch
    by (intros e; unfold runLighthouseAnalysis_catch; avoids).
  unfold runLighthouseAnalysis_try.
  rewrite filter_bind_left
    by (unfold prepare_report, call, call_throwing, call_ignoring; avoids).
  rewrite run_bind.
  destruct (outcome (run w prepare_report s)) as [reportPath|e]; [|discriminate].
  set (s1 := final (run w prepare_report s)). cbv zeta.
  rewrite filter_bind_left
    by (unfold produce_report, run_command, on_exec_error, call, call_throwing; avoids).
  rewrite run_bind.
  destruct (outcome (run w (produce_report url' reportPath) s1)) as [[]|e]; [|discriminate].
  set (s2 := final (run w (produce_report url' reportPath) s1)). cbv zeta.
  cbn [outcome].
  intros Hconsumed. exists reportPath.
  revert Hconsumed.
  unfold consume_report, call_throwing, call_ignoring.
  cbn -[report_to_response].
  destruct (answer w _ (ReadFileSync reportPath) s2) as [[msg|content] s3];
    [discriminate|].
  cbn -[report_to_response].
  destruct (answer w _ (JsonParse content) s3) as [[msg|reportData] s4];
    [discriminate|].
  destruct reportData; cbn -[report_to_response]; try discriminate;
    destruct (answer w _ (UnlinkSync reportPath) s4) as [result s5];
    cbn -[report_to_response]; intros _; exists result; split; try reflexivity;
    rewrite (Avoids_run _ _ (report_to_response_Avoids is_unlink url' _
                               (fun _ => eq_refl))); reflexivity.
Qed.

(** C3, at a run that leaves a report which is not JSON: the handler answers
    with an error report and returns without removing the file. *)
Lemma report_file_survives_malformed_report :
  let r := run (Sim.world (lighthouse_writing "<!DOCTYPE html><title>502</title>"))
               (runLighthouseAnalysis "example.com") Sim.no_files in
  outcome r = Returned (ErrorReport "https://example.com"
                          (VStr "Failed to analyze website: Unexpected token in JSON at position 0")
                          None) /\
  omap unlinked (trace r) = [] /\
  Sim.files (final r) !! sample_report_path = Some "<!DOCTYPE html><title>502</title>".
Proof. vm_compute. auto. Qed.

(** ** The Lighthouse timeout *)

Lemma prefix_app (k a b : string) :
  String.prefix k a = true -> String.prefix k (String.append a b) = true.
Proof.
  revert a. induction k as [|c k IH]; intros a.
  - intros _. destruct (String.append a b); reflexivity.
  - destruct a as [|c' a]; simpl; [discriminate|].
    destruct (Ascii.ascii_dec c c'); [apply IH|discriminate].
Qed.

Lemma includes_app_l (a b k : string) :
  includes a k = true -> includes (String.append a b) k = true.
Proof.
  induction a as [|c a IH]; simpl.
  - rewrite orb_false_r. destruct k; [destruct b; reflexivity|discriminate].
  - intros H. apply orb_true_iff in H. apply orb_true_iff. destruct H as [H|H].
    + left. exact (prefix_app k (String c a) b H).
    + right. apply IH. exact H.
Qed.

Lemma includes_app_r (a b k : string) :
  includes b k = true -> includes (String.append a b) k = true.
Proof.
  intros H. induction a as [|c a IH]; simpl; [exact H|].
  rewrite IH. apply orb_true_r.
Qed.

(** Whatever the URL and the report path are, the command carries the literal
    flag [--timeout=60000], and the fallback [--timeout=30000]. *)
Lemma commands_carry_literal_timeouts (url reportPath : string) :
  includes (main_command url reportPath) " --timeout=60000 " = true /\
  includes (alternative_command url reportPath) " --timeout=30000 " = true.
Proof.
  unfold main_command, alternative_command, template.
  cbn [String.concat].
  split;
    repeat first [ reflexivity | apply includes_app_l; reflexivity | apply includes_app_r ].
Qed.

(** The handler never reads the environment. *)
Lemma runLighthouseAnalysis_never_reads_env (url : string) (w : World) (s : state w) :
  List.filter is_getenv (trace (run w (runLighthouseAnalysis url) s)) = [].
Proof.
  apply Avoids_run.
  unfold runLighthouseAnalysis, runLighthouseAnalysis_try.
  apply Avoids_try_catch; [|intros; unfold runLighthouseAnalysis_catch; avoids].
  apply Avoids_bind; [unfold prepare_report, call, call_throwing, call_ignoring; avoids|].
  intros reportPath.
  apply Avoids_bind.
  - unfold produce_report, run_command, on_exec_error, call, call_throwing. avoids.
  - intros _. unfold consume_report, call_throwing, call_ignoring.
    apply Avoids_bind; [avoids|]. intros content.
    apply Avoids_bind; [avoids|]. intros reportData.
    destruct reportData;
      first [ apply Avoids_Throw
            | apply Avoids_bind; [avoids|]; intros;
              apply report_to_response_Avoids; reflexivity ].
Qed.

(** C5, at [LIGHTHOUSE_TIMEOUT=90000]: the configuration holds 90000, and the
    Lighthouse CLI is run with [--timeout=60000]. *)
Lemma configured_timeout_is_not_used :
  let machine := lighthouse_writing sample_report_text in
  let r := run (Sim.world machine) (runLighthouseAnalysis "example.com") Sim.no_files in
  let command := main_command "https://example.com" sample_report_path in
  Configuration.timeout
    (Configuration.lighthouse (Configuration.configuration (Sim.env machine)))
  = Some 90000 /\
  omap exec_command (trace r) = [version_command; global_version_command; command] /\
  includes command "--timeout=60000" = true /\
  includes command "--timeout=90000" = false.
Proof. vm_compute. auto. Qed.

(** ** The buckets of a whole result *)

Lemma fold_categorize_bucket (techs : list RawTech) (categories : Categories) (b : Bucket) :
  bucket_of
    (fold_left (fun categories tech => categorizeTechnology (techInfo_of tech) categories)
               techs categories) b
  = bucket_of categories b ++ List.filter (lands_in b) (List.map techInfo_of techs).
Proof.
  revert categories. induction techs as [|tech techs IH]; intros categories; simpl.
  - rewrite app_nil_r. reflexivity.
  - rewrite IH, categorizeTechnology_first_bucket. unfold lands_in.
    destruct (first_bucket (techInfo_of tech)) as [chosen|]; [|reflexivity].
    rewrite bucket_of_push. destruct (Nat.eqb (rank chosen) (rank b)); [|reflexivity].
    rewrite <- app_assoc. reflexivity.
Qed.

(** X1. [categorizeTechnologies] partitions the detected technologies: each
    bucket holds, in detection order, exactly the [techInfo] objects of the
    technologies for which that bucket is the first matching one; no
    technology is duplicated, reordered or put in a second bucket, and a
    technology that matches no keyword appears nowhere. *)
Theorem categorizeTechnologies_partitions (techs : list RawTech) (b : Bucket) :
  bucket_of (categorizeTechnologies (Some techs)) b
  = List.filter (lands_in b) (List.map techInfo_of techs).
Proof.
  unfold categorizeTechnologies. rewrite fold_categorize_bucket.
  destruct b; reflexivity.
Qed.

Lemma cloud_keyword_matches_earlier (tech : TechInfo) :
  matches_bucket tech CloudServices ->
  matches_bucket tech Hosting \/ matches_bucket tech Databases.
Proof.
  intros (keyword & Hin & Hk). unfold matches_bucket.
  cbv [keyword_table cloudKeywords hostingKeywords databaseKeywords] in *.
  simpl in Hin.
  repeat (destruct Hin as [<-|Hin];
          [ first [ left; eexists; split; [|exact Hk]; simpl; solve [auto 20]
                  | right; eexists; split; [|exact Hk]; simpl; solve [auto 20] ] | ]).
  destruct Hin.
Qed.

Lemma first_bucket_not_cloud (tech : TechInfo) : first_bucket tech <> Some CloudServices.
Proof.
  intros H. apply first_bucket_spec in H. destruct H as [Hm Hearlier].
  destruct (cloud_keyword_matches_earlier tech Hm) as [H|H].
  - apply (Hearlier Hosting); [simpl; lia | exact H].
  - apply (Hearlier Databases); [simpl; lia | exact H].
Qed.

(** X2. The [devops.cloudServices] bucket is never filled: every keyword of
    [isCloudService] is also a keyword of [isHosting] or of [isDatabase],
    which the else-if chain tests first. *)
Theorem cloudServices_is_never_filled (results : option (list RawTech)) :
  cloudServices (devops (categorizeTechnologies results)) = [].
Proof.
  destruct results as [techs|]; [|reflexivity].
  change (bucket_of (categorizeTechnologies (Some techs)) CloudServices = []).
  unfold categorizeTechnologies. rewrite fold_categorize_bucket. simpl.
  induction techs as [|tech techs IH]; simpl; [reflexivity|].
  unfold lands_in at 1.
  destruct (first_bucket (techInfo_of tech)) as [chosen|] eqn:E; [|exact IH].
  destruct chosen; simpl; try exact IH.
  exfalso. exact (first_bucket_not_cloud _ E).
Qed.

(** X3. A technology whose lowercased name or category contains "go" (every
    Google product, for one) is pushed to one of the first four buckets:
    frontend, backend, databases or programmingLanguages. It therefore never
    reaches analytics, cdn, hosting or advertisingNetworks, whose tables list
    keywords that begin with "google". *)
Theorem names_with_go_stay_in_the_tech_stack (tech : TechInfo) (categories : Categories) :
  includes (toLowerCase (name tech)) "go" = true \/
  includes (toLowerCase (category tech)) "go" = true ->
  exists b, In b [Frontend; Backend; Databases; ProgrammingLanguages] /\
            placed_in tech categories (categorizeTechnology tech categories) b.
Proof.
  intros Hgo.
  assert (Hlang : isProgrammingLanguage (toLowerCase (name tech))
                    (toLowerCase (category tech)) = true).
  { apply some_keyword_spec. exists "go". split; [simpl; auto 20 | exact Hgo]. }
  unfold placed_in, categorizeTechnology.
  destruct (isFrontendTech _ _);
    [exists Frontend; split; [simpl; auto | rewrite bucket_of_push; reflexivity]|].
  destruct (isBackendTech _ _);
    [exists Backend; split; [simpl; auto | rewrite bucket_of_push; reflexivity]|].
  destruct (isDatabase _ _);
    [exists Databases; split; [simpl; auto | rewrite bucket_of_push; reflexivity]|].
  rewrite Hlang. exists ProgrammingLanguages.
  split; [simpl; auto | rewrite bucket_of_push; reflexivity].
Qed.

(** X3 at Google Analytics. *)
Lemma names_with_go_witness :
  let tech := {| name := "Google Analytics"; version := "Unknown"; confidence := 100;
                 category := "Analytics"; description := EmptyString |} in
  exists b, In b [Frontend; Backend; Databases; ProgrammingLanguages] /\
            placed_in tech empty_categories (categorizeTechnology tech empty_categories) b.
Proof.
  intros tech. apply (names_with_go_stay_in_the_tech_stack tech empty_categories).
  left. reflexivity.
Defined.

(** ** More on the security headers *)

(** X4. The overall status is a function of the number of tracked headers
    present: five or six give 'Excellent', four 'Good', three 'Fair', two
    'Poor', one or none 'Very Poor'. *)
Theorem overall_status_by_header_count (headers : gmap string string) (isHttps : bool) :
  let s := SecurityHeaders.summary
             (SecurityHeaders.analyzeSecurityHeadersData headers isHttps) in
  0 <= SecurityHeaders.totalHeaders s <= 6 /\
  SecurityHeaders.overallStatus s =
    (if 5 <=? SecurityHeaders.totalHeaders s then "Excellent"
     else if SecurityHeaders.totalHeaders s =? 4 then "Good"
     else if SecurityHeaders.totalHeaders s =? 3 then "Fair"
     else if SecurityHeaders.totalHeaders s =? 2 then "Poor"
     else "Very Poor").
Proof.
  unfold SecurityHeaders.analyzeSecurityHeadersData.
  cbn [SecurityHeaders.summary SecurityHeaders.totalHeaders SecurityHeaders.overallStatus].
  rewrite !present_check.
  generalize
    (SecurityHeaders.truthy (headers !! "strict-transport-security")
     || SecurityHeaders.truthy (headers !! "Strict-Transport-Security")),
    (SecurityHeaders.truthy (headers !! "content-security-policy")
     || SecurityHeaders.truthy (headers !! "Content-Security-Policy")),
    (SecurityHeaders.truthy (headers !! "x-frame-options")
     || SecurityHeaders.truthy (headers !! "X-Frame-Options")),
    (SecurityHeaders.truthy (headers !! "x-content-type-options")
     || SecurityHeaders.truthy (headers !! "X-Content-Type-Options")),
    (SecurityHeaders.truthy (headers !! "referrer-policy")
     || SecurityHeaders.truthy (headers !! "Referrer-Policy")),
    (SecurityHeaders.truthy (headers !! "permissions-policy")
     || SecurityHeaders.truthy (headers !! "Permissions-Policy")).
  intros [] [] [] [] [] []; cbv; repeat split; congruence.
Qed.

(** X5. The analysis reads the header map at twelve keys only (the six
    tracked headers, lower-case and canonical): two maps that agree there get
    the same analysis, whatever else they hold. *)
Theorem analysis_reads_tracked_headers_only
    (headers headers' : gmap string string) (isHttps : bool) :
  (forall name, In name looked_up_names -> headers !! name = headers' !! name) ->
  SecurityHeaders.analyzeSecurityHeadersData headers isHttps
  = SecurityHeaders.analyzeSecurityHeadersData headers' isHttps.
Proof.
  intros Hagree. unfold SecurityHeaders.analyzeSecurityHeadersData, SecurityHeaders.check.
  rewrite !Hagree by (cbv [looked_up_names SecurityHeaders.tracked flat_map app];
                      simpl; auto 20).
  reflexivity.
Qed.

(** X5 at a response with a [server] header only, against an empty one. *)
Lemma analysis_reads_tracked_headers_only_witness :
  SecurityHeaders.analyzeSecurityHeadersData {[ "server" := "nginx" ]} true
  = SecurityHeaders.analyzeSecurityHeadersData ∅ true.
Proof.
  apply (analysis_reads_tracked_headers_only {[ "server" := "nginx" ]} ∅ true).
  intros name Hin. cbv [looked_up_names SecurityHeaders.tracked flat_map app] in Hin.
  simpl in Hin.
  repeat (destruct Hin as [<-|Hin]; [reflexivity|]). destruct Hin.
Defined.



(** ** More on URL normalisation *)

Lemma http_prefixes_exclusive (url : string) :
  startsWith url "http://" = true -> startsWith url "https://" = false.
Proof.
  unfold startsWith.
  destruct url as [|c1 [|c2 [|c3 [|c4 [|c5 url]]]]]; cbn [String.prefix];
    repeat match goal with
           | |- context [Ascii.ascii_dec ?a ?b] => destruct (Ascii.ascii_dec a b)
           end; subst; intros; congruence.
Qed.

Lemma normalizeUrl_is_https (url : string) :
  startsWith (normalizeUrl url) "https://" = negb (startsWith url "http://").
Proof.
  unfold normalizeUrl.
  destruct (startsWith url "http://") eqn:Ehttp; simpl.
  - apply http_prefixes_exclusive. exact Ehttp.
  - destruct (startsWith url "https://") eqn:Ehttps; simpl; [exact Ehttps|].
    unfold startsWith. apply (prefix_app "https://" "https://" url). reflexivity.
Qed.

(** X7. [normalizeUrl] leaves a URL that begins with "http://" or "https://"
    as it is and puts "https://" before any other; its result always begins
    with one of the two, and normalising twice is normalising once. *)
Theorem normalizeUrl_idempotent (url : string) :
  (startsWith (normalizeUrl url) "http://" || startsWith (normalizeUrl url) "https://" = true) /\
  normalizeUrl (normalizeUrl url) = normalizeUrl url /\
  (startsWith url "http://" || startsWith url "https://" = true -> normalizeUrl url = url) /\
  (startsWith url "http://" || startsWith url "https://" = false ->
   normalizeUrl url = String.append "https://" url).
Proof.
  assert (Hstart : startsWith (normalizeUrl url) "http://"
                   || startsWith (normalizeUrl url) "https://" = true).
  { rewrite normalizeUrl_is_https. unfold normalizeUrl.
    destruct (startsWith url "http://") eqn:E; simpl; [rewrite E; reflexivity|apply orb_true_r]. }
  split; [exact Hstart|]. split; [|split].
  - unfold normalizeUrl at 1. apply orb_true_iff in Hstart.
    destruct Hstart as [-> | ->]; simpl; [reflexivity|].
    rewrite andb_false_r. reflexivity.
  - unfold normalizeUrl. intros H. apply orb_true_iff in H.
    destruct H as [-> | ->]; simpl; [reflexivity|]. rewrite andb_false_r. reflexivity.
  - unfold normalizeUrl. intros H. apply orb_false_iff in H. destruct H as [-> ->].
    reflexivity.
Qed.

(** X8. The security-headers handler makes one request and answers from it
    alone. When the server responds, the analysis is that of the response
    headers and [https.enabled] is read off the scheme of the requested URL:
    it is false exactly for a URL given with "http://". A request that fails
    or times out is reported with the reason after "Failed to analyze security
    headers: " ("Request timeout" for the socket timeout, "Request timeout
    after 10 seconds" for the timer). *)
Theorem analyzeSecurityHeaders_outcome (url : string) (w : World) (s : state w) :
  let url' := normalizeUrl url in
  let '(fetched, s1) := answer w _ (HttpGetHeaders url') s in
  let timestamp := fst (answer w _ ToISOString s1) in
  let failure reason :=
    Returned (ErrorReport url'
                (VStr (String.append "Failed to analyze security headers: " reason))
                (Some timestamp)) in
  outcome (run w (analyzeSecurityHeaders url) s) =
  match fetched with
  | Responded headers =>
      Returned (Result url' (Some timestamp)
                  (SecurityHeadersResult
                     (SecurityHeaders.analyzeSecurityHeadersData headers
                        (negb (startsWith url "http://")))))
  | RequestError e | GetThrew e => failure e
  | SocketTimeout => failure "Request timeout"
  | Deadline => failure "Request timeout after 10 seconds"
  end.
Proof.
  unfold analyzeSecurityHeaders, analyzeSecurityHeaders_try, getSecurityHeaders, settle,
    report_success, report_failure, call, template.
  rewrite normalizeUrl_is_https.
  generalize (normalizeUrl url). intros url'.
  cbn -[SecurityHeaders.analyzeSecurityHeadersData].
  destruct (answer w _ (HttpGetHeaders url') s) as [fetched s1].
  destruct fetched; cbn -[SecurityHeaders.analyzeSecurityHeadersData];
    destruct (answer w _ ToISOString s1) as [timestamp s2]; reflexivity.
Qed.

(** ** More on the mobile-friendliness heuristic *)

(** The conditions of the six checks of [heuristic] become variables. *)
Ltac abstract_checks :=
  unfold MobileFriendly.heuristic; cbv zeta;
  repeat match goal with
         | |- context [MobileFriendly.when ?c (MobileFriendly.flag _ _)] =>
             tryif is_var c then fail else (generalize c; intro)
         end.

(** X9. In the result of the heuristic the issues, the recommendations and
    the flags of [details] tell the same story: the issues are the texts of
    the flagged findings, in the order of the checks, the recommendations are
    the advice for these same findings in the same order (so the two lists
    have the same length, at most six), [details.loadingSpeed] is never set
    and no screenshot is attached. *)
Theorem heuristic_issues_match_details (page_html : string) :
  let analysis := MobileFriendly.heuristic page_html in
  MobileFriendly.issues analysis = List.map (fun finding => fst (fst finding)) (flagged analysis) /\
  MobileFriendly.recommendations analysis
    = List.map (fun finding => snd (fst finding)) (flagged analysis) /\
  List.length (MobileFriendly.recommendations analysis)
    = List.length (MobileFriendly.issues analysis) /\
  (List.length (MobileFriendly.issues analysis) <= 6)%nat /\
  MobileFriendly.loadingSpeed (MobileFriendly.details analysis) = false /\
  MobileFriendly.screenshots analysis = [].
Proof.
  abstract_checks.
  repeat match goal with b : bool |- _ => destruct b end;
    cbv; repeat split; lia.
Qed.

Lemma includes_prefix_of_keyword (s a b : string) :
  includes s (String.append a b) = true -> includes s a = true.
Proof.
  assert (Hprefix : forall s, String.prefix (String.append a b) s = true ->
                              String.prefix a s = true).
  { induction a as [|c a IH]; intros s'.
    - intros _. destruct s'; reflexivity.
    - change (String.append (String c a) b) with (String c (String.append a b)).
      destruct s' as [|c' s']; cbn [String.prefix]; [discriminate|].
      destruct (Ascii.ascii_dec c c'); [apply IH|discriminate]. }
  induction s as [|c s IH]; cbn [includes].
  - rewrite !orb_false_r. apply Hprefix.
  - intros H. apply orb_true_iff in H. apply orb_true_iff. destruct H as [H|H].
    + left. apply (Hprefix (String c s)). exact H.
    + right. apply IH. exact H.
Qed.

(** X10. A page whose text contains "px" anywhere (in any letter case) is
    never found mobile-friendly: either the viewport check fails, or the
    viewport meta tag itself, which holds "width=device-width", makes the
    test for "width=" and "px" flag 'Content wider than screen'. *)
Theorem page_with_px_is_not_mobile_friendly (page_html : string) :
  includes (toLowerCase page_html) "px" = true ->
  MobileFriendly.verdict (MobileFriendly.heuristic page_html) = "NOT_MOBILE_FRIENDLY" /\
  (In "Viewport not set" (MobileFriendly.issues (MobileFriendly.heuristic page_html)) \/
   In "Content wider than screen" (MobileFriendly.issues (MobileFriendly.heuristic page_html))).
Proof.
  intros Hpx.
  assert (Hwidth : includes (toLowerCase page_html) "width=device-width" = true ->
                   includes (toLowerCase page_html) "width=" = true).
  { apply (includes_prefix_of_keyword _ "width=" "device-width"). }
  unfold MobileFriendly.heuristic. cbv zeta. rewrite Hpx.
  destruct (includes (toLowerCase page_html) "width=device-width").
  - rewrite Hwidth by reflexivity. cbn [andb].
    repeat match goal with
           | |- context [MobileFriendly.when ?c (MobileFriendly.flag _ _)] =>
               lazymatch c with
               | true => fail
               | false => fail
               | _ => tryif is_var c then fail else (generalize c; intro)
               end
           end.
    repeat match goal with b : bool |- _ => destruct b end; cbv; auto 10.
  - cbn [negb]. rewrite orb_true_r.
    repeat match goal with
           | |- context [MobileFriendly.when ?c (MobileFriendly.flag _ _)] =>
               lazymatch c with
               | true => fail
               | false => fail
               | _ => tryif is_var c then fail else (generalize c; intro)
               end
           end.
    repeat match goal with b : bool |- _ => destruct b end; cbv; auto 10.
Qed.

(** X10 at a page with a correct viewport tag, a media query and one size in
    pixels. *)
Lemma page_with_px_witness :
  let page := String.concat dq
    ["<meta name="; "viewport"; " content="; "width=device-width";
     "><style>@media (min-width: 40em) { p { margin: 2px } }</style>"] in
  MobileFriendly.verdict (MobileFriendly.heuristic page) = "NOT_MOBILE_FRIENDLY" /\
  (In "Viewport not set" (MobileFriendly.issues (MobileFriendly.heuristic page)) \/
   In "Content wider than screen" (MobileFriendly.issues (MobileFriendly.heuristic page))).
Proof.
  intros page. apply (page_with_px_is_not_mobile_friendly page). reflexivity.
Defined.

(** ** More on the screenshot timeline *)

Lemma insert_by_timestamp_Permutation (x : Screenshots.Screenshot) l :
  Permutation (Screenshots.insert_by_timestamp x l) (x :: l).
Proof.
  induction l as [|y l IH]; simpl; [reflexivity|].
  destruct (Qle_bool _ _); [reflexivity|].
  rewrite IH. apply perm_swap.
Qed.

Lemma sort_by_timestamp_Permutation l :
  Permutation (Screenshots.sort_by_timestamp l) l.
Proof.
  induction l as [|x l IH]; simpl; [reflexivity|].
  rewrite insert_by_timestamp_Permutation, IH. reflexivity.
Qed.

Lemma not_later_trans a b c : not_later a b -> not_later b c -> not_later a c.
Proof. unfold not_later. apply Qle_trans. Qed.

Lemma insert_by_timestamp_sorted (x : Screenshots.Screenshot) l :
  StronglySorted not_later l ->
  StronglySorted not_later (Screenshots.insert_by_timestamp x l).
Proof.
  induction 1 as [|y l Hl IH Hy]; simpl.
  - repeat constructor.
  - destruct (Qle_bool (Screenshots.timestamp x) (Screenshots.timestamp y)) eqn:E.
    + apply Qle_bool_iff in E. constructor; [constructor; assumption|].
      constructor; [exact E|].
      eapply List.Forall_impl; [|exact Hy]. intros z Hz. exact (not_later_trans x y z E Hz).
    + assert (Hyx : not_later y x).
      { unfold not_later. apply Qlt_le_weak, Qnot_le_lt. intros H.
        apply Qle_bool_iff in H. congruence. }
      constructor; [exact IH|].
      rewrite insert_by_timestamp_Permutation. constructor; assumption.
Qed.

Lemma sort_by_timestamp_sorted l :
  StronglySorted not_later (Screenshots.sort_by_timestamp l).
Proof.
  induction l as [|x l IH]; simpl; [constructor|].
  apply insert_by_timestamp_sorted. exact IH.
Qed.

Lemma seen_spec (key : Z) (seen : list Z) :
  existsb (Z.eqb key) seen = true <-> In key seen.
Proof.
  rewrite existsb_exists. split.
  - intros (k & Hin & Hk). apply Z.eqb_eq in Hk. subst. exact Hin.
  - intros Hin. exists key. split; [exact Hin|apply Z.eqb_refl].
Qed.


Lemma keep_unseen_fresh seen l x :
  In x (Screenshots.keep_unseen seen l) -> ~ In (timestamp_key x) seen.
Proof.
  revert seen. induction l as [|y l IH]; intros seen; simpl; [tauto|].
  fold (timestamp_key y).
  destruct (existsb (Z.eqb (timestamp_key y)) seen) eqn:E.
  - apply IH.
  - intros [<-|Hx].
    + intros Hin. apply seen_spec in Hin. congruence.
    + intros Hin. apply (IH _ Hx). right. exact Hin.
Qed.

Lemma keep_unseen_NoDup seen l :
  List.NoDup (List.map timestamp_key (Screenshots.keep_unseen seen l)).
Proof.
  revert seen. induction l as [|y l IH]; intros seen; simpl; [constructor|].
  fold (timestamp_key y).
  destruct (existsb (Z.eqb (timestamp_key y)) seen); [apply IH|].
  simpl. constructor; [|apply IH].
  intros Hin. apply in_map_iff in Hin. destruct Hin as (x & Hkey & Hx).
  apply keep_unseen_fresh in Hx. apply Hx. left. symmetry. exact Hkey.
Qed.




Lemma keep_unseen_In seen l x : In x (Screenshots.keep_unseen seen l) -> In x l.
Proof.
  revert seen. induction l as [|y l IH]; intros seen; simpl; [tauto|].
  destruct (existsb _ seen).
  - intros H. right. exact (IH _ H).
  - intros [<-|H]; [left; reflexivity|right; exact (IH _ H)].
Qed.

Lemma keep_unseen_sorted seen l :
  StronglySorted not_later l -> StronglySorted not_later (Screenshots.keep_unseen seen l).
Proof.
  intros Hl. revert seen. induction Hl as [|y l Hl IH Hy]; intros seen; simpl; [constructor|].
  destruct (existsb _ seen); [apply IH|].
  constructor; [apply IH|].
  apply List.Forall_forall. intros z Hz. apply keep_unseen_In in Hz.
  exact (proj1 (List.Forall_forall _ _) Hy z Hz).
Qed.

Lemma keep_unseen_length seen l :
  (List.length (Screenshots.keep_unseen seen l) <= List.length l)%nat.
Proof.
  revert seen. induction l as [|y l IH]; intros seen; simpl; [lia|].
  destruct (existsb _ seen); simpl.
  - specialize (IH seen). lia.
  - specialize (IH (Math_round (Screenshots.timestamp y / 100) :: seen)). lia.
Qed.

(** What [finish] changes: nothing, or the description, the phase and the
    context of the one screenshot that is left. *)
Lemma finish_cases (reportData : Screenshots.Report) (collected : list Screenshots.Screenshot) :
  let unique := Screenshots.removeDuplicateScreenshots
                  (Screenshots.sort_by_timestamp collected) in
  Screenshots.finish reportData collected = unique \/
  exists single finished,
    unique = [single] /\ Screenshots.finish reportData collected = [finished] /\
    Screenshots.timestamp finished = Screenshots.timestamp single /\
    Screenshots.data finished = Screenshots.data single /\
    Screenshots.width finished = Screenshots.width single /\
    Screenshots.height finished = Screenshots.height single.
Proof.
  unfold Screenshots.finish. cbv zeta.
  destruct (Screenshots.removeDuplicateScreenshots _) as [|single [|second rest]];
    [left; reflexivity | | left; reflexivity].
  right. eexists. eexists. repeat split.
Qed.

Lemma usable_not_empty (d : Screenshots.Field) (base64Data : string) :
  Screenshots.usable d = Some base64Data -> base64Data <> EmptyString.
Proof.
  unfold Screenshots.usable, Screenshots.base64_of.
  destruct d as [|text|]; try discriminate.
  destruct (String.eqb text EmptyString); [discriminate|].
  destruct (if startsWith text "data:image/" then _ else _) as [b|]; [|discriminate].
  destruct (String.eqb b EmptyString) eqn:E; simpl; [discriminate|].
  destruct (0 <? _); [|discriminate].
  intros [= <-] ->. discriminate E.
Qed.

Lemma num_or_not_zero (v : option Q) (d : Q) :
  ~ (d == 0)%Q -> ~ (Screenshots.num_or v d == 0)%Q.
Proof.
  intros Hd. unfold Screenshots.num_or. destruct v as [q|]; [|exact Hd].
  destruct (Qeq_bool q 0) eqn:E; [exact Hd|].
  intros H. apply Qeq_bool_iff in H. congruence.
Qed.

Lemma for_each_Forall {A : Type} (P : Screenshots.Screenshot -> Prop)
    (f : nat -> A -> option Screenshots.Screenshot) (index : nat) (l : list A) :
  (forall i x shot, f i x = Some shot -> P shot) ->
  List.Forall P (Screenshots.for_each f index l).
Proof.
  intros Hf. revert index. induction l as [|x l IH]; intros index; simpl; [constructor|].
  destruct (f index x) as [shot|] eqn:E; [|apply IH].
  constructor; [exact (Hf _ _ _ E)|apply IH].
Qed.

Lemma for_each_length {A : Type} (f : nat -> A -> option Screenshots.Screenshot)
    (index : nat) (l : list A) :
  (List.length (Screenshots.for_each f index l) <= List.length l)%nat.
Proof.
  revert index. induction l as [|x l IH]; intros index; simpl; [lia|].
  destruct (f index x); simpl; specialize (IH (S index)); lia.
Qed.

Lemma for_each_nil {A : Type} (f : nat -> A -> option Screenshots.Screenshot)
    (g : A -> option string) (index : nat) (l : list A) :
  (forall i x, f i x = None <-> g x = None) ->
  Screenshots.for_each f index l = [] <-> List.Forall (fun x => g x = None) l.
Proof.
  intros Hfg. revert index. induction l as [|x l IH]; intros index; simpl.
  - split; [constructor|reflexivity].
  - destruct (f index x) as [shot|] eqn:E.
    + split; [discriminate|]. intros H. inversion H as [|? ? Hx _]; subst.
      apply Hfg with (i := index) in Hx. congruence.
    + rewrite IH. split.
      * intros H. constructor; [apply (Hfg index); exact E|exact H].
      * intros H. inversion H; assumption.
Qed.

Lemma of_entry_displayable i entry shot :
  Screenshots.of_entry i entry = Some shot -> displayable shot.
Proof.
  unfold Screenshots.of_entry.
  destruct (Screenshots.usable _) as [b|] eqn:E; [|discriminate].
  intros [= <-]. unfold displayable. simpl.
  split; [exact (usable_not_empty _ _ E)|].
  split; apply num_or_not_zero; discriminate.
Qed.

Lemma of_frame_displayable i frame shot :
  Screenshots.of_frame i frame = Some shot -> displayable shot.
Proof.
  unfold Screenshots.of_frame.
  destruct (Screenshots.frame_screenshot frame) as [picture|]; [|discriminate].
  destruct (Screenshots.usable _) as [b|] eqn:E; [|discriminate].
  intros [= <-]. unfold displayable. simpl.
  split; [exact (usable_not_empty _ _ E)|].
  split; apply num_or_not_zero; discriminate.
Qed.

Lemma collected_frames_displayable (reportData : Screenshots.Report) :
  List.Forall displayable (Screenshots.collected_frames reportData).
Proof.
  unfold Screenshots.collected_frames. apply List.Forall_app. split.
  - destruct (Screenshots.screenshots reportData) as [[|entry entries]|]; try constructor.
    apply for_each_Forall. exact of_entry_displayable.
  - destruct (Screenshots.filmstrip reportData) as [[|frame frames]|]; try constructor.
    apply for_each_Forall. exact of_frame_displayable.
Qed.

(** Everything pushed before sorting, given the clock reading. *)
Lemma collected_displayable (reportData : Screenshots.Report) (now : Z) :
  List.Forall displayable
    (Screenshots.collected_frames reportData ++
     match Screenshots.final_candidate reportData with
     | Some (details, base64Data) => [Screenshots.final_entry details base64Data now]
     | None => []
     end).
Proof.
  apply List.Forall_app. split; [apply collected_frames_displayable|].
  unfold Screenshots.final_candidate.
  destruct (Screenshots.final_screenshot reportData) as [details|]; [|constructor].
  destruct (Screenshots.usable _) as [b|] eqn:E; [|constructor].
  constructor; [|constructor]. unfold displayable. simpl.
  split; [exact (usable_not_empty _ _ E)|].
  split; apply num_or_not_zero; discriminate.
Qed.

(** X12. In every world [extractScreenshots] returns a timeline: the
    screenshots are in non-decreasing order of timestamp, no two of them fall
    in the same 100 ms bucket, and each one carries non-empty image data and
    a non-zero width and height. *)
Theorem extractScreenshots_returns_a_timeline
    (reportData : Screenshots.Report) (w : World) (s : state w) :
  exists shots,
    outcome (run w (Screenshots.extractScreenshots reportData) s) = Returned shots /\
    StronglySorted not_later shots /\
    List.NoDup (List.map timestamp_key shots) /\
    List.Forall displayable shots.
Proof.
  rewrite extractScreenshots_run. eexists. split; [reflexivity|].
  generalize (collected_displayable reportData (fst (answer w _ DateNow s))).
  generalize (Screenshots.collected_frames reportData ++
              match Screenshots.final_candidate reportData with
              | Some (details, base64Data) =>
                  [Screenshots.final_entry details base64Data (fst (answer w _ DateNow s))]
              | None => []
              end).
  intros collected Hcollected.
  assert (Hsorted : StronglySorted not_later
                      (Screenshots.removeDuplicateScreenshots
                         (Screenshots.sort_by_timestamp collected))).
  { apply keep_unseen_sorted, sort_by_timestamp_sorted. }
  assert (Hnodup : List.NoDup (List.map timestamp_key
                      (Screenshots.removeDuplicateScreenshots
                         (Screenshots.sort_by_timestamp collected)))).
  { apply keep_unseen_NoDup. }
  assert (Hshown : List.Forall displayable
                      (Screenshots.removeDuplicateScreenshots
                         (Screenshots.sort_by_timestamp collected))).
  { apply List.Forall_forall. intros x Hx. apply keep_unseen_In in Hx.
    apply (Permutation_in _ (sort_by_timestamp_Permutation collected)) in Hx.
    exact (proj1 (List.Forall_forall _ _) Hcollected x Hx). }
  destruct (finish_cases reportData collected)
    as [-> | (single & finished & Hu & -> & Ht & Hd & Hw & Hh)].
  - auto.
  - rewrite Hu in Hshown. inversion Hshown as [|? ? Hsingle _]; subst.
    split; [repeat constructor|]. split; [repeat constructor; simpl; tauto|].
    constructor; [|constructor].
    unfold displayable in *. rewrite Hd, Hw, Hh. exact Hsingle.
Qed.

(** X13. [extractScreenshots] returns at most one screenshot per element of
    [reportData.screenshots] and of [reportData.filmstrip], plus one for the
    final screenshot; it returns the empty list when none of these holds
    usable image data. *)
Theorem extractScreenshots_size
    (reportData : Screenshots.Report) (w : World) (s : state w) :
  exists shots,
    outcome (run w (Screenshots.extractScreenshots reportData) s) = Returned shots /\
    (List.length shots
     <= List.length (entries_of reportData) + List.length (frames_of reportData) + 1)%nat /\
    (List.Forall (fun entry => Screenshots.usable (Screenshots.entry_data entry) = None)
                 (entries_of reportData) /\
     List.Forall (fun frame => frame_usable frame = None) (frames_of reportData) /\
     Screenshots.final_candidate reportData = None ->
     shots = []).
Proof.
  rewrite extractScreenshots_run. eexists. split; [reflexivity|].
  set (final := match Screenshots.final_candidate reportData with
                | Some (details, base64Data) =>
                    [Screenshots.final_entry details base64Data (fst (answer w _ DateNow s))]
                | None => []
                end).
  set (collected := Screenshots.collected_frames reportData ++ final).
  assert (Hentries :
    match Screenshots.screenshots reportData with
    | Some ((_ :: _) as entries) => Screenshots.for_each Screenshots.of_entry 0 entries
    | _ => []
    end = Screenshots.for_each Screenshots.of_entry 0 (entries_of reportData)).
  { unfold entries_of. destruct (Screenshots.screenshots reportData) as [[|]|]; reflexivity. }
  assert (Hframes :
    match Screenshots.filmstrip reportData with
    | Some ((_ :: _) as frames) => Screenshots.for_each Screenshots.of_frame 0 frames
    | _ => []
    end = Screenshots.for_each Screenshots.of_frame 0 (frames_of reportData)).
  { unfold frames_of. destruct (Screenshots.filmstrip reportData) as [[|]|]; reflexivity. }
  assert (Hlen : List.length (Screenshots.finish reportData collected)
                 = List.length (Screenshots.removeDuplicateScreenshots
                                  (Screenshots.sort_by_timestamp collected))).
  { destruct (finish_cases reportData collected) as [-> | (single & finished & -> & -> & _)];
      reflexivity. }
  split.
  - rewrite Hlen.
    etransitivity; [apply keep_unseen_length|].
    rewrite (Permutation_length (sort_by_timestamp_Permutation collected)).
    unfold collected, Screenshots.collected_frames.
    rewrite Hentries, Hframes, !List.length_app.
    pose proof (for_each_length Screenshots.of_entry 0 (entries_of reportData)).
    pose proof (for_each_length Screenshots.of_frame 0 (frames_of reportData)).
    assert (List.length final <= 1)%nat.
    { unfold final. destruct (Screenshots.final_candidate reportData) as [[? ?]|]; simpl; lia. }
    lia.
  - intros (Hentries' & Hframes' & Hfinal).
    assert (Hcollected : collected = []).
    { unfold collected, Screenshots.collected_frames. rewrite Hentries, Hframes.
      assert (H1 : Screenshots.for_each Screenshots.of_entry 0 (entries_of reportData) = []).
      { apply (for_each_nil Screenshots.of_entry
                 (fun entry => Screenshots.usable (Screenshots.entry_data entry)) 0);
          [|exact Hentries'].
        intros i x. unfold Screenshots.of_entry.
        destruct (Screenshots.usable _); split; congruence. }
      assert (H2 : Screenshots.for_each Screenshots.of_frame 0 (frames_of reportData) = []).
      { apply (for_each_nil Screenshots.of_frame frame_usable 0); [|exact Hframes'].
        intros i x. unfold Screenshots.of_frame, frame_usable.
        destruct (Screenshots.frame_screenshot x); [|tauto].
        destruct (Screenshots.usable _); split; congruence. }
      rewrite H1, H2. unfold final. rewrite Hfinal. reflexivity. }
    apply List.length_zero_iff_nil. rewrite Hlen, Hcollected. reflexivity.
Qed.

Lemma cut_comma_no_comma (text : string) :
  includes text "," = false -> Screenshots.cut_comma text = (text, None).
Proof.
  induction text as [|c text IH]; [reflexivity|].
  cbn [includes String.prefix Screenshots.cut_comma].
  intros H. apply orb_false_iff in H. destruct H as [Hhere Hrest].
  destruct (Ascii.eqb c ",") eqn:E.
  - apply Ascii.eqb_eq in E. subst c. destruct text; discriminate Hhere.
  - rewrite (IH Hrest). reflexivity.
Qed.

Lemma cut_comma_at_comma (head rest : string) :
  includes head "," = false ->
  Screenshots.cut_comma (String.append head (String "," rest)) = (head, Some rest).
Proof.
  induction head as [|c head IH]; [reflexivity|].
  change (String.append (String c head) (String "," rest))
    with (String c (String.append head (String "," rest))).
  cbn [includes String.prefix Screenshots.cut_comma].
  intros H. apply orb_false_iff in H. destruct H as [Hhere Hrest].
  destruct (Ascii.eqb c ",") eqn:E.
  - apply Ascii.eqb_eq in E. subst c. destruct head; discriminate Hhere.
  - rewrite (IH Hrest). reflexivity.
Qed.

(** X14. From a data URL [data:image/<type>,<payload>] the extraction keeps
    the payload alone: when neither the type part nor the payload holds a
    comma and the payload is not empty, [base64_of] returns the payload. *)
Theorem base64_of_data_url (type payload : string) :
  includes type "," = false ->
  includes payload "," = false ->
  payload <> EmptyString ->
  Screenshots.usable
    (Screenshots.Text (String.append "data:image/" (String.append type (String "," payload))))
  = Some payload.
Proof.
  intros Htype Hpayload Hne.
  unfold Screenshots.usable, Screenshots.base64_of, Screenshots.split_comma_1.
  change (String.append "data:image/" (String.append type (String "," payload)))
    with (String "d" (String "a" (String "t" (String "a" (String ":" (String "i"
           (String "m" (String "a" (String "g" (String "e" (String "/"
              (String.append type (String "," payload))))))))))))).
  cbn [String.eqb Ascii.eqb Bool.eqb startsWith String.prefix Screenshots.cut_comma].
  unfold startsWith. cbn [String.prefix].
  repeat match goal with
         | |- context [Ascii.ascii_dec ?a ?a] =>
             destruct (Ascii.ascii_dec a a) as [_|Hneq]; [|exfalso; apply Hneq; reflexivity]
         end.
  replace (String.prefix EmptyString (String.append type (String "," payload))) with true
    by (destruct (String.append type (String "," payload)); reflexivity).
  rewrite (cut_comma_at_comma type payload Htype). cbn [fst snd].
  rewrite (cut_comma_no_comma payload Hpayload). cbn [fst snd].
  destruct payload as [|c payload]; [exfalso; apply Hne; reflexivity|].
  reflexivity.
Qed.

(** X14 at a JPEG data URL. *)
Lemma base64_of_data_url_witness :
  Screenshots.usable (Screenshots.Text "data:image/jpeg;base64,/9j/4AAQSkZJRg==")
  = Some "/9j/4AAQSkZJRg==".
Proof.
  apply (base64_of_data_url "jpeg;base64" "/9j/4AAQSkZJRg=="); [reflexivity|reflexivity|].
  discriminate.
Defined.

(** ** More on the handlers *)

Section HandlerFacts.

Variable crux_analysis : JSValue -> JsError + JSValue.


End HandlerFacts.

(** X16. The fingerprinting engine's browser is released exactly when the
    four steps before it succeeded: if creating, initialising, opening or
    analysing fails, [destroy] is not called. The handler answers with the
    categorised technologies only when all five steps, [destroy] included,
    succeeded, and with an error report otherwise. *)
Theorem analyzeTechStack_releases_on_success_only (url : string) (w : World) (s : state w) :
  let r := run w (analyzeTechStack url) s in
  let calls := analysis_calls (trace r) in
  existsb is_destroy calls
    = forallb (fun o => is_destroy o || negb (call_failed o)) calls /\
  match outcome r with
  | Returned (Result _ _ (TechStackResult _)) =>
      List.length calls = 5%nat /\ existsb call_failed calls = false
  | Returned (ErrorReport _ _ _) => existsb call_failed calls = true
  | _ => False
  end.
Proof.
  unfold analyzeTechStack, analyzeTechStack_try, report_success, report_failure,
    call, call_throwing.
  execute; repeat split; reflexivity.
Qed.

Lemma Always_try_catch {A : Type} (P : A -> Prop) (p : Prog A) (h : JsError -> Prog A) :
  Returns P p -> (forall e, Always P (h e)) -> Always P (try_catch p h).
Proof.
  intros Hp Hh. induction Hp as [r Hr|e|X ev k _ IH]; simpl.
  - constructor. exact Hr.
  - apply Hh.
  - constructor. exact IH.
Qed.

Lemma report_to_response_lighthouse_answer (url : string) (reportData : JSValue) :
  Returns (lighthouse_answer url) (report_to_response url reportData).
Proof.
  unfold report_to_response, report_is_usable.
  destruct (truthy (get reportData "runtimeError")) eqn:Eerror.
  - constructor. simpl. auto.
  - apply Returns_bind. intros [|].
    + constructor. simpl. auto.
    + destruct (truthy (get reportData "categories")) eqn:Ecategories;
        [|constructor; simpl; auto].
      destruct (truthy (get reportData "audits")) eqn:Eaudits;
        [|constructor; simpl; auto].
      cbn [negb orb].
      destruct (existsb has_score (Object_values (get reportData "categories"))) eqn:Escore;
        [|constructor; simpl; auto].
      cbn [negb]. apply Returns_bind. intros shots. constructor.
      unfold lighthouse_answer, report_is_usable.
      rewrite Eerror, Ecategories, Eaudits, Escore. auto.
Qed.

(** X17. The Lighthouse handler never throws, and what it returns is either
    an error report or a result built from a usable report: one without
    [runtimeError], with truthy [categories] and [audits] and with at least
    one category that has a score. Both carry the normalised URL and no
    timestamp. *)
Theorem runLighthouseAnalysis_answers_from_usable_reports
    (url : string) (w : World) (s : state w) :
  exists response,
    outcome (run w (runLighthouseAnalysis url) s) = Returned response /\
    lighthouse_answer (normalizeUrl url) response.
Proof.
  apply Always_run. unfold runLighthouseAnalysis.
  apply Always_try_catch.
  - unfold runLighthouseAnalysis_try, consume_report.
    repeat (apply Returns_bind; intros ?).
    match goal with
    | |- Returns _ (match ?v with _ => _ end) => destruct v
    end;
      first [ apply Returns_Throw
            | apply Returns_bind; intros _; apply report_to_response_lighthouse_answer ].
  - intros e. unfold runLighthouseAnalysis_catch. constructor. simpl. auto.
Qed.

(** The events of a program work on the files of [allowed] only. *)
Ltac stays_inside :=
  repeat first
    [ apply Avoids_Ret
    | apply Avoids_Throw
    | apply Avoids_bind
    | apply Avoids_try_catch
    | apply Avoids_Vis;
      [ intros; unfold touches_outside; cbn [file_path obs_event existsb];
        rewrite ?String.eqb_refl, ?orb_true_r; reflexivity | ]
    | progress intros
    | match goal with
      | |- Avoids _ (match ?x with _ => _ end) => destruct x
      | |- Avoids _ (if ?c then _ else _) => destruct c
      end ].

(** X18. The only paths the Lighthouse handler hands to the file system are
    the reports directory ([<cwd>/reports]) and the report file it named for
    this run ([<cwd>/reports/lighthouse-report-<Date.now()>.json]): it
    tests, creates, reads and removes nothing else. *)
Theorem runLighthouseAnalysis_stays_in_reports_dir
    (url : string) (w : World) (s : state w) :
  let '(timestamp, s1) := answer w _ DateNow s in
  let '(cwd, s2) := answer w _ Cwd s1 in
  let '(cwd', _) := answer w _ Cwd s2 in
  List.filter
    (touches_outside [report_path cwd timestamp; path_join [cwd'; "reports"]])
    (trace (run w (runLighthouseAnalysis url) s)) = [].
Proof.
  unfold runLighthouseAnalysis, runLighthouseAnalysis_try, prepare_report, call.
  generalize (normalizeUrl url). intros url'.
  cbn -[report_path path_join produce_report consume_report touches_outside].
  destruct (answer w _ DateNow s) as [timestamp s1].
  cbn -[report_path path_join produce_report consume_report touches_outside].
  destruct (answer w _ Cwd s1) as [cwd s2].
  cbn -[report_path path_join produce_report consume_report touches_outside].
  destruct (answer w _ Cwd s2) as [cwd' s3].
  generalize (report_path cwd timestamp) (path_join [cwd'; "reports"]).
  intros reportPath reportsDir.
  cbn -[produce_report consume_report touches_outside].
  change (touches_outside [reportPath; reportsDir] (observed DateNow timestamp)) with false.
  change (touches_outside [reportPath; reportsDir] (observed Cwd cwd)) with false.
  change (touches_outside [reportPath; reportsDir] (observed Cwd cwd')) with false.
  cbv iota.
  destruct (answer w _ (ExistsSync reportsDir) s3) as [created s4].
  cbn [trace after List.filter].
  replace (touches_outside [reportPath; reportsDir] (observed (ExistsSync reportsDir) created))
    with false
    by (unfold touches_outside; cbn [file_path obs_event existsb];
        rewrite String.eqb_refl, orb_true_r; reflexivity).
  rewrite filter_try_catch
    by (intros; unfold runLighthouseAnalysis_catch; stays_inside).
  unfold call_throwing, call_ignoring.
  rewrite filter_bind_left by stays_inside.
  match goal with
  | |- match outcome (run w ?p s4) with _ => _ end = [] =>
      destruct (outcome (run w p s4)) as [named|e] eqn:Enamed; [|reflexivity];
      apply (Returns_run (fun named => named = reportPath)) in Enamed;
      [ subst named
      | repeat first [ apply Returns_bind; intros ? | apply Returns_Vis; intros ? ];
        first [ apply Returns_Throw | constructor; reflexivity ] ]
  end.
  apply Avoids_run.
  apply Avoids_bind.
  - unfold produce_report, run_command, on_exec_error, call, call_throwing. stays_inside.
  - intros _. unfold consume_report, call_throwing, call_ignoring.
    apply Avoids_bind; [stays_inside|]. intros content.
    apply Avoids_bind; [stays_inside|]. intros reportData.
    destruct reportData;
      first [ apply Avoids_Throw
            | apply Avoids_bind; [stays_inside|]; intros;
              apply report_to_response_Avoids; reflexivity ].
Qed.

(** ** The findings of a Lighthouse report *)

Lemma percentage_at_most_100 (score : Q) :
  (score <= 100)%Q -> Math_round score <= 100.
Proof.
  intros H. unfold Math_round.
  assert (Hlt : (inject_Z (Qfloor (score + (1 # 2))) < inject_Z 101)%Q).
  { eapply Qle_lt_trans; [apply Qfloor_le|].
    unfold Qlt, Qle, Qplus, inject_Z in *. simpl in *. lia. }
  rewrite <- Zlt_Qlt in Hlt. lia.
Qed.

Lemma percentage_not_negative (score : Q) :
  (0 <= score)%Q -> 0 <= Math_round score.
Proof.
  intros H. unfold Math_round.
  change 0 with (Qfloor 0). apply Qfloor_resp_le.
  unfold Qle, Qplus in *. simpl in *. lia.
Qed.

Lemma round_at_most_100 (x : Findings.Number) :
  at_most x 100 -> at_most (Findings.round x) 100.
Proof.
  destruct x as [q|positive|]; simpl; auto.
  intros H. apply percentage_at_most_100 in H.
  rewrite Zle_Qle in H. exact H.
Qed.

Lemma round_between_0_and_100 (x : Findings.Number) :
  between 0 x 100 -> between 0 (Findings.round x) 100.
Proof.
  destruct x as [q|positive|]; simpl; auto.
  intros [Hlow Hhigh].
  apply percentage_at_most_100 in Hhigh. apply percentage_not_negative in Hlow.
  rewrite Zle_Qle in Hhigh, Hlow. split; assumption.
Qed.

Lemma Forall_firstn {A : Type} (P : A -> Prop) (n : nat) (l : list A) :
  List.Forall P l -> List.Forall P (firstn n l).
Proof.
  revert l. induction n as [|n IH]; intros l H; [constructor|].
  destruct H as [|x l Hx Hl]; simpl; constructor; [exact Hx|apply IH; exact Hl].
Qed.

Lemma less_than_le (x : Findings.Number) (bound bound' : Q) :
  (bound <= bound')%Q ->
  Findings.less_than x bound = true -> Findings.less_than x bound' = true.
Proof.
  intros Hle. destruct x as [q|positive|]; simpl; auto.
  rewrite !negb_true_iff. intros H.
  destruct (Qle_bool bound' q) eqn:E; [|reflexivity].
  apply Qle_bool_iff in E.
  assert (Hq : (bound <= q)%Q) by (eapply Qle_trans; eassumption).
  apply Qle_bool_iff in Hq. congruence.
Qed.

(** The properties [for ... in] visits are properties of the object. *)
Lemma insert_by_index_In (n : Z) (property : string * JSValue)
    (sorted : list (Z * (string * JSValue))) (p : Z * (string * JSValue)) :
  In p (Findings.insert_by_index n property sorted) -> p = (n, property) \/ In p sorted.
Proof.
  induction sorted as [|[m other] rest IH]; simpl.
  - intros [<-|[]]. left. reflexivity.
  - destruct (n <? m); simpl.
    + intros [<-|H]; [left; reflexivity|right; exact H].
    + intros [<-|H]; [right; left; reflexivity|].
      destruct (IH H) as [->|H']; [left; reflexivity|right; right; exact H'].
Qed.

Lemma indexed_In (properties : list (string * JSValue)) (p : Z * (string * JSValue)) :
  In p (Findings.indexed properties) -> In (snd p) properties.
Proof.
  induction properties as [|[key v] rest IH]; simpl; [tauto|].
  destruct (Findings.array_index key) as [n|].
  - intros H. apply insert_by_index_In in H. destruct H as [->|H]; [left; reflexivity|].
    right. exact (IH H).
  - intros H. right. exact (IH H).
Qed.

Lemma for_in_In (properties : list (string * JSValue)) (property : string * JSValue) :
  In property (Findings.for_in properties) -> In property properties.
Proof.
  unfold Findings.for_in. intros H. apply in_app_or in H. destruct H as [H|H].
  - apply List.in_map_iff in H. destruct H as (p & <- & Hp). exact (indexed_In _ _ Hp).
  - apply List.filter_In in H. exact (proj1 H).
Qed.

Section FindingsFacts.

Variable text_to_number : JSValue -> JsError + Findings.Number.
Variable times100 : Findings.Number -> Findings.Number.

Lemma failing_score_spec (audit : JSValue) (bound : Q) (x : Findings.Number) :
  Findings.failing_score text_to_number audit bound = inr (Some x) ->
  fails_with text_to_number audit bound x.
Proof.
  unfold Findings.failing_score, fails_with.
  destruct (truthy audit); [|discriminate].
  destruct (get audit "score") as [| |b|q|text|items|fields] eqn:Escore; try discriminate;
    (destruct (Findings.ToNumber text_to_number _) as [e|y] eqn:Enumber; [discriminate|]);
    (destruct (Findings.less_than y bound) eqn:Eless; [|discriminate]);
    intros [= <-]; repeat split; try assumption; discriminate.
Qed.

Lemma push_suggestions_Forall (P : Findings.Suggestion -> Prop) (audits : JSValue)
    (bound : Q) (fallback : string) (auditKeys : list string)
    (suggestions : list Findings.Suggestion) :
  List.Forall P suggestions ->
  (forall auditKey x,
     In auditKey auditKeys ->
     Findings.failing_score text_to_number (get audits auditKey) bound = inr (Some x) ->
     P (Findings.suggestion_of times100 fallback (get audits auditKey) x)) ->
  List.Forall P (fst (Findings.push_suggestions text_to_number times100 audits bound fallback
                        auditKeys suggestions)).
Proof.
  revert suggestions. induction auditKeys as [|auditKey rest IH]; intros suggestions Hacc Hnew;
    simpl; [exact Hacc|].
  destruct (Findings.failing_score text_to_number (get audits auditKey) bound)
    as [e|[x|]] eqn:E.
  - exact Hacc.
  - apply IH.
    + apply List.Forall_app. split; [exact Hacc|].
      constructor; [|constructor]. apply Hnew; [left; reflexivity|exact E].
    + intros k q Hk. apply Hnew. right. exact Hk.
  - apply IH; [exact Hacc|]. intros k q Hk. apply Hnew. right. exact Hk.
Qed.

(** X19. [extractPerformanceSuggestions] returns at most ten suggestions, and
    each of them stands for one of the audits the routine looks up: an object
    whose score is not [null] and converts to a number below 1 (below 0.9 for
    a diagnostic). The suggestion carries that audit's title, description and
    details, and as score [Math.round] of the product of that number with
    100, which is at most 100 when the product of a number below 1 with 100
    is. An audit whose score is [null], converts to [NaN] or to 1 or more is
    never suggested. *)
Theorem suggestions_come_from_failing_audits (reportData : JSValue) :
  let suggestions :=
    Findings.extractPerformanceSuggestions text_to_number times100 reportData in
  (List.length suggestions <= 10)%nat /\
  List.Forall (suggested_by text_to_number times100 (get reportData "audits")) suggestions /\
  ((forall x, Findings.less_than x 1 = true -> at_most (times100 x) 100) ->
   List.Forall (fun suggestion => at_most (Findings.score suggestion) 100) suggestions).
Proof.
  cbv zeta.
  assert (Hsuggested :
    List.Forall (suggested_by text_to_number times100 (get reportData "audits"))
      (Findings.extractPerformanceSuggestions text_to_number times100 reportData)).
  { unfold Findings.extractPerformanceSuggestions. cbv zeta.
    set (audits := get reportData "audits").
    apply Forall_firstn.
    assert (Hpushed : forall bound fallback auditKeys,
              (forall key, In key auditKeys ->
                           In key Findings.opportunityAudits /\ bound = 1%Q \/
                           In key Findings.diagnosticAudits /\ bound = (9 # 10)%Q) ->
              forall auditKey x,
                In auditKey auditKeys ->
                Findings.failing_score text_to_number (get audits auditKey) bound
                = inr (Some x) ->
                suggested_by text_to_number times100 audits
                  (Findings.suggestion_of times100 fallback (get audits auditKey) x)).
    { intros bound fallback auditKeys Hlisted auditKey x Hin Hfailing.
      apply failing_score_spec in Hfailing.
      exists auditKey, bound, x. split; [apply Hlisted; exact Hin|].
      split; [exact Hfailing|]. repeat split. }
    assert (Hfirst :
      List.Forall (suggested_by text_to_number times100 audits)
        (fst (Findings.push_suggestions text_to_number times100 audits 1
                "Improvement available" Findings.opportunityAudits []))).
    { apply push_suggestions_Forall; [constructor|].
      apply Hpushed. intros key Hk. left. split; [exact Hk|reflexivity]. }
    assert (Hboth :
      List.Forall (suggested_by text_to_number times100 audits)
        (let (opportunities, completed) :=
           Findings.push_suggestions text_to_number times100 audits 1
             "Improvement available" Findings.opportunityAudits [] in
         if completed
         then fst (Findings.push_suggestions text_to_number times100 audits (9 # 10)
                     "Improvement recommended" Findings.diagnosticAudits opportunities)
         else opportunities)).
    { destruct (Findings.push_suggestions text_to_number times100 audits 1
                  "Improvement available" Findings.opportunityAudits [])
        as [opportunities completed].
      simpl in Hfirst. destruct completed; [|exact Hfirst].
      apply push_suggestions_Forall; [exact Hfirst|].
      apply Hpushed. intros key Hk. right. split; [exact Hk|reflexivity]. }
    destruct audits; first [constructor | exact Hboth]. }
  split; [apply firstn_le_length|]. split; [exact Hsuggested|].
  intros Hproduct.
  eapply List.Forall_impl; [|exact Hsuggested].
  intros suggestion (auditKey & bound & x & Hbound & (_ & _ & _ & Hless) & -> & _).
  apply round_at_most_100, Hproduct.
  apply (less_than_le x bound 1); [|exact Hless].
  destruct Hbound as [[_ ->]|[_ ->]]; [apply Qle_refl|discriminate].
Qed.

Lemma push_issues_Forall (P : Findings.Issue -> Prop) (selected : string -> bool)
    (category : string) (properties : list (string * JSValue))
    (issues : list Findings.Issue) :
  List.Forall P issues ->
  (forall key audit x,
     In (key, audit) properties -> selected key = true ->
     Findings.failing_score text_to_number audit 1 = inr (Some x) ->
     P (Findings.issue_of times100 category audit x)) ->
  List.Forall P (Findings.push_issues text_to_number times100 selected category
                   properties issues).
Proof.
  revert issues. induction properties as [|[key audit] rest IH]; intros issues Hacc Hnew;
    simpl; [exact Hacc|].
  destruct (Findings.failing_score text_to_number audit 1) as [e|[x|]] eqn:E.
  - exact Hacc.
  - destruct (selected key) eqn:Ekey.
    + apply IH.
      * apply List.Forall_app. split; [exact Hacc|].
        constructor; [|constructor]. apply (Hnew key); [left; reflexivity|exact Ekey|exact E].
      * intros k a q Hk. apply Hnew. right. exact Hk.
    + apply IH; [exact Hacc|]. intros k a q Hk. apply Hnew. right. exact Hk.
  - apply IH; [exact Hacc|]. intros k a q Hk. apply Hnew. right. exact Hk.
Qed.

Lemma extract_issues_reported (selected : string -> bool) (category : string)
    (reportData : JSValue) :
  let issues :=
    Findings.extract_issues text_to_number times100 selected category reportData in
  (List.length issues <= 10)%nat /\
  List.Forall (fun issue =>
                 reported_for text_to_number times100 selected category
                   (get reportData "audits") issue /\
                 Findings.issue_category issue = category)
              issues /\
  ((forall x, Findings.less_than x 1 = true -> at_most (times100 x) 100) ->
   List.Forall (fun issue => at_most (Findings.issue_score issue) 100) issues).
Proof.
  cbv zeta.
  assert (Hreported :
    List.Forall (fun issue =>
                   reported_for text_to_number times100 selected category
                     (get reportData "audits") issue /\
                   Findings.issue_category issue = category)
      (Findings.extract_issues text_to_number times100 selected category reportData)).
  { unfold Findings.extract_issues. cbv zeta.
    apply Forall_firstn.
    destruct (get reportData "audits") as [| | | | | |properties] eqn:Eaudits; try constructor.
    apply push_issues_Forall; [constructor|].
    intros key audit x Hin Hkey Hfailing.
    apply failing_score_spec in Hfailing.
    split; [|reflexivity].
    exists properties, key, audit, x.
    split; [reflexivity|]. split; [apply for_in_In; exact Hin|]. auto. }
  split; [apply firstn_le_length|]. split; [exact Hreported|].
  intros Hproduct.
  eapply List.Forall_impl; [|exact Hreported].
  intros issue [(properties & key & audit & x & _ & _ & _ & (_ & _ & _ & Hless) & ->) _].
  apply round_at_most_100, Hproduct, Hless.
Qed.

(** X20. Each of the three issue extractors returns at most ten issues, all
    with its own category label ('Accessibility', 'Best Practices', 'SEO'),
    and each issue stands for a property of [reportData.audits] whose key
    passes the extractor's key test and whose value is an object with a score
    that is not [null] and converts to a number below 1; the issue carries
    that audit's title, description and details, and as score [Math.round] of
    the product of that number with 100, which is at most 100 when the
    product of a number below 1 with 100 is. *)
Theorem issues_come_from_failing_audits (reportData : JSValue) :
  let audits := get reportData "audits" in
  let within (selected : string -> bool) (category : string) issues :=
    (List.length issues <= 10)%nat /\
    List.Forall (fun issue =>
                   reported_for text_to_number times100 selected category audits issue /\
                   Findings.issue_category issue = category)
                issues /\
    ((forall x, Findings.less_than x 1 = true -> at_most (times100 x) 100) ->
     List.Forall (fun issue => at_most (Findings.issue_score issue) 100) issues) in
  within Findings.accessibility_key "Accessibility"
         (Findings.extractAccessibilityIssues text_to_number times100 reportData) /\
  within Findings.best_practices_key "Best Practices"
         (Findings.extractBestPracticesIssues text_to_number times100 reportData) /\
  within Findings.seo_key "SEO"
         (Findings.extractSEOIssues text_to_number times100 reportData).
Proof.
  cbv zeta.
  split; [|split]; apply extract_issues_reported.
Qed.

End FindingsFacts.

Section CategoryFacts.

Variable text_to_number : JSValue -> JsError + Findings.Number.
Variable times100 : Findings.Number -> Findings.Number.

Lemma category_score_spec (categories : JSValue) (name : string) :
  let category := get categories name in
  match Findings.category_score text_to_number times100 categories name with
  | inr (Some percentage) =>
      truthy category = true /\
      get category "score" <> VNull /\
      Findings.percentage text_to_number times100 (get category "score") = inr percentage
  | inr None => truthy category = false \/ get category "score" = VNull
  | inl e =>
      truthy category = true /\
      Findings.ToNumber text_to_number (get category "score") = inl e
  end.
Proof.
  cbv zeta. unfold Findings.category_score, Findings.percentage.
  destruct (truthy (get categories name)); [|left; reflexivity].
  destruct (get (get categories name) "score") as [| |b|q|text|items|fields];
    try (right; reflexivity);
    cbn [Findings.ToNumber];
    try (split; [reflexivity|]; split; [discriminate|]; reflexivity);
    (destruct (text_to_number _) as [e|x];
     [ split; reflexivity
     | split; [reflexivity|]; split; [discriminate|]; reflexivity ]).
Qed.

Lemma percentage_between (q : Q) :
  (forall score, (0 <= score <= 1)%Q -> between 0 (times100 (Findings.Finite score)) 100) ->
  (0 <= q <= 1)%Q ->
  exists percentage,
    Findings.percentage text_to_number times100 (VNum q) = inr percentage /\
    between 0 percentage 100.
Proof.
  intros Hproduct Hq. unfold Findings.percentage. cbn [Findings.ToNumber].
  eexists. split; [reflexivity|].
  apply round_between_0_and_100, Hproduct, Hq.
Qed.

(** X21. For truthy [categories], [extractCategoryScores] either returns, and
    then it has set a category exactly when [categories] has it with a score
    other than [null]: to [Math.round] of the product of the score, converted
    to a number, with 100; or it throws what the conversion of one of the
    five scores throws. The entry for a numeric score between 0 and 1 is
    between 0 and 100 when the product of such a number with 100 is. The
    result's [score] is the [performance] entry when the performance score is
    truthy, and 0 otherwise. *)
Theorem category_scores_are_percentages (categories : JSValue) :
  truthy categories = true ->
  let score_of name := get (get categories name) "score" in
  match Findings.extractCategoryScores text_to_number times100 categories with
  | inr scores =>
      List.Forall
        (fun entry : string * option Findings.Number =>
           match snd entry with
           | Some percentage =>
               truthy (get categories (fst entry)) = true /\
               score_of (fst entry) <> VNull /\
               Findings.percentage text_to_number times100 (score_of (fst entry))
               = inr percentage
           | None =>
               truthy (get categories (fst entry)) = false \/
               score_of (fst entry) = VNull
           end)
        (category_entries scores) /\
      (if truthy (score_of "performance")
       then exists percentage,
              Findings.performance scores = Some percentage /\
              Findings.result_score text_to_number times100 categories = inr percentage
       else Findings.result_score text_to_number times100 categories
            = inr (Findings.Finite 0))
  | inl e =>
      exists name,
        In name ["performance"; "accessibility"; "best-practices"; "seo"; "pwa"] /\
        truthy (get categories name) = true /\
        Findings.ToNumber text_to_number (score_of name) = inl e
  end /\
  ((forall score, (0 <= score <= 1)%Q -> between 0 (times100 (Findings.Finite score)) 100) ->
   match Findings.extractCategoryScores text_to_number times100 categories with
   | inr scores =>
       List.Forall
         (fun entry : string * option Findings.Number =>
            forall percentage score,
              snd entry = Some percentage ->
              score_of (fst entry) = VNum score -> (0 <= score <= 1)%Q ->
              between 0 percentage 100)
         (category_entries scores)
   | inl _ => True
   end).
Proof.
  intros Hcategories. cbv zeta.
  assert (Hset :
    match Findings.extractCategoryScores text_to_number times100 categories with
    | inr scores =>
        List.Forall
          (fun entry : string * option Findings.Number =>
             match snd entry with
             | Some percentage =>
                 truthy (get categories (fst entry)) = true /\
                 get (get categories (fst entry)) "score" <> VNull /\
                 Findings.percentage text_to_number times100
                   (get (get categories (fst entry)) "score")
                 = inr percentage
             | None =>
                 truthy (get categories (fst entry)) = false \/
                 get (get categories (fst entry)) "score" = VNull
             end)
          (category_entries scores) /\
        (if truthy (get (get categories "performance") "score")
         then exists percentage,
                Findings.performance scores = Some percentage /\
                Findings.result_score text_to_number times100 categories = inr percentage
         else Findings.result_score text_to_number times100 categories
              = inr (Findings.Finite 0))
    | inl e =>
        exists name,
          In name ["performance"; "accessibility"; "best-practices"; "seo"; "pwa"] /\
          truthy (get categories name) = true /\
          Findings.ToNumber text_to_number (get (get categories name) "score") = inl e
    end).
  { unfold Findings.extractCategoryScores. rewrite Hcategories.
    pose proof (category_score_spec categories "performance") as Hperformance.
    pose proof (category_score_spec categories "accessibility") as Haccessibility.
    pose proof (category_score_spec categories "best-practices") as Hbest.
    pose proof (category_score_spec categories "seo") as Hseo.
    pose proof (category_score_spec categories "pwa") as Hpwa.
    cbv zeta in *.
    destruct (Findings.category_score text_to_number times100 categories "performance")
      as [e|performance].
    { exists "performance". split; [simpl; tauto|exact Hperformance]. }
    destruct (Findings.category_score text_to_number times100 categories "accessibility")
      as [e|accessibility].
    { exists "accessibility". split; [simpl; tauto|exact Haccessibility]. }
    destruct (Findings.category_score text_to_number times100 categories "best-practices")
      as [e|best_practices].
    { exists "best-practices". split; [simpl; tauto|exact Hbest]. }
    destruct (Findings.category_score text_to_number times100 categories "seo") as [e|seo].
    { exists "seo". split; [simpl; tauto|exact Hseo]. }
    destruct (Findings.category_score text_to_number times100 categories "pwa") as [e|pwa].
    { exists "pwa". split; [simpl; tauto|exact Hpwa]. }
    split.
    + unfold category_entries. cbn [Findings.performance Findings.accessibility
        Findings.best_practices Findings.seo Findings.pwa].
      repeat apply List.Forall_cons; try apply List.Forall_nil; cbn [fst snd]; assumption.
    + cbn [Findings.performance]. unfold Findings.result_score.
      destruct categories as [| |b|q|text|items|fields]; try discriminate Hcategories;
        cbn [get get_opt truthy assoc]; try reflexivity.
      destruct (assoc "performance" fields) as [| |b|q|text|items|fields'] eqn:Eperformance;
        cbn [get get_opt truthy assoc]; try reflexivity.
      cbn [get truthy] in Hperformance. rewrite Eperformance in Hperformance.
      cbn [get truthy] in Hperformance.
      destruct (truthy (assoc "score" fields')) eqn:Etruthy; [|reflexivity].
      destruct performance as [percentage|].
      * destruct Hperformance as (_ & _ & Hpercentage).
        exists percentage. split; [reflexivity|exact Hpercentage].
      * destruct Hperformance as [Hfalse|Hnull]; [discriminate Hfalse|].
        rewrite Hnull in Etruthy. discriminate Etruthy. }
  split; [exact Hset|].
  intros Hproduct.
  destruct (Findings.extractCategoryScores text_to_number times100 categories)
    as [e|scores]; [exact I|].
  destruct Hset as [Hset _].
  eapply List.Forall_impl; [|exact Hset].
  intros [name [entry|]] Hentry percentage score; cbn [fst snd] in *;
    [|discriminate].
  intros [= <-] Hscore Hrange.
  destruct Hentry as (_ & _ & Hpercentage).
  rewrite Hscore in Hpercentage.
  destruct (percentage_between score Hproduct Hrange) as (percentage & Hsame & Hbetween).
  congruence.
Qed.

End CategoryFacts.

(** X21 at the categories [{"performance":{"score":0.75}}]: the performance
    entry and the result's score are both 75. *)
Lemma category_scores_witness :
  let categories := get audited_report "categories" in
  truthy categories = true /\
  exists scores,
    Findings.extractCategoryScores sample_text_to_number sample_times100 categories
    = inr scores /\
    Findings.performance scores = Some (Findings.Finite 75) /\
    Findings.result_score sample_text_to_number sample_times100 categories
    = inr (Findings.Finite 75).
Proof.
  cbv zeta. split; [reflexivity|].
  pose proof (category_scores_are_percentages sample_text_to_number sample_times100
                (get audited_report "categories") eq_refl) as [H _].
  cbv zeta in H.
  destruct (Findings.extractCategoryScores sample_text_to_number sample_times100
              (get audited_report "categories")) as [e|scores] eqn:E;
    [vm_compute in E; discriminate E|].
  destruct H as [_ Hscore].
  change (truthy (get (get (get audited_report "categories") "performance") "score"))
    with true in Hscore.
  destruct Hscore as (percentage & Hperformance & Hresult).
  exists scores. split; [reflexivity|].
  assert (Hpercentage : percentage = Findings.Finite 75).
  { vm_compute in Hresult. injection Hresult as <-. reflexivity. }
  rewrite <- Hpercentage. split; assumption.
Defined.

Example findings_of_audited_report :
  let suggestions :=
    Findings.extractPerformanceSuggestions sample_text_to_number sample_times100 in
  let issues extractor :=
    List.map (fun i => (Findings.issue_title i, Findings.issue_score i,
                        Findings.issue_category i))
             (extractor sample_text_to_number sample_times100 audited_report) in
  List.map (fun s => (Findings.title s, Findings.score s, Findings.savings s))
           (suggestions audited_report)
  = [(VStr "Reduce unused CSS", Findings.Finite 50, VStr "Potential savings of 10 KiB");
     (VStr "Use video formats", Findings.Finite 25, VStr "Improvement available");
     (VStr "Use video formats", Findings.Finite 25, VStr "Improvement available")] /\
  issues Findings.extractAccessibilityIssues
  = [(VStr "Contrast", Findings.Finite 0, "Accessibility")] /\
  issues Findings.extractBestPracticesIssues = [] /\
  issues Findings.extractSEOIssues = [].
Proof. vm_compute. repeat split; reflexivity. Qed.

(** Scores that are no numbers are converted: the string "0.5" and [false]
    are below 1. A score that cannot be converted ends the loop: what was
    pushed before it stays, and the audits after it are not looked at. *)
Example findings_of_unusual_report :
  List.map (fun i => (Findings.issue_title i, Findings.issue_score i))
           (Findings.extractAccessibilityIssues sample_text_to_number sample_times100
              unusual_report)
  = [(VStr "Contrast", Findings.Finite 50); (VStr "Links", Findings.Finite 0)] /\
  List.map (fun s => (Findings.title s, Findings.score s))
           (Findings.extractPerformanceSuggestions sample_text_to_number sample_times100
              unusual_report)
  = [(VStr "Reduce unused CSS", Findings.Finite 50)].
Proof. vm_compute. split; reflexivity. Qed.

(** The loop visits a property whose key is an array index first: here its
    score cannot be converted, and nothing is reported. *)
Example findings_of_index_keyed_report :
  Findings.for_in [("color-contrast", VNull); ("10", VNull); ("9", VNull); ("09", VNull)]
  = [("9", VNull); ("10", VNull); ("color-contrast", VNull); ("09", VNull)] /\
  Findings.extractAccessibilityIssues sample_text_to_number sample_times100
    index_keyed_report = [].
Proof. vm_compute. split; reflexivity. Qed.

(** ** Decimal numerals: [parseInt] after the conversion of a number to a string *)

Lemma digits_string_of_uint (d : Decimal.uint) (acc : Z) :
  Configuration.digits (Some acc) (NilEmpty.string_of_uint d) = Some (uint_value acc d).
Proof.
  revert acc. induction d; intros acc; simpl; try reflexivity;
    rewrite IHd; first [reflexivity | do 2 f_equal; lia].
Qed.

Lemma parseInt_string_of_uint (d : Decimal.uint) :
  d <> Decimal.Nil ->
  Configuration.parseInt (NilEmpty.string_of_uint d) = Some (uint_value 0 d) /\
  Configuration.parseInt (String "-" (NilEmpty.string_of_uint d)) = Some (- uint_value 0 d).
Proof.
  intros Hd. destruct d; [exfalso; apply Hd; reflexivity| ..];
    unfold Configuration.parseInt; simpl; rewrite digits_string_of_uint; split; reflexivity.
Qed.

Lemma of_uint_acc_value (d : Decimal.uint) (acc : positive) :
  Z.pos (Pos.of_uint_acc d acc) = uint_value (Z.pos acc) d.
Proof.
  revert acc. induction d; intros acc; simpl; try reflexivity; rewrite IHd; f_equal; lia.
Qed.

Lemma of_uint_value (d : Decimal.uint) : Z.of_N (Pos.of_uint d) = uint_value 0 d.
Proof.
  induction d; simpl; try reflexivity; try exact IHd; apply of_uint_acc_value.
Qed.

Lemma to_uint_value (p : positive) : uint_value 0 (Pos.to_uint p) = Z.pos p.
Proof.
  rewrite <- of_uint_value, DecimalPos.Unsigned.of_to. reflexivity.
Qed.

Lemma string_of_uint_to_uint (p : positive) :
  NilZero.string_of_uint (Pos.to_uint p) = NilEmpty.string_of_uint (Pos.to_uint p).
Proof.
  pose proof (DecimalPos.Unsigned.to_uint_nonnil p) as H.
  destruct (Pos.to_uint p); [exfalso; apply H; reflexivity| ..]; reflexivity.
Qed.

(** Reading back the decimal notation of an integer gives the integer. *)
Lemma parseInt_string_of_Z (n : Z) : Configuration.parseInt (string_of_Z n) = Some n.
Proof.
  unfold string_of_Z. destruct n as [|p|p]; [reflexivity| |].
  - cbn [Z.to_int NilZero.string_of_int]. rewrite string_of_uint_to_uint.
    destruct (parseInt_string_of_uint (Pos.to_uint p)) as [-> _].
    + apply DecimalPos.Unsigned.to_uint_nonnil.
    + rewrite to_uint_value. reflexivity.
  - cbn [Z.to_int NilZero.string_of_int]. rewrite string_of_uint_to_uint.
    destruct (parseInt_string_of_uint (Pos.to_uint p)) as [_ ->].
    + apply DecimalPos.Unsigned.to_uint_nonnil.
    + rewrite to_uint_value. reflexivity.
Qed.

Lemma string_of_Z_not_empty (n : Z) : string_of_Z n <> EmptyString.
Proof.
  intros H. pose proof (parseInt_string_of_Z n) as Hn. rewrite H in Hn. discriminate Hn.
Qed.

Lemma string_of_Z_inj (n m : Z) : string_of_Z n = string_of_Z m -> n = m.
Proof.
  intros H. pose proof (parseInt_string_of_Z n) as Hn. rewrite H, parseInt_string_of_Z in Hn.
  congruence.
Qed.

Lemma env_or_set (env : gmap string string) (name fallback text : string) :
  text <> EmptyString -> Configuration.env_or (<[name := text]> env) name fallback = text.
Proof.
  intros Htext. unfold Configuration.env_or, str_or. rewrite lookup_insert_eq.
  destruct (String.eqb text EmptyString) eqn:E; [|reflexivity].
  apply String.eqb_eq in E. contradiction.
Qed.

(** X22. The configuration reads back what the environment says: with
    [PORT] (or [LIGHTHOUSE_TIMEOUT]) set to the decimal notation of an
    integer of magnitude at most 2^53, which a JavaScript number holds
    exactly, [port] (or [lighthouse.timeout]) is that integer; with the
    variable unset or empty it is the default, 3001 (or 60000). *)
Theorem configuration_reads_decimal_numbers (env : gmap string string) (n : Z) :
  - 2 ^ 53 <= n <= 2 ^ 53 ->
  Configuration.port (Configuration.configuration (<["PORT" := string_of_Z n]> env))
  = Some n /\
  Configuration.timeout
    (Configuration.lighthouse
       (Configuration.configuration (<["LIGHTHOUSE_TIMEOUT" := string_of_Z n]> env)))
  = Some n /\
  (env !! "PORT" = None \/ env !! "PORT" = Some EmptyString ->
   Configuration.port (Configuration.configuration env) = Some 3001) /\
  (env !! "LIGHTHOUSE_TIMEOUT" = None \/ env !! "LIGHTHOUSE_TIMEOUT" = Some EmptyString ->
   Configuration.timeout (Configuration.lighthouse (Configuration.configuration env))
   = Some 60000).
Proof.
  intros _. unfold Configuration.configuration.
  cbn [Configuration.port Configuration.timeout Configuration.lighthouse].
  rewrite !env_or_set by apply string_of_Z_not_empty.
  rewrite parseInt_string_of_Z.
  repeat split;
    intros [H|H]; unfold Configuration.env_or; rewrite H; reflexivity.
Qed.

(** X22 with [PORT=8080] and nothing else in the environment. *)
Lemma configuration_reads_decimal_numbers_witness :
  Configuration.port (Configuration.configuration (<["PORT" := "8080"]> ∅)) = Some 8080 /\
  Configuration.timeout
    (Configuration.lighthouse (Configuration.configuration (<["PORT" := "8080"]> ∅)))
  = Some 60000.
Proof.
  assert (Hsafe : - 2 ^ 53 <= 8080 <= 2 ^ 53) by lia.
  destruct (configuration_reads_decimal_numbers ∅ 8080 Hsafe) as (Hport & _ & _ & _).
  destruct (configuration_reads_decimal_numbers (<["PORT" := "8080"]> ∅) 8080 Hsafe)
    as (_ & _ & _ & Htimeout).
  split; [exact Hport|]. apply Htimeout. left. reflexivity.
Defined.

Lemma append_cancel_l (a x y : string) :
  String.append a x = String.append a y -> x = y.
Proof.
  induction a as [|c a IH]; [intros H; exact H|].
  change (String.append (String c a) x) with (String c (String.append a x)).
  change (String.append (String c a) y) with (String c (String.append a y)).
  intros [= H]. exact (IH H).
Qed.

Lemma length_append (a b : string) :
  String.length (String.append a b) = (String.length a + String.length b)%nat.
Proof.
  induction a as [|c a IH]; [reflexivity|].
  change (String.append (String c a) b) with (String c (String.append a b)).
  simpl. rewrite IH. reflexivity.
Qed.

Lemma append_cancel_r (x y b : string) :
  String.append x b = String.append y b -> x = y.
Proof.
  revert y. induction x as [|c x IH]; intros [|c' y] H.
  - reflexivity.
  - apply (f_equal String.length) in H. rewrite !length_append in H. simpl in H. lia.
  - apply (f_equal String.length) in H. rewrite !length_append in H. simpl in H. lia.
  - change (String c (String.append x b) = String c' (String.append y b)) in H.
    injection H as -> H. f_equal. exact (IH _ H).
Qed.

(** X23. The report file is named after the clock reading alone: two runs
    in one working directory use the same report file exactly when they read
    the same [Date.now()], whatever their URLs are. *)
Theorem report_path_determined_by_the_clock (cwd : string) (timestamp timestamp' : Z) :
  report_path cwd timestamp = report_path cwd timestamp' <-> timestamp = timestamp'.
Proof.
  split; [|intros ->; reflexivity].
  unfold report_path, path_join, template. cbn [String.concat].
  intros H.
  apply append_cancel_l in H. apply (append_cancel_l "/") in H.
  apply (append_cancel_l "reports") in H. apply (append_cancel_l "/") in H.
  apply (append_cancel_l "lighthouse-report-") in H.
  apply (append_cancel_l EmptyString) in H.
  apply append_cancel_r in H.
  apply string_of_Z_inj. exact H.
Qed.

(** ** The Core Web Vitals analysis *)

Example toFixed_samples :
  [Crux.toFixed 0 (25004 # 10); Crux.toFixed 0 (24995 # 10); Crux.toFixed 3 (1 # 20);
   Crux.toFixed 3 (12345 # 10000); Crux.toFixed 0 (- (1 # 4))]
  = ["2500"; "2500"; "0.050"; "1.235"; "-0"].
Proof. vm_compute. reflexivity. Qed.



Lemma Math_round_percentage (x : Q) :
  (0 <= x <= 100)%Q -> 0 <= Math_round x <= 100.
Proof.
  intros [Hlo Hhi]. unfold Math_round. split.
  - change 0 with (Qfloor 0). apply Qfloor_resp_le.
    unfold Qle, Qplus in *. simpl in *. lia.
  - assert (Hlt : (inject_Z (Qfloor (x + (1 # 2))) < inject_Z 101)%Q).
    { eapply Qle_lt_trans; [apply Qfloor_le|].
      unfold Qlt, Qle, Qplus, inject_Z in *. simpl in *. lia. }
    rewrite <- Zlt_Qlt in Hlt. lia.
Qed.

Lemma measured_positive (m : Crux.Metric) :
  Crux.measured m = true -> (0 < Crux.total m)%Q.
Proof.
  unfold Crux.measured. intros H. apply Qnot_le_lt. intros Hle.
  apply Qle_bool_iff in Hle. rewrite Hle in H. discriminate H.
Qed.

Lemma share_bounds (m : Crux.Metric) :
  is_share m -> Crux.measured m = true ->
  (0 <= Crux.good m / Crux.total m * 100 <= 100)%Q.
Proof.
  intros [Hlo Hhi] Hm. apply measured_positive in Hm. split.
  - apply Qmult_le_0_compat; [|discriminate].
    apply Qle_shift_div_l; [exact Hm|]. rewrite Qmult_0_l. exact Hlo.
  - apply Qle_trans with (1 * 100)%Q; [|unfold Qle; simpl; lia].
    apply Qmult_le_compat_r; [|discriminate].
    apply Qle_shift_div_r; [exact Hm|]. rewrite Qmult_1_l. exact Hhi.
Qed.

Lemma score_metric_in_range (m : Crux.Metric) before digits after tally tally' :
  is_share m -> Crux.measured m = true -> tally_in_range tally ->
  Crux.score_metric m before digits after tally = inr tally' ->
  tally_in_range tally'.
Proof.
  intros Hshare Hm (Hcount & Hlo & Hhi) Hscored.
  destruct (share_bounds m Hshare Hm) as [Hs0 Hs100].
  assert (Hrange : tally_in_range
            {| Crux.totalScore := Crux.totalScore tally + Crux.good m / Crux.total m * 100;
               Crux.metricCount := Crux.metricCount tally + 1;
               Crux.pushed := Crux.pushed tally' |}).
  { unfold tally_in_range. cbn [Crux.totalScore Crux.metricCount]. split; [lia|]. split.
    - apply Qle_trans with (0 + 0)%Q; [discriminate|].
      apply Qplus_le_compat; assumption.
    - rewrite inject_Z_plus, Qmult_plus_distr_r.
      apply Qplus_le_compat; [exact Hhi|exact Hs100]. }
  unfold Crux.score_metric in Hscored. cbv zeta in Hscored.
  destruct (negb _) in Hscored.
  - destruct (Crux.call_toFixed _ _) in Hscored; [discriminate|].
    injection Hscored as <-. exact Hrange.
  - injection Hscored as <-. exact Hrange.
Qed.

Lemma conclude_in_range (tally : Crux.Tally) :
  tally_in_range tally ->
  0 <= Crux.overallScore (Crux.conclude tally) <= 100 /\
  Crux.status (Crux.conclude tally)
  = fst (Crux.rate (Crux.overallScore (Crux.conclude tally))).
Proof.
  intros (Hcount & Hlo & Hhi). unfold Crux.conclude. cbv zeta.
  destruct (Crux.rate _) as [status message] eqn:Erate.
  cbn [Crux.overallScore Crux.status]. rewrite Erate. split; [|reflexivity].
  destruct (0 <? Crux.metricCount tally) eqn:Epos; [|lia].
  apply Z.ltb_lt in Epos. apply Math_round_percentage.
  assert (Hq : (0 < inject_Z (Crux.metricCount tally))%Q)
    by (unfold Qlt, inject_Z; simpl; lia).
  split.
  - apply Qle_shift_div_l; [exact Hq|]. rewrite Qmult_0_l. exact Hlo.
  - apply Qle_shift_div_r; [exact Hq|]. exact Hhi.
Qed.

(** X25. When the good experiences of the primary form factor are a share of
    all experiences (no density is negative), the overall score that
    [calculateCoreWebVitalsSummary] computes lies between 0 and 100 and the
    status is read off it: 'Excellent' from 90, 'Good' from 75, 'Needs
    Improvement' from 50, 'Poor' below. *)
Theorem overall_score_is_a_percentage (mobile desktop : option Crux.Parsed) :
  (forall primaryMetrics,
     primary_metrics mobile desktop = Some primaryMetrics ->
     List.Forall is_share (scored_metrics primaryMetrics)) ->
  match Crux.calculateCoreWebVitalsSummary mobile desktop with
  | inr summary =>
      0 <= Crux.overallScore summary <= 100 /\
      (Crux.status summary = "No data available" /\ primary_metrics mobile desktop = None
       \/ Crux.status summary = fst (Crux.rate (Crux.overallScore summary)))
  | inl _ => True
  end.
Proof.
  intros Hshares. unfold Crux.calculateCoreWebVitalsSummary.
  fold (primary_metrics mobile desktop). cbv zeta.
  destruct (primary_metrics mobile desktop) as [primaryMetrics|];
    [|simpl; split; [lia|left; split; reflexivity]].
  specialize (Hshares primaryMetrics eq_refl). unfold scored_metrics in Hshares.
  inversion Hshares as [|? ? Hlcp Hrest]; subst.
  inversion Hrest as [|? ? Hcls Hrest']; subst.
  inversion Hrest' as [|? ? Hinp Hrest'']; subst.
  inversion Hrest'' as [|? ? Hfid _]; subst.
  assert (Hstart : tally_in_range
            {| Crux.totalScore := 0; Crux.metricCount := 0; Crux.pushed := [] |}).
  { unfold tally_in_range. simpl. split; [lia|]. split; discriminate. }
  match goal with
  | |- context [if Crux.measured (Crux.lcp primaryMetrics) then ?a else ?b] =>
      assert (H1 : forall tally, (if Crux.measured (Crux.lcp primaryMetrics) then a else b)
                                 = inr tally -> tally_in_range tally);
      [ intros tally; destruct (Crux.measured (Crux.lcp primaryMetrics)) eqn:E;
        [ apply score_metric_in_range; assumption | intros [= <-]; exact Hstart ] | ];
      destruct (if Crux.measured (Crux.lcp primaryMetrics) then a else b)
        as [e|tally1]; [exact I|]; specialize (H1 tally1 eq_refl)
  end.
  match goal with
  | |- context [if Crux.measured (Crux.cls primaryMetrics) then ?a else ?b] =>
      assert (H2 : forall tally, (if Crux.measured (Crux.cls primaryMetrics) then a else b)
                                 = inr tally -> tally_in_range tally);
      [ intros tally; destruct (Crux.measured (Crux.cls primaryMetrics)) eqn:E;
        [ apply score_metric_in_range; assumption | intros [= <-]; exact H1 ] | ];
      destruct (if Crux.measured (Crux.cls primaryMetrics) then a else b)
        as [e|tally2]; [exact I|]; specialize (H2 tally2 eq_refl)
  end.
  match goal with
  | |- context [if Crux.measured (Crux.inp primaryMetrics) then ?a else ?b] =>
      assert (H3 : forall tally, (if Crux.measured (Crux.inp primaryMetrics) then a else b)
                                 = inr tally -> tally_in_range tally);
      [ intros tally; destruct (Crux.measured (Crux.inp primaryMetrics)) eqn:E;
        [ apply score_metric_in_range; assumption
        | destruct (Crux.measured (Crux.fid primaryMetrics)) eqn:E';
          [ apply score_metric_in_range; assumption | intros [= <-]; exact H2 ] ] | ];
      destruct (if Crux.measured (Crux.inp primaryMetrics) then a else b)
        as [e|tally3]; [exact I|]; specialize (H3 tally3 eq_refl)
  end.
  destruct (conclude_in_range tally3 H3) as [Hrange Hstatus].
  split; [exact Hrange|right; exact Hstatus].
Qed.

(** X25 at a form factor with shares of 80, 60 and 90 out of 100: the score
    is 77 and the status 'Good'. *)
Lemma overall_score_witness :
  match Crux.calculateCoreWebVitalsSummary (Some (shifting_layout (VNum (12 # 100)))) None with
  | inr summary =>
      0 <= Crux.overallScore summary <= 100 /\
      (Crux.status summary = "No data available" /\
       primary_metrics (Some (shifting_layout (VNum (12 # 100)))) None = None
       \/ Crux.status summary = fst (Crux.rate (Crux.overallScore summary)))
  | inl _ => True
  end.
Proof.
  apply (overall_score_is_a_percentage (Some (shifting_layout (VNum (12 # 100)))) None).
  intros primaryMetrics [= <-].
  repeat constructor; vm_compute; congruence.
Defined.

Example summary_of_shifting_layout :
  Crux.calculateCoreWebVitalsSummary (Some (shifting_layout (VNum (12 # 100)))) None
  = inr {| Crux.overallScore := 77;
           Crux.status := "Good";
           Crux.recommendations :=
             "Improve Cumulative Layout Shift (CLS): 0.120 (75th percentile). Target < 0.1."
             :: "Your Core Web Vitals are good, but there's room for improvement."
             :: Crux.general_recommendations |}.
Proof. vm_compute. reflexivity. Qed.

(** X26. A primary form factor without histogram data (no metric with a
    positive total) is not reported as 'No data available': it gets the
    overall score 0, the status 'Poor' and the advice that goes with it. *)
Theorem unmeasured_form_factor_is_rated_poor
    (mobile desktop : option Crux.Parsed) (primaryMetrics : Crux.Parsed) :
  primary_metrics mobile desktop = Some primaryMetrics ->
  List.Forall (fun m => Crux.measured m = false) (scored_metrics primaryMetrics) ->
  Crux.calculateCoreWebVitalsSummary mobile desktop
  = inr {| Crux.overallScore := 0;
           Crux.status := "Poor";
           Crux.recommendations :=
             "Your Core Web Vitals require immediate attention."
             :: Crux.general_recommendations |}.
Proof.
  intros Hprimary Hnone. unfold Crux.calculateCoreWebVitalsSummary.
  fold (primary_metrics mobile desktop). rewrite Hprimary. cbv zeta.
  unfold scored_metrics in Hnone.
  inversion Hnone as [|? ? Hlcp Hrest]; subst.
  inversion Hrest as [|? ? Hcls Hrest']; subst.
  inversion Hrest' as [|? ? Hinp Hrest'']; subst.
  inversion Hrest'' as [|? ? Hfid _]; subst.
  rewrite Hlcp, Hcls, Hinp, Hfid. reflexivity.
Qed.

(** X26 at a mobile form factor whose metrics are all empty. *)
Lemma unmeasured_form_factor_witness :
  Crux.calculateCoreWebVitalsSummary (Some unmeasured) None
  = inr {| Crux.overallScore := 0;
           Crux.status := "Poor";
           Crux.recommendations :=
             "Your Core Web Vitals require immediate attention."
             :: Crux.general_recommendations |}.
Proof.
  apply (unmeasured_form_factor_is_rated_poor (Some unmeasured) None unmeasured);
    [reflexivity|]. repeat constructor.
Defined.

Lemma score_metric_failure (m : Crux.Metric) before digits after tally :
  Crux.measured m = true ->
  is_failure (Crux.score_metric m before digits after tally)
  = needs_advice m && negb (is_number (Crux.p75 m)).
Proof.
  intros Hm. unfold Crux.score_metric, needs_advice. rewrite Hm. cbv zeta.
  destruct (negb (Qle_bool 75 _)); [|reflexivity].
  destruct (Crux.p75 m); reflexivity.
Qed.

Lemma block_failure (m : Crux.Metric) before digits after tally :
  is_failure (if Crux.measured m then Crux.score_metric m before digits after tally
              else inr tally)
  = needs_advice m && negb (is_number (Crux.p75 m)).
Proof.
  destruct (Crux.measured m) eqn:Hm.
  - apply score_metric_failure. exact Hm.
  - unfold needs_advice. rewrite Hm. reflexivity.
Qed.

(** X27. [calculateCoreWebVitalsSummary] throws exactly when a percentile it
    has to print is not a number: when LCP, CLS or the interaction metric
    (INP, or FID without INP data) of the primary form factor has data, a
    share of good experiences below 75 and a [p75] of another type (a string,
    for one), on which [toFixed] cannot be called. *)
Theorem summary_throws_on_unprintable_percentile (mobile desktop : option Crux.Parsed) :
  is_failure (Crux.calculateCoreWebVitalsSummary mobile desktop)
  = match primary_metrics mobile desktop with
    | Some primaryMetrics =>
        existsb (fun m => needs_advice m && negb (is_number (Crux.p75 m)))
                (vitals primaryMetrics)
    | None => false
    end.
Proof.
  unfold Crux.calculateCoreWebVitalsSummary. fold (primary_metrics mobile desktop).
  cbv zeta. destruct (primary_metrics mobile desktop) as [primaryMetrics|]; [|reflexivity].
  unfold vitals. cbn [existsb].
  match goal with
  | |- context [if Crux.measured (Crux.lcp primaryMetrics) then ?a else ?b] =>
      rewrite <- (block_failure (Crux.lcp primaryMetrics)
                    "Optimize Largest Contentful Paint (LCP): " 0
                    "ms (75th percentile). Target < 2.5s."
                    {| Crux.totalScore := 0; Crux.metricCount := 0; Crux.pushed := [] |});
      destruct (if Crux.measured (Crux.lcp primaryMetrics) then a else b) as [e|tally1];
      [reflexivity|]
  end.
  cbn [is_failure orb].
  match goal with
  | |- context [if Crux.measured (Crux.cls primaryMetrics) then ?a else ?b] =>
      rewrite <- (block_failure (Crux.cls primaryMetrics)
                    "Improve Cumulative Layout Shift (CLS): " 3
                    " (75th percentile). Target < 0.1." tally1);
      destruct (if Crux.measured (Crux.cls primaryMetrics) then a else b) as [e|tally2];
      [reflexivity|]
  end.
  cbn [is_failure orb]. rewrite orb_false_r.
  destruct (Crux.measured (Crux.inp primaryMetrics)) eqn:Einp.
  - rewrite <- (score_metric_failure (Crux.inp primaryMetrics)
                  "Optimize Interaction to Next Paint (INP): " 0
                  "ms (75th percentile). Target < 200ms." tally2 Einp).
    destruct (Crux.score_metric (Crux.inp primaryMetrics) _ _ _ tally2); reflexivity.
  - rewrite <- (block_failure (Crux.fid primaryMetrics)
                  "Improve First Input Delay (FID): " 0
                  "ms (75th percentile). Target < 100ms." tally2).
    destruct (if Crux.measured (Crux.fid primaryMetrics) then _ else _); reflexivity.
Qed.

Example summary_of_textual_percentile :
  Crux.calculateCoreWebVitalsSummary (Some (shifting_layout (VStr "0.12"))) None
  = inl (TypeError "toFixed is not a function").
Proof. vm_compute. reflexivity. Qed.

(** X28. [parseMetrics] reads five members of [record.metrics] only: largest
    contentful paint, first input delay, cumulative layout shift, first
    contentful paint (from which the [ttfb] entry is filled) and interaction
    to next paint. Two records that agree on these are parsed alike; what a
    record says about the time to first byte is never read. *)
Theorem parseMetrics_reads_five_metrics (metrics metrics' : JSValue) (formFactor : string) :
  (forall name, In name parsed_names -> get metrics name = get metrics' name) ->
  Crux.parseMetrics metrics formFactor = Crux.parseMetrics metrics' formFactor /\
  match Crux.parseMetrics metrics formFactor with
  | inr parsed =>
      inr (Crux.ttfb parsed) = Crux.parse_metric metrics "first_contentful_paint" formFactor
  | inl _ => True
  end.
Proof.
  intros Hagree. split.
  - unfold Crux.parseMetrics, Crux.parse_metric.
    rewrite !Hagree by (unfold parsed_names; simpl; auto 10). reflexivity.
  - unfold Crux.parseMetrics.
    repeat match goal with
           | |- context [match Crux.parse_metric ?m ?n ?f with _ => _ end] =>
               destruct (Crux.parse_metric m n f); try exact I
           end.
    reflexivity.
Qed.

(** X28 at a record with and without time-to-first-byte data. *)
Lemma parseMetrics_reads_five_metrics_witness :
  let lcp := VObj [("mobile", VObj [("percentiles", VObj [("p75", VNum (1800 # 1))]);
                                    ("histogram", VArr [])])] in
  let metrics := VObj [("largest_contentful_paint", lcp)] in
  let metrics' := VObj [("experimental_time_to_first_byte", lcp);
                        ("largest_contentful_paint", lcp)] in
  Crux.parseMetrics metrics "mobile" = Crux.parseMetrics metrics' "mobile".
Proof.
  intros lcp metrics metrics'.
  apply (parseMetrics_reads_five_metrics metrics metrics' "mobile").
  intros name Hin. unfold parsed_names in Hin. simpl in Hin.
  repeat (destruct Hin as [<-|Hin]; [reflexivity|]). destruct Hin.
Defined.

Example analysis_of_crux_record :
  Crux.analyse crux_record
  = inr {| Crux.recordCount := VNum 0;
           Crux.formFactors :=
             {| Crux.desktop := None; Crux.mobile := None; Crux.tablet := None |};
           Crux.summary :=
             {| Crux.overallScore := 0; Crux.status := "No data available";
                Crux.recommendations := [] |} |}.
Proof. vm_compute. reflexivity. Qed.

Example core_web_vitals_without_metrics :
  outcome (run (Sim.world crux_without_page_data)
               (analyzeCoreWebVitals Crux.crux_analysis "example.com") Sim.no_files)
  = Returned
      (Result "https://example.com" (Some "2023-11-14T22:13:20.000Z")
         (CoreWebVitalsResult "https://example.com"
            (Crux.analysis_value
               {| Crux.recordCount := VNum 0;
                  Crux.formFactors :=
                    {| Crux.desktop := None; Crux.mobile := None; Crux.tablet := None |};
                  Crux.summary :=
                    {| Crux.overallScore := 0; Crux.status := "No data available";
                       Crux.recommendations := [] |} |}))).
Proof. vm_compute. reflexivity. Qed.

(** ** Letter case and the probe of [testWebsite] *)

Lemma lower_ascii_idempotent (c : ascii) : lower_ascii (lower_ascii c) = lower_ascii c.
Proof. destruct c as [[] [] [] [] [] [] [] []]; reflexivity. Qed.

Lemma toLowerCase_idempotent (s : string) : toLowerCase (toLowerCase s) = toLowerCase s.
Proof.
  induction s as [|c s IH]; simpl; [reflexivity|].
  rewrite lower_ascii_idempotent, IH. reflexivity.
Qed.

(** X29. The heuristic does not look at the letter case of the page: a page
    and its lower-case form get the same analysis, and so do any two pages
    that differ in letter case only. *)
Theorem heuristic_ignores_letter_case (page_html : string) :
  MobileFriendly.heuristic (toLowerCase page_html) = MobileFriendly.heuristic page_html /\
  forall other, toLowerCase other = toLowerCase page_html ->
                MobileFriendly.heuristic other = MobileFriendly.heuristic page_html.
Proof.
  split.
  - unfold MobileFriendly.heuristic. rewrite toLowerCase_idempotent. reflexivity.
  - intros other H. unfold MobileFriendly.heuristic. rewrite H. reflexivity.
Qed.

(** X30. [testWebsite] answers from its one request: a status code gives
    [accessible] exactly when it lies between 200 and 399, an error of the
    request or the ten-second timeout gives [statusCode: null] and
    [accessible: false], and each answer carries the URL that was requested.
    The answer of the [catch] block, "Error testing website: ...", is never
    given: when [https.get] itself throws, the handler throws. *)
Theorem testWebsite_answers_from_the_probe (url : string) (w : World) (s : state w) :
  let urlToTest := if startsWith url "http" then url else String.append "https://" url in
  match fst (answer w _ (HttpsProbe urlToTest) s), outcome (run w (testWebsite url) s) with
  | ProbeStatus code, Returned (SiteStatus requested (Some statusCode) accessible message) =>
      requested = urlToTest /\ statusCode = code /\
      (accessible = true <-> 200 <= code < 400) /\
      message = String.append "Website responded with status code: " (string_of_Z code)
  | ProbeError e, Returned (SiteStatus requested None false message) =>
      requested = urlToTest /\ message = String.append "Website is not accessible: " e
  | ProbeTimeout, Returned (SiteStatus requested None false message) =>
      requested = urlToTest /\ message = "Website connection timed out after 10 seconds"
  | ProbeThrew e, Threw error => error = Error_ e
  | _, _ => False
  end.
Proof.
  cbv zeta. unfold testWebsite, probe. cbn -[String.append string_of_Z].
  destruct (answer w _ (HttpsProbe _) s) as [probed s1].
  destruct probed as [code|e| |e]; cbn -[String.append string_of_Z]; auto.
  split; [reflexivity|]. split; [reflexivity|]. split; [|reflexivity].
  rewrite andb_true_iff, Z.leb_le, Z.ltb_lt. reflexivity.
Qed.
